(** * Sensor data service: the MQTT bridge and the HTTP binding

    A shallow embedding of [mqtt_app.py] (the publish/subscribe bridge and its
    ten handlers) and of the [app.py] endpoints that share its queries.
    Handlers are computations in a state-and-exception monad over a world
    that holds the committed table, the open store connections, the trace of
    store calls, and the messages handed to the broker. *)

From Stdlib.Strings Require Import Ascii String Byte.
From Stdlib.Floats Require Import SpecFloat.
From stdpp Require Import base numbers strings gmap list pretty.

Set Warnings "-register-all".
Local Open Scope Z_scope.

(** ** Python values *)

(** The values a handler manipulates: what [json.loads] returns, plus the
    [datetime] objects that come back in rows.  A float is kept as its
    IEEE-754 binary64 bit pattern, a [datetime] as microseconds since the
    epoch, a [str] as its UTF-8 bytes. *)
Inductive pyval : Type :=
| PNone
| PBool (b : bool)
| PInt (z : Z)
| PFloat (bits : Z)
| PStr (s : string)
| PDatetime (t : Z)
| PList (l : list pyval)
| PDict (d : gmap string pyval).

(** A row as [dict_row] hands it over. *)
Abbreviation pyrow := (gmap string pyval).

(** Python truthiness, as used by [if x:] and [not x]. *)
Definition truthy (v : pyval) : bool :=
  match v with
  | PNone => false
  | PBool b => b
  | PInt z => negb (z =? 0)
  | PFloat bits => negb (Z.land bits (2 ^ 63 - 1) =? 0)
  | PStr s => match s with EmptyString => false | String _ _ => true end
  | PDatetime _ => true
  | PList l => match l with [] => false | _ :: _ => true end
  | PDict d => negb (Nat.eqb (size d) 0)
  end.

(** [x is None] *)
Definition is_none (v : pyval) : bool :=
  match v with PNone => true | _ => false end.

(** [isinstance(x, list)] *)
Definition is_list (v : pyval) : bool :=
  match v with PList _ => true | _ => false end.

(** ** Exceptions *)

(** The exception classes that occur; all of them derive from [Exception].
    [IntegrityError] stands for [psycopg.IntegrityError] and its subclasses. *)
Inductive exn_class : Type :=
| UnicodeDecodeError
| UnicodeEncodeError
| JSONDecodeError
| AttributeError
| KeyError
| TypeError
| ValueError
| BadRequest
| IntegrityError
| DataError
| OperationalError
| ProgrammingError.

Record exn : Type := Exn { exn_is : exn_class; exn_str : string }.

Definition is_integrity_error (e : exn) : bool :=
  match exn_is e with IntegrityError => true | _ => false end.

(** The outcome of a call that may raise. *)
Inductive result (A : Type) : Type :=
| Done (a : A)
| Raised (e : exn).
Arguments Done {A} a.
Arguments Raised {A} e.

#[global] Instance result_ret : MRet result := λ A a, Done a.
#[global] Instance result_bind : MBind result := λ A B f r,
  match r with Done a => f a | Raised e => Raised e end.

(** ** The table *)

(** Modelled from the spec: the schema of [sensor_data] is not in the
    repository.  A reading is [time] (a timestamp, here microseconds since the
    epoch), [sensor_id] (an integer, of no stated width), and the nullable
    reals [temperature] and [humidity]; [(time, sensor_id)] is its key. *)
Record Reading : Type := mkReading {
  r_time : Z;
  r_sensor_id : Z;
  r_temperature : option Z;
  r_humidity : option Z
}.

(** ** Library behaviour the code relies on *)

(** What the interpreter, the JSON codec, the driver and the store decide and
    the repository does not: kept abstract, so every statement below holds
    whatever these functions are. *)
Class Runtime : Type := {
  (** [json.loads] and [json.dumps] *)
  json_loads : string → result pyval;
  json_dumps : pyval → string;
  (** [datetime.isoformat] *)
  isoformat : Z → string;
  (** [str(x)] for a float, a datetime, a list or a dict *)
  py_repr : pyval → string;
  (** [float(x)] for an argument that is not already a float *)
  py_float_of : pyval → result Z;
  (** [int(s)], as [request.args.get(..., type=int)] applies it *)
  py_int : string → option Z;
  (** a bound parameter read as a [timestamptz] *)
  pg_timestamptz : pyval → result Z;
  (** a bound parameter that is not a Python int, read as an integer *)
  pg_integer_of : pyval → result Z;
  (** a bound parameter that is neither a float nor None, read as a real *)
  pg_real_of : pyval → result Z;
  (** what [cursor.execute] raises for a statement the driver refuses or the
      store rejects *)
  pg_rejects : string → list pyval → exn;
  (** what the store answers to a statement whose text the caller completed
      (the two [time_bucket] queries), given the text that is sent *)
  pg_run_text : string → list pyval → Z → list Reading → result (list pyrow)
}.

(** [str(x)], as an f-string applies it. *)
Definition py_str `{Runtime} (v : pyval) : string :=
  match v with
  | PNone => "None"
  | PBool true => "True"
  | PBool false => "False"
  | PInt z => pretty z
  | PStr s => s
  | _ => py_repr v
  end.

(** [d.get(key, default)]; anything but a dict has no [get]. *)
Definition py_get (d : pyval) (key : string) (dflt : pyval) : result pyval :=
  match d with
  | PDict m => Done (default dflt (m !! key))
  | _ => Raised (Exn AttributeError "object has no attribute 'get'")
  end.

(** [d[key]] on a row. *)
Definition py_item (d : pyrow) (key : string) : result pyval :=
  match d !! key with
  | Some v => Done v
  | None => Raised (Exn KeyError key)
  end.

(** [x.isoformat()] *)
Definition py_isoformat `{Runtime} (v : pyval) : result pyval :=
  match v with
  | PDatetime t => Done (PStr (isoformat t))
  | _ => Raised (Exn AttributeError "object has no attribute 'isoformat'")
  end.

(** [float(x)] *)
Definition py_float `{Runtime} (v : pyval) : result pyval :=
  match v with
  | PFloat b => Done (PFloat b)
  | _ => b ← py_float_of v; Done (PFloat b)
  end.

(** ** Bytes and text *)

Definition byte_in (lo hi b : Z) : bool := (lo <=? b) && (b <=? hi).

(** Well-formed UTF-8, as the strict decoder of [bytes.decode('utf-8')]
    accepts it: no overlong form, no surrogate, nothing above U+10FFFF. *)
Fixpoint utf8_valid (bs : list Z) : bool :=
  match bs with
  | [] => true
  | b0 :: r1 =>
    if b0 <=? 0x7F then utf8_valid r1
    else
      match r1 with
      | [] => false
      | b1 :: r2 =>
        if byte_in 0xC2 0xDF b0 then byte_in 0x80 0xBF b1 && utf8_valid r2
        else
          match r2 with
          | [] => false
          | b2 :: r3 =>
            if byte_in 0xE0 0xEF b0 then
              (if b0 =? 0xE0 then byte_in 0xA0 0xBF b1
               else if b0 =? 0xED then byte_in 0x80 0x9F b1
               else byte_in 0x80 0xBF b1)
              && byte_in 0x80 0xBF b2 && utf8_valid r3
            else
              match r3 with
              | [] => false
              | b3 :: r4 =>
                if byte_in 0xF0 0xF4 b0 then
                  (if b0 =? 0xF0 then byte_in 0x90 0xBF b1
                   else if b0 =? 0xF4 then byte_in 0x80 0x8F b1
                   else byte_in 0x80 0xBF b1)
                  && byte_in 0x80 0xBF b2 && byte_in 0x80 0xBF b3 && utf8_valid r4
                else false
              end
          end
      end
  end.

(** [payload.decode('utf-8')] *)
Definition decode_utf8 (bs : list byte) : result string :=
  if utf8_valid ((λ b, Z.of_N (Byte.to_N b)) <$> bs)
  then Done (string_of_list_byte bs)
  else Raised (Exn UnicodeDecodeError "'utf-8' codec can't decode bytes").

(** [s[:n]]: the first [n] characters of a text held as UTF-8 bytes. *)
Fixpoint str_prefix (n : nat) (s : string) : string :=
  match s with
  | EmptyString => EmptyString
  | String a s' =>
    if byte_in 0x80 0xBF (Z.of_N (N_of_ascii a)) then String a (str_prefix n s')
    else match n with
         | O => EmptyString
         | S n' => String a (str_prefix n' s')
         end
  end.

(** ** The placeholders of a query *)

(** [needle in s] *)
Fixpoint contains (needle s : string) : bool :=
  String.prefix needle s ||
  match s with
  | EmptyString => false
  | String _ s' => contains needle s'
  end.

Definition is_percent (a : ascii) : bool := Ascii.eqb a "%".

(** The format of a placeholder: [%s], [%b] or [%t]. *)
Definition is_format (a : ascii) : bool :=
  Ascii.eqb a "s" || Ascii.eqb a "b" || Ascii.eqb a "t".

Definition is_newline (a : ascii) : bool := Ascii.eqb a "010".

(** The code imports psycopg 3, which binds the parameters on the server.
    Before it sends a query that comes with parameters it rewrites the text,
    with no regard for the quoting of SQL: each [%s], [%b] or [%t] becomes
    the next of [$1], [$2], ...; [%%] becomes [%]; a [%] right before a line
    break or at the very end stays; any other [%] is refused, a named
    placeholder too, since the parameters come as a tuple.  [n] counts the
    placeholders met so far. *)
Fixpoint pg_placeholders (s : string) (n : nat) : option (string * nat) :=
  match s with
  | EmptyString => Some (EmptyString, n)
  | String a rest =>
    if is_percent a then
      match rest with
      | EmptyString => Some (String a EmptyString, n)
      | String c rest' =>
        if is_percent c then
          '(t, m) ← pg_placeholders rest' n; Some (String a t, m)
        else if is_format c then
          '(t, m) ← pg_placeholders rest' (S n); Some ("$" +:+ pretty (S n) +:+ t, m)
        else if is_newline c then
          '(t, m) ← pg_placeholders rest n; Some (String a t, m)
        else None
      end
    else '(t, m) ← pg_placeholders rest n; Some (String a t, m)
  end.

(** The text that is sent for [cursor.execute(text, params)], if the driver
    accepts the query: the placeholders rewritten, as many of them as there
    are parameters. *)
Definition pg_query {A : Type} (text : string) (params : list A) : option string :=
  '(sent, n) ← pg_placeholders text 0;
  if decide (n = length params) then Some sent else None.

(** A text without [%]. *)
Fixpoint no_percent (s : string) : bool :=
  match s with
  | EmptyString => true
  | String a rest => negb (is_percent a) && no_percent rest
  end.

(** ** The statements *)

(** The statement texts, as the handlers write them.  [mqtt_app.py] and
    [app.py] use the same fourteen texts. *)
Definition q_select_range_sensor : string :=
"
                SELECT time, sensor_id, temperature, humidity 
                FROM sensor_data 
                WHERE sensor_id = %s AND time > NOW() - INTERVAL '%s hours'
                ORDER BY time DESC 
                LIMIT %s
            ".

Definition q_select_range_all : string :=
"
                SELECT time, sensor_id, temperature, humidity 
                FROM sensor_data 
                WHERE time > NOW() - INTERVAL '%s hours'
                ORDER BY time DESC 
                LIMIT %s
            ".

Definition q_select_sensor : string :=
"
            SELECT time, sensor_id, temperature, humidity 
            FROM sensor_data 
            WHERE sensor_id = %s AND time > NOW() - INTERVAL '%s hours'
            ORDER BY time DESC
        ".

Definition q_insert_at_returning : string :=
"
                INSERT INTO sensor_data (time, sensor_id, temperature, humidity)
                VALUES (%s, %s, %s, %s)
                RETURNING time, sensor_id, temperature, humidity
            ".

Definition q_insert_now_returning : string :=
"
                INSERT INTO sensor_data (time, sensor_id, temperature, humidity)
                VALUES (NOW(), %s, %s, %s)
                RETURNING time, sensor_id, temperature, humidity
            ".

Definition q_insert_at : string :=
"
                    INSERT INTO sensor_data (time, sensor_id, temperature, humidity)
                    VALUES (%s, %s, %s, %s)
                ".

Definition q_insert_now : string :=
"
                    INSERT INTO sensor_data (time, sensor_id, temperature, humidity)
                    VALUES (NOW(), %s, %s, %s)
                ".

Definition q_update_coalesce : string :=
"
            UPDATE sensor_data 
            SET temperature = COALESCE(%s, temperature),
                humidity = COALESCE(%s, humidity)
            WHERE time = %s AND sensor_id = %s
            RETURNING time, sensor_id, temperature, humidity
        ".

Definition q_delete_one : string :=
"
            DELETE FROM sensor_data 
            WHERE time = %s AND sensor_id = %s
        ".

Definition q_delete_sensor : string :=
"DELETE FROM sensor_data WHERE sensor_id = %s".

Definition q_stats_sensor : string :=
"
                SELECT 
                    sensor_id,
                    COUNT(*) as total_readings,
                    AVG(temperature) as avg_temperature,
                    MIN(temperature) as min_temperature,
                    MAX(temperature) as max_temperature,
                    AVG(humidity) as avg_humidity,
                    MIN(humidity) as min_humidity,
                    MAX(humidity) as max_humidity,
                    MIN(time) as first_reading,
                    MAX(time) as last_reading
                FROM sensor_data 
                WHERE sensor_id = %s AND time > NOW() - INTERVAL '%s hours'
                GROUP BY sensor_id
            ".

Definition q_stats_all : string :=
"
                SELECT 
                    sensor_id,
                    COUNT(*) as total_readings,
                    AVG(temperature) as avg_temperature,
                    MIN(temperature) as min_temperature,
                    MAX(temperature) as max_temperature,
                    AVG(humidity) as avg_humidity,
                    MIN(humidity) as min_humidity,
                    MAX(humidity) as max_humidity,
                    MIN(time) as first_reading,
                    MAX(time) as last_reading
                FROM sensor_data 
                WHERE time > NOW() - INTERVAL '%s hours'
                GROUP BY sensor_id
                ORDER BY sensor_id
            ".

Definition q_bucket_head : string :=
"
                SELECT 
                    time_bucket('".

Definition q_bucket_sensor_tail : string :=
"', time) AS bucket,
                    sensor_id,
                    AVG(temperature) as avg_temperature,
                    AVG(humidity) as avg_humidity,
                    COUNT(*) as readings
                FROM sensor_data 
                WHERE sensor_id = %s AND time > NOW() - INTERVAL '%s hours'
                GROUP BY bucket, sensor_id
                ORDER BY bucket DESC
            ".

Definition q_bucket_all_tail : string :=
"', time) AS bucket,
                    sensor_id,
                    AVG(temperature) as avg_temperature,
                    AVG(humidity) as avg_humidity,
                    COUNT(*) as readings
                FROM sensor_data 
                WHERE time > NOW() - INTERVAL '%s hours'
                GROUP BY bucket, sensor_id
                ORDER BY bucket DESC, sensor_id
            ".

(** The statements a handler can execute.  The two [time_bucket] statements
    carry the text the f-string spliced into them. *)
Inductive Query : Type :=
| SelectRangeSensor
| SelectRangeAll
| SelectSensor
| InsertAtReturning
| InsertNowReturning
| InsertAt
| InsertNow
| UpdateCoalesce
| DeleteOne
| DeleteSensor
| StatsSensor
| StatsAll
| BucketSensor (bucket : string)
| BucketAll (bucket : string).

(** The text handed to [cursor.execute]. *)
Definition sql_text (q : Query) : string :=
  match q with
  | SelectRangeSensor => q_select_range_sensor
  | SelectRangeAll => q_select_range_all
  | SelectSensor => q_select_sensor
  | InsertAtReturning => q_insert_at_returning
  | InsertNowReturning => q_insert_now_returning
  | InsertAt => q_insert_at
  | InsertNow => q_insert_now
  | UpdateCoalesce => q_update_coalesce
  | DeleteOne => q_delete_one
  | DeleteSensor => q_delete_sensor
  | StatsSensor => q_stats_sensor
  | StatsAll => q_stats_all
  | BucketSensor bucket => q_bucket_head +:+ bucket +:+ q_bucket_sensor_tail
  | BucketAll bucket => q_bucket_head +:+ bucket +:+ q_bucket_all_tail
  end.

(** ** What the store does with a statement *)

Section Store.
Context `{Runtime}.

(** A bound parameter as the column type it meets.  Python ints, floats and
    None have a fixed reading; for anything else the driver and the store
    decide. *)
Definition as_integer (v : pyval) : result Z :=
  match v with
  | PInt z => Done z
  | _ => pg_integer_of v
  end.

Definition as_real (v : pyval) : result (option Z) :=
  match v with
  | PNone => Done None
  | PFloat b => Done (Some b)
  | _ => b ← pg_real_of v; Done (Some b)
  end.

Definition real_or_null (o : option Z) : pyval := from_option PFloat PNone o.

(** [SELECT time, sensor_id, temperature, humidity] of one reading. *)
Definition reading_row (r : Reading) : pyrow :=
  list_to_map [("time", PDatetime (r_time r)); ("sensor_id", PInt (r_sensor_id r));
               ("temperature", real_or_null (r_temperature r));
               ("humidity", real_or_null (r_humidity r))].

(** Modelled from the spec: the store rejects an insert whose
    [(time, sensor_id)] is already there. *)
Definition sql_insert (t s : Z) (temp hum : option Z) (rows : list Reading)
  : result (list Reading * Reading) :=
  if decide (Exists (λ r, r_time r = t ∧ r_sensor_id r = s) rows)
  then Raised (Exn IntegrityError "duplicate key value violates unique constraint")
  else let r := mkReading t s temp hum in Done (rows ++ [r], r).

(** [COALESCE(new, old)] *)
Definition coalesce (new old : option Z) : option Z :=
  match new with
  | Some x => Some x
  | None => old
  end.

(** [SET temperature = COALESCE(%s, temperature), humidity = COALESCE(%s, humidity)] *)
Definition set_coalesce (temp hum : option Z) (r : Reading) : Reading :=
  mkReading (r_time r) (r_sensor_id r)
            (coalesce temp (r_temperature r)) (coalesce hum (r_humidity r)).

(** [UPDATE ... WHERE time = t AND sensor_id = s]: the table afterwards. *)
Definition sql_update (temp hum : option Z) (t s : Z) (rows : list Reading) : list Reading :=
  (λ r, if decide (r_time r = t ∧ r_sensor_id r = s) then set_coalesce temp hum r else r) <$> rows.

(** ... and the rows it returns. *)
Definition sql_updated (temp hum : option Z) (t s : Z) (rows : list Reading) : list Reading :=
  set_coalesce temp hum <$> filter (λ r, r_time r = t ∧ r_sensor_id r = s) rows.

Definition bad_arity : exn :=
  Exn ProgrammingError "the query has a different number of placeholders than parameters".

(** A statement run on the rows a transaction sees at time [now]: the rows
    afterwards, the result set, and [rowcount].

    The statements with a time window write the hours as
    [INTERVAL '%s hours'], a placeholder inside a quoted literal.  The driver
    rewrites it like any other ([pg_placeholders]), so the store receives the
    literal ['$n hours'], which is no interval, and rejects the statement:
    whatever the parameters are, [cursor.execute] raises.  The two
    [time_bucket] statements have the same literal, but they also hold text
    of the caller, which decides what the store is asked: the driver's part
    is modelled ([pg_query]), and what the store makes of the text that is
    sent is left to [pg_run_text]. *)
Definition run_query (q : Query) (params : list pyval) (now : Z) (rows : list Reading)
  : result (list Reading * list pyrow * Z) :=
  match q, params with
  | SelectRangeSensor, [_; _; _] | SelectRangeAll, [_; _] | SelectSensor, [_; _]
  | StatsSensor, [_; _] | StatsAll, [_] =>
    Raised (pg_rejects (sql_text q) params)
  | InsertAtReturning, [time; sensor_id; temperature; humidity] =>
    t ← pg_timestamptz time; s ← as_integer sensor_id;
    temp ← as_real temperature; hum ← as_real humidity;
    '(rows', r) ← sql_insert t s temp hum rows;
    Done (rows', [reading_row r], 1)
  | InsertNowReturning, [sensor_id; temperature; humidity] =>
    s ← as_integer sensor_id;
    temp ← as_real temperature; hum ← as_real humidity;
    '(rows', r) ← sql_insert now s temp hum rows;
    Done (rows', [reading_row r], 1)
  | InsertAt, [time; sensor_id; temperature; humidity] =>
    t ← pg_timestamptz time; s ← as_integer sensor_id;
    temp ← as_real temperature; hum ← as_real humidity;
    '(rows', _) ← sql_insert t s temp hum rows;
    Done (rows', [], 1)
  | InsertNow, [sensor_id; temperature; humidity] =>
    s ← as_integer sensor_id;
    temp ← as_real temperature; hum ← as_real humidity;
    '(rows', _) ← sql_insert now s temp hum rows;
    Done (rows', [], 1)
  | UpdateCoalesce, [temperature; humidity; time; sensor_id] =>
    temp ← as_real temperature; hum ← as_real humidity;
    t ← pg_timestamptz time; s ← as_integer sensor_id;
    let hit := sql_updated temp hum t s rows in
    Done (sql_update temp hum t s rows, reading_row <$> hit, Z.of_nat (length hit))
  | DeleteOne, [time; sensor_id] =>
    t ← pg_timestamptz time; s ← as_integer sensor_id;
    let hit := filter (λ r, r_time r = t ∧ r_sensor_id r = s) rows in
    Done (filter (λ r, ¬ (r_time r = t ∧ r_sensor_id r = s)) rows, [], Z.of_nat (length hit))
  | DeleteSensor, [sensor_id] =>
    s ← as_integer sensor_id;
    let hit := filter (λ r, r_sensor_id r = s) rows in
    Done (filter (λ r, r_sensor_id r ≠ s) rows, [], Z.of_nat (length hit))
  | BucketSensor _, [_; _] | BucketAll _, [_] =>
    match pg_query (sql_text q) params with
    | Some sent =>
      out ← pg_run_text sent params now rows;
      Done (rows, out, Z.of_nat (length out))
    | None => Raised (pg_rejects (sql_text q) params)
    end
  | _, _ => Raised bad_arity
  end.

End Store.

(** ** The world a handler runs in *)

(** An open connection: the rows its transaction sees, and the cursor's last
    result set and [rowcount].  A handler uses one cursor per connection, so
    the cursor's state is kept with the connection. *)
Record Conn : Type := mkConn {
  conn_work : list Reading;
  conn_rows : list pyrow;
  conn_rowcount : Z
}.

(** The trace of store calls: a connection made, a text handed to
    [cursor.execute] with its parameters, a commit that went through, a
    connection closed. *)
Inductive Event : Type :=
| EvConnect (c : nat)
| EvExecute (c : nat) (text : string) (params : list pyval)
| EvCommit (c : nat)
| EvClose (c : nat).

(** A message handed to [client.publish]. *)
Record Message : Type := mkMessage {
  msg_topic : string;
  msg_payload : string;
  msg_qos : Z
}.

Inductive LogLevel : Type := INFO | WARNING | ERROR.

(** [table] is the committed content of [sensor_data] and [clock] the store's
    [NOW()].  [faults] schedules the failures of the store: each connect,
    execute and commit consumes one entry and raises it if there is one.
    [conns] are the connections that are open. *)
Record World : Type := mkWorld {
  table : list Reading;
  clock : Z;
  faults : list (option exn);
  conns : gmap nat Conn;
  events : list Event;
  outbox : list Message;
  journal : list (LogLevel * string)
}.

(** A computation that reads and changes the world and may raise. *)
Definition M (A : Type) : Type := World → result A * World.

Definition ret {A : Type} (a : A) : M A := λ w, (Done a, w).

Definition bind {A B : Type} (m : M A) (k : A → M B) : M B :=
  λ w, match m w with
       | (Done a, w') => k a w'
       | (Raised e, w') => (Raised e, w')
       end.

Notation "'let!' x ':=' c 'in' k" := (bind c (λ x, k))
  (at level 10, x name, c at level 100, k at level 200).
Notation "c ;;; k" := (bind c (λ _, k))
  (at level 100, k at level 200, right associativity).

(** A pure call that may raise. *)
Definition lift {A : Type} (r : result A) : M A := λ w, (r, w).

(** [try: body / except Exception as e: handler e] *)
Definition try_except {A : Type} (body : M A) (handler : exn → M A) : M A :=
  λ w, match body w with
       | (Done a, w') => (Done a, w')
       | (Raised e, w') => handler e w'
       end.

(** [for x in xs: body x] *)
Fixpoint for_each {A : Type} (xs : list A) (body : A → M unit) : M unit :=
  match xs with
  | [] => ret tt
  | x :: xs' => body x ;;; for_each xs' body
  end.

Definition with_faults (fs : list (option exn)) (w : World) : World :=
  mkWorld (table w) (clock w) fs (conns w) (events w) (outbox w) (journal w).

Definition with_conns (cs : gmap nat Conn) (w : World) : World :=
  mkWorld (table w) (clock w) (faults w) cs (events w) (outbox w) (journal w).

Definition with_table (rows : list Reading) (w : World) : World :=
  mkWorld rows (clock w) (faults w) (conns w) (events w) (outbox w) (journal w).

Definition record_event (ev : Event) (w : World) : World :=
  mkWorld (table w) (clock w) (faults w) (conns w) (events w ++ [ev]) (outbox w) (journal w).

(** The next entry of the fault schedule. *)
Definition fault_point : M unit :=
  λ w, match hd None (faults w) with
       | Some e => (Raised e, with_faults (tl (faults w)) w)
       | None => (Done tt, with_faults (tl (faults w)) w)
       end.

Definition closed_connection : exn := Exn OperationalError "the connection is closed".

(** [psycopg.connect] with [row_factory=dict_row]: a connection with a
    number no open connection has, whose transaction starts from the committed
    table. *)
Definition get_db_connection : M nat :=
  fault_point ;;;
  λ w, let c := fresh (dom (conns w)) in
       (Done c, record_event (EvConnect c)
                  (with_conns (<[c := mkConn (table w) [] (-1)]> (conns w)) w)).

(** [conn.cursor()] and [cursor.close()] *)
Definition conn_cursor (conn : nat) : M nat := ret conn.
Definition cursor_close (cursor : nat) : M unit := ret tt.

(** The state of an open connection. *)
Definition the_conn (c : nat) : M Conn :=
  λ w, match conns w !! c with
       | Some k => (Done k, w)
       | None => (Raised closed_connection, w)
       end.

Section StoreCalls.
Context `{Runtime}.

(** [cursor.execute(query, params)] *)
Definition execute (cursor : nat) (q : Query) (params : list pyval) : M unit :=
  (λ w, (Done tt, record_event (EvExecute cursor (sql_text q) params) w)) ;;;
  fault_point ;;;
  let! k := the_conn cursor in
  λ w, match run_query q params (clock w) (conn_work k) with
       | Done (rows, out, n) => (Done tt, with_conns (<[cursor := mkConn rows out n]> (conns w)) w)
       | Raised e => (Raised e, w)
       end.

End StoreCalls.

(** [cursor.fetchall()], [cursor.fetchone()], [cursor.rowcount] *)
Definition fetchall (cursor : nat) : M (list pyrow) :=
  let! k := the_conn cursor in ret (conn_rows k).

Definition fetchone (cursor : nat) : M (option pyrow) :=
  let! k := the_conn cursor in ret (head (conn_rows k)).

Definition rowcount (cursor : nat) : M Z :=
  let! k := the_conn cursor in ret (conn_rowcount k).

(** [conn.commit()]: the rows of the transaction become the table. *)
Definition conn_commit (conn : nat) : M unit :=
  fault_point ;;;
  let! k := the_conn conn in
  λ w, (Done tt, record_event (EvCommit conn) (with_table (conn_work k) w)).

(** [conn.close()]: what was not committed is gone with the connection. *)
Definition conn_close (conn : nat) : M unit :=
  λ w, (Done tt, record_event (EvClose conn) (with_conns (delete conn (conns w)) w)).

(** [dict(row)] *)
Definition py_dict (row : option pyrow) : result pyrow :=
  match row with
  | Some d => Done d
  | None => Raised (Exn TypeError "'NoneType' object is not iterable")
  end.

(** [client.publish(topic, payload, qos=1)] *)
Definition client_publish (topic payload : string) (qos : Z) : M unit :=
  λ w, (Done tt, mkWorld (table w) (clock w) (faults w) (conns w) (events w)
                         (outbox w ++ [mkMessage topic payload qos]) (journal w)).

(** [logger.info], [logger.warning] *)
Definition logger (level : LogLevel) (text : string) : M unit :=
  λ w, (Done tt, mkWorld (table w) (clock w) (faults w) (conns w) (events w)
                         (outbox w) (journal w ++ [(level, text)])).

(** ** mqtt_app.py *)

Definition TOPICS : list (string * string) :=
  [("health_request", "sensors/health/request");
   ("get_all_request", "sensors/get_all/request");
   ("get_by_id_request", "sensors/get_by_id/request");
   ("create_request", "sensors/create/request");
   ("create_bulk_request", "sensors/create_bulk/request");
   ("update_request", "sensors/update/request");
   ("delete_request", "sensors/delete/request");
   ("delete_by_id_request", "sensors/delete_by_id/request");
   ("stats_request", "sensors/stats/request");
   ("time_bucket_request", "sensors/time_bucket/request");
   ("health_response", "sensors/health/response");
   ("get_all_response", "sensors/get_all/response");
   ("get_by_id_response", "sensors/get_by_id/response");
   ("create_response", "sensors/create/response");
   ("create_bulk_response", "sensors/create_bulk/response");
   ("update_response", "sensors/update/response");
   ("delete_response", "sensors/delete/response");
   ("delete_by_id_response", "sensors/delete_by_id/response");
   ("stats_response", "sensors/stats/response");
   ("time_bucket_response", "sensors/time_bucket/response")].

(** [TOPICS[name]], for the names the table has. *)
Definition TOPICS_at (name : string) : string :=
  default EmptyString (snd <$> head (filter (λ kv, kv.1 = name) TOPICS)).

(** A dict display [{k1: v1, ...}]. *)
Definition dict_of (items : list (string * pyval)) : pyval := PDict (list_to_map items).

Section Handlers.
Context `{Runtime}.

(** The [client] argument of the handlers is the one broker session; what is
    published on it is appended to [outbox]. *)
Definition publish_response (topic : string) (data : pyval) (status_code : Z) : M unit :=
  let response := dict_of [("status_code", PInt status_code); ("data", data)] in
  client_publish topic (json_dumps response) 1 ;;;
  logger INFO ("Published to " +:+ topic +:+ ": " +:+ str_prefix 100 (json_dumps response) +:+ "...").

(** [json.loads(payload) if payload else dflt] *)
Definition loads_or (payload : string) (dflt : pyval) : result pyval :=
  if truthy (PStr payload) then json_loads payload else Done dflt.

(** [row_dict = dict(row); row_dict[key] = row_dict[key].isoformat()] *)
Definition iso_row (key : string) (row : pyrow) : result pyrow :=
  v ← py_item row key; s ← py_isoformat v; Done (<[key := s]> row).

(** [if row_dict[key]: row_dict[key] = row_dict[key].isoformat()] *)
Definition iso_if_set (key : string) (row : pyrow) : result pyrow :=
  v ← py_item row key;
  if truthy v then s ← py_isoformat v; Done (<[key := s]> row) else Done row.

(** [if row_dict[key] is not None: row_dict[key] = float(row_dict[key])] *)
Definition float_if_set (key : string) (row : pyrow) : result pyrow :=
  v ← py_item row key;
  if is_none v then Done row else f ← py_float v; Done (<[key := f]> row).

Fixpoint float_keys (keys : list string) (row : pyrow) : result pyrow :=
  match keys with
  | [] => Done row
  | key :: keys' => row' ← float_if_set key row; float_keys keys' row'
  end.

(** The loops that build [result] from the fetched rows. *)
Fixpoint shape_rows (shape : pyrow → result pyrow) (rows : list pyrow) : result (list pyval) :=
  match rows with
  | [] => Done []
  | row :: rows' => d ← shape row; ds ← shape_rows shape rows'; Done (PDict d :: ds)
  end.

Definition stats_shape (row : pyrow) : result pyrow :=
  r1 ← iso_if_set "first_reading" row;
  r2 ← iso_if_set "last_reading" r1;
  float_keys ["avg_temperature"; "min_temperature"; "max_temperature";
              "avg_humidity"; "min_humidity"; "max_humidity"] r2.

Definition bucket_shape (row : pyrow) : result pyrow :=
  r1 ← iso_row "bucket" row;
  r2 ← float_if_set "avg_temperature" r1;
  float_if_set "avg_humidity" r2.

Definition handle_health_check (payload : string) : M unit :=
  try_except
    (let! conn := get_db_connection in
     conn_close conn ;;;
     publish_response (TOPICS_at "health_response")
       (dict_of [("status", PStr "healthy"); ("database", PStr "connected")]) 200)
    (λ e, publish_response (TOPICS_at "health_response")
            (dict_of [("status", PStr "unhealthy"); ("error", PStr (exn_str e))]) 500).

Definition handle_get_all_sensors (payload : string) : M unit :=
  try_except
    (let! conn := get_db_connection in
     let! cursor := conn_cursor conn in
     let! data := lift (loads_or payload (dict_of [])) in
     let! sensor_id := lift (py_get data "sensor_id" PNone) in
     let! hours := lift (py_get data "hours" (PInt 24)) in
     let! limit := lift (py_get data "limit" (PInt 100)) in
     (if truthy sensor_id
      then execute cursor SelectRangeSensor [sensor_id; hours; limit]
      else execute cursor SelectRangeAll [hours; limit]) ;;;
     let! data := fetchall cursor in
     cursor_close cursor ;;;
     conn_close conn ;;;
     let! result := lift (shape_rows (iso_row "time") data) in
     publish_response (TOPICS_at "get_all_response")
       (dict_of [("data", PList result); ("count", PInt (Z.of_nat (length result)))]) 200)
    (λ e, publish_response (TOPICS_at "get_all_response")
            (dict_of [("error", PStr (exn_str e))]) 500).

Definition handle_get_sensor_by_id (payload : string) : M unit :=
  try_except
    (let! data := lift (loads_or payload (dict_of [])) in
     let! sensor_id := lift (py_get data "sensor_id" PNone) in
     let! hours := lift (py_get data "hours" (PInt 24)) in
     if is_none sensor_id then
       publish_response (TOPICS_at "get_by_id_response")
         (dict_of [("error", PStr "sensor_id is required")]) 400
     else
       let! conn := get_db_connection in
       let! cursor := conn_cursor conn in
       execute cursor SelectSensor [sensor_id; hours] ;;;
       let! data := fetchall cursor in
       cursor_close cursor ;;;
       conn_close conn ;;;
       let! result := lift (shape_rows (iso_row "time") data) in
       publish_response (TOPICS_at "get_by_id_response")
         (dict_of [("data", PList result); ("count", PInt (Z.of_nat (length result)))]) 200)
    (λ e, publish_response (TOPICS_at "get_by_id_response")
            (dict_of [("error", PStr (exn_str e))]) 500).

Definition handle_create_sensor (payload : string) : M unit :=
  try_except
    (let! data := lift (loads_or payload (dict_of [])) in
     if negb (truthy data) then
       publish_response (TOPICS_at "create_response")
         (dict_of [("error", PStr "No data provided")]) 400
     else
       let! sensor_id := lift (py_get data "sensor_id" PNone) in
       let! temperature := lift (py_get data "temperature" PNone) in
       let! humidity := lift (py_get data "humidity" PNone) in
       let! time := lift (py_get data "time" PNone) in
       if is_none sensor_id then
         publish_response (TOPICS_at "create_response")
           (dict_of [("error", PStr "sensor_id is required")]) 400
       else
         let! conn := get_db_connection in
         let! cursor := conn_cursor conn in
         (if truthy time
          then execute cursor InsertAtReturning [time; sensor_id; temperature; humidity]
          else execute cursor InsertNowReturning [sensor_id; temperature; humidity]) ;;;
         let! new_record := fetchone cursor in
         conn_commit conn ;;;
         cursor_close cursor ;;;
         conn_close conn ;;;
         let! result := lift (d ← py_dict new_record; iso_row "time" d) in
         publish_response (TOPICS_at "create_response")
           (dict_of [("message", PStr "Sensor data created successfully");
                     ("data", PDict result)]) 201)
    (λ e, if is_integrity_error e then
            publish_response (TOPICS_at "create_response")
              (dict_of [("error", PStr "Duplicate entry for this time and sensor_id")]) 409
          else
            publish_response (TOPICS_at "create_response")
              (dict_of [("error", PStr (exn_str e))]) 500).

(** The body of [for entry in data:], with [inserted_count] threaded through. *)
Fixpoint bulk_loop (cursor : nat) (data : list pyval) (inserted_count : Z) : M Z :=
  match data with
  | [] => ret inserted_count
  | entry :: rest =>
    let! sensor_id := lift (py_get entry "sensor_id" PNone) in
    let! temperature := lift (py_get entry "temperature" PNone) in
    let! humidity := lift (py_get entry "humidity" PNone) in
    let! time := lift (py_get entry "time" PNone) in
    if is_none sensor_id then bulk_loop cursor rest inserted_count
    else
      (if truthy time
       then execute cursor InsertAt [time; sensor_id; temperature; humidity]
       else execute cursor InsertNow [sensor_id; temperature; humidity]) ;;;
      bulk_loop cursor rest (inserted_count + 1)
  end.

(** Iterating over [data] once the guard has made sure it is a list. *)
Definition list_items (data : pyval) : list pyval :=
  match data with
  | PList l => l
  | _ => []
  end.

Definition handle_create_bulk_sensors (payload : string) : M unit :=
  try_except
    (let! data := lift (loads_or payload (PList [])) in
     if negb (truthy data) || negb (is_list data) then
       publish_response (TOPICS_at "create_bulk_response")
         (dict_of [("error", PStr "Expected a list of sensor data")]) 400
     else
       let! conn := get_db_connection in
       let! cursor := conn_cursor conn in
       let! inserted_count := bulk_loop cursor (list_items data) 0 in
       conn_commit conn ;;;
       cursor_close cursor ;;;
       conn_close conn ;;;
       publish_response (TOPICS_at "create_bulk_response")
         (dict_of [("message", PStr (pretty inserted_count +:+ " records inserted successfully"))]) 201)
    (λ e, publish_response (TOPICS_at "create_bulk_response")
            (dict_of [("error", PStr (exn_str e))]) 500).

(** [not updated_record] *)
Definition no_record (row : option pyrow) : bool :=
  match row with
  | None => true
  | Some d => negb (truthy (PDict d))
  end.

Definition handle_update_sensor (payload : string) : M unit :=
  try_except
    (let! data := lift (loads_or payload (dict_of [])) in
     if negb (truthy data) then
       publish_response (TOPICS_at "update_response")
         (dict_of [("error", PStr "No data provided")]) 400
     else
       let! time := lift (py_get data "time" PNone) in
       let! sensor_id := lift (py_get data "sensor_id" PNone) in
       if negb (truthy time) || is_none sensor_id then
         publish_response (TOPICS_at "update_response")
           (dict_of [("error", PStr "time and sensor_id are required to identify the record")]) 400
       else
         let! temperature := lift (py_get data "temperature" PNone) in
         let! humidity := lift (py_get data "humidity" PNone) in
         let! conn := get_db_connection in
         let! cursor := conn_cursor conn in
         execute cursor UpdateCoalesce [temperature; humidity; time; sensor_id] ;;;
         let! updated_record := fetchone cursor in
         if no_record updated_record then
           cursor_close cursor ;;;
           conn_close conn ;;;
           publish_response (TOPICS_at "update_response")
             (dict_of [("error", PStr "Record not found")]) 404
         else
           conn_commit conn ;;;
           cursor_close cursor ;;;
           conn_close conn ;;;
           let! result := lift (d ← py_dict updated_record; iso_row "time" d) in
           publish_response (TOPICS_at "update_response")
             (dict_of [("message", PStr "Sensor data updated successfully");
                       ("data", PDict result)]) 200)
    (λ e, publish_response (TOPICS_at "update_response")
            (dict_of [("error", PStr (exn_str e))]) 500).

Definition handle_delete_sensor (payload : string) : M unit :=
  try_except
    (let! data := lift (loads_or payload (dict_of [])) in
     let! time := lift (py_get data "time" PNone) in
     let! sensor_id := lift (py_get data "sensor_id" PNone) in
     if negb (truthy time) || is_none sensor_id then
       publish_response (TOPICS_at "delete_response")
         (dict_of [("error", PStr "time and sensor_id are required")]) 400
     else
       let! conn := get_db_connection in
       let! cursor := conn_cursor conn in
       execute cursor DeleteOne [time; sensor_id] ;;;
       let! deleted_count := rowcount cursor in
       conn_commit conn ;;;
       cursor_close cursor ;;;
       conn_close conn ;;;
       if deleted_count =? 0 then
         publish_response (TOPICS_at "delete_response")
           (dict_of [("error", PStr "Record not found")]) 404
       else
         publish_response (TOPICS_at "delete_response")
           (dict_of [("message", PStr "Sensor data deleted successfully");
                     ("deleted_count", PInt deleted_count)]) 200)
    (λ e, publish_response (TOPICS_at "delete_response")
            (dict_of [("error", PStr (exn_str e))]) 500).

Definition handle_delete_sensor_by_id (payload : string) : M unit :=
  try_except
    (let! data := lift (loads_or payload (dict_of [])) in
     let! sensor_id := lift (py_get data "sensor_id" PNone) in
     if is_none sensor_id then
       publish_response (TOPICS_at "delete_by_id_response")
         (dict_of [("error", PStr "sensor_id is required")]) 400
     else
       let! conn := get_db_connection in
       let! cursor := conn_cursor conn in
       execute cursor DeleteSensor [sensor_id] ;;;
       let! deleted_count := rowcount cursor in
       conn_commit conn ;;;
       cursor_close cursor ;;;
       conn_close conn ;;;
       publish_response (TOPICS_at "delete_by_id_response")
         (dict_of [("message", PStr ("Deleted " +:+ pretty deleted_count +:+
                                     " records for sensor " +:+ py_str sensor_id))]) 200)
    (λ e, publish_response (TOPICS_at "delete_by_id_response")
            (dict_of [("error", PStr (exn_str e))]) 500).

Definition handle_get_stats (payload : string) : M unit :=
  try_except
    (let! data := lift (loads_or payload (dict_of [])) in
     let! hours := lift (py_get data "hours" (PInt 24)) in
     let! sensor_id := lift (py_get data "sensor_id" PNone) in
     let! conn := get_db_connection in
     let! cursor := conn_cursor conn in
     (if truthy sensor_id
      then execute cursor StatsSensor [sensor_id; hours]
      else execute cursor StatsAll [hours]) ;;;
     let! stats := fetchall cursor in
     cursor_close cursor ;;;
     conn_close conn ;;;
     let! result := lift (shape_rows stats_shape stats) in
     publish_response (TOPICS_at "stats_response") (dict_of [("data", PList result)]) 200)
    (λ e, publish_response (TOPICS_at "stats_response")
            (dict_of [("error", PStr (exn_str e))]) 500).

Definition handle_time_bucket (payload : string) : M unit :=
  try_except
    (let! data := lift (loads_or payload (dict_of [])) in
     let! hours := lift (py_get data "hours" (PInt 24)) in
     let! bucket := lift (py_get data "bucket" (PStr "1 hour")) in
     let! sensor_id := lift (py_get data "sensor_id" PNone) in
     let! conn := get_db_connection in
     let! cursor := conn_cursor conn in
     (if truthy sensor_id
      then execute cursor (BucketSensor (py_str bucket)) [sensor_id; hours]
      else execute cursor (BucketAll (py_str bucket)) [hours]) ;;;
     let! data := fetchall cursor in
     cursor_close cursor ;;;
     conn_close conn ;;;
     let! result := lift (shape_rows bucket_shape data) in
     publish_response (TOPICS_at "time_bucket_response")
       (dict_of [("data", PList result); ("bucket_size", bucket)]) 200)
    (λ e, publish_response (TOPICS_at "time_bucket_response")
            (dict_of [("error", PStr (exn_str e))]) 500).

(** An inbound message: its topic and its payload bytes. *)
Record MQTTMessage : Type := mkMQTTMessage {
  in_topic : string;
  in_payload : list byte
}.

(** The routing dict of [on_message]. *)
Definition handlers : list (string * (string → M unit)) :=
  [(TOPICS_at "health_request", handle_health_check);
   (TOPICS_at "get_all_request", handle_get_all_sensors);
   (TOPICS_at "get_by_id_request", handle_get_sensor_by_id);
   (TOPICS_at "create_request", handle_create_sensor);
   (TOPICS_at "create_bulk_request", handle_create_bulk_sensors);
   (TOPICS_at "update_request", handle_update_sensor);
   (TOPICS_at "delete_request", handle_delete_sensor);
   (TOPICS_at "delete_by_id_request", handle_delete_sensor_by_id);
   (TOPICS_at "stats_request", handle_get_stats);
   (TOPICS_at "time_bucket_request", handle_time_bucket)].

(** [handlers.get(topic)] *)
Definition handlers_get (topic : string) : option (string → M unit) :=
  snd <$> head (filter (λ kv, kv.1 = topic) handlers).

Definition on_message (msg : MQTTMessage) : M unit :=
  let topic := in_topic msg in
  let! payload := (match in_payload msg with
                   | [] => ret EmptyString
                   | _ :: _ => lift (decode_utf8 (in_payload msg))
                   end) in
  logger INFO ("Received message on " +:+ topic +:+ ": " +:+ str_prefix 100 payload +:+ "...") ;;;
  match handlers_get topic with
  | Some handler => handler payload
  | None => logger WARNING ("No handler for topic: " +:+ topic)
  end.

End Handlers.

(** ** app.py *)

(** What an endpoint reads of the request: the query string, and what
    [request.get_json()] gives (a value, or the error it raises on a body it
    cannot read). *)
Record Request : Type := mkRequest {
  args : gmap string string;
  get_json : result pyval
}.

Section Endpoints.
Context `{Runtime}.

(** [request.args.get(key, type=int, default=dflt)]: the default also when the
    conversion fails. *)
Definition args_get_int (req : Request) (key : string) (dflt : pyval) : pyval :=
  match args req !! key with
  | Some s => from_option PInt dflt (py_int s)
  | None => dflt
  end.

(** [request.args.get(key, default=dflt)] *)
Definition args_get (req : Request) (key : string) (dflt : pyval) : pyval :=
  from_option PStr dflt (args req !! key).

(** [jsonify(body), status] *)
Definition jsonify (body : pyval) (status : Z) : M (pyval * Z) := ret (body, status).

Definition get_all_sensor_data (req : Request) : M (pyval * Z) :=
  try_except
    (let! conn := get_db_connection in
     let! cursor := conn_cursor conn in
     let sensor_id := args_get_int req "sensor_id" PNone in
     let hours := args_get_int req "hours" (PInt 24) in
     let limit := args_get_int req "limit" (PInt 100) in
     (if truthy sensor_id
      then execute cursor SelectRangeSensor [sensor_id; hours; limit]
      else execute cursor SelectRangeAll [hours; limit]) ;;;
     let! data := fetchall cursor in
     cursor_close cursor ;;;
     conn_close conn ;;;
     let! result := lift (shape_rows (iso_row "time") data) in
     jsonify (dict_of [("data", PList result); ("count", PInt (Z.of_nat (length result)))]) 200)
    (λ e, jsonify (dict_of [("error", PStr (exn_str e))]) 500).

Definition create_sensor_data (req : Request) : M (pyval * Z) :=
  try_except
    (let! data := lift (get_json req) in
     if negb (truthy data) then
       jsonify (dict_of [("error", PStr "No data provided")]) 400
     else
       let! sensor_id := lift (py_get data "sensor_id" PNone) in
       let! temperature := lift (py_get data "temperature" PNone) in
       let! humidity := lift (py_get data "humidity" PNone) in
       let! time := lift (py_get data "time" PNone) in
       if is_none sensor_id then
         jsonify (dict_of [("error", PStr "sensor_id is required")]) 400
       else
         let! conn := get_db_connection in
         let! cursor := conn_cursor conn in
         (if truthy time
          then execute cursor InsertAtReturning [time; sensor_id; temperature; humidity]
          else execute cursor InsertNowReturning [sensor_id; temperature; humidity]) ;;;
         let! new_record := fetchone cursor in
         conn_commit conn ;;;
         cursor_close cursor ;;;
         conn_close conn ;;;
         let! result := lift (d ← py_dict new_record; iso_row "time" d) in
         jsonify (dict_of [("message", PStr "Sensor data created successfully");
                           ("data", PDict result)]) 201)
    (λ e, if is_integrity_error e then
            jsonify (dict_of [("error", PStr "Duplicate entry for this time and sensor_id")]) 409
          else
            jsonify (dict_of [("error", PStr (exn_str e))]) 500).

Definition update_sensor_data (req : Request) : M (pyval * Z) :=
  try_except
    (let! data := lift (get_json req) in
     if negb (truthy data) then
       jsonify (dict_of [("error", PStr "No data provided")]) 400
     else
       let! time := lift (py_get data "time" PNone) in
       let! sensor_id := lift (py_get data "sensor_id" PNone) in
       if negb (truthy time) || is_none sensor_id then
         jsonify (dict_of [("error", PStr "time and sensor_id are required to identify the record")]) 400
       else
         let! temperature := lift (py_get data "temperature" PNone) in
         let! humidity := lift (py_get data "humidity" PNone) in
         let! conn := get_db_connection in
         let! cursor := conn_cursor conn in
         execute cursor UpdateCoalesce [temperature; humidity; time; sensor_id] ;;;
         let! updated_record := fetchone cursor in
         if no_record updated_record then
           cursor_close cursor ;;;
           conn_close conn ;;;
           jsonify (dict_of [("error", PStr "Record not found")]) 404
         else
           conn_commit conn ;;;
           cursor_close cursor ;;;
           conn_close conn ;;;
           let! result := lift (d ← py_dict updated_record; iso_row "time" d) in
           jsonify (dict_of [("message", PStr "Sensor data updated successfully");
                             ("data", PDict result)]) 200)
    (λ e, jsonify (dict_of [("error", PStr (exn_str e))]) 500).

Definition get_time_bucket_data (req : Request) : M (pyval * Z) :=
  try_except
    (let! conn := get_db_connection in
     let! cursor := conn_cursor conn in
     let hours := args_get_int req "hours" (PInt 24) in
     let bucket := args_get req "bucket" (PStr "1 hour") in
     let sensor_id := args_get_int req "sensor_id" PNone in
     (if truthy sensor_id
      then execute cursor (BucketSensor (py_str bucket)) [sensor_id; hours]
      else execute cursor (BucketAll (py_str bucket)) [hours]) ;;;
     let! data := fetchall cursor in
     cursor_close cursor ;;;
     conn_close conn ;;;
     let! result := lift (shape_rows bucket_shape data) in
     jsonify (dict_of [("data", PList result); ("bucket_size", bucket)]) 200)
    (λ e, jsonify (dict_of [("error", PStr (exn_str e))]) 500).

Definition health_check : M (pyval * Z) :=
  try_except
    (let! conn := get_db_connection in
     conn_close conn ;;;
     jsonify (dict_of [("status", PStr "healthy"); ("database", PStr "connected")]) 200)
    (λ e, jsonify (dict_of [("status", PStr "unhealthy"); ("error", PStr (exn_str e))]) 500).

(** [sensor_id] is the [<int:sensor_id>] of the path. *)
Definition get_sensor_by_id (sensor_id : Z) (req : Request) : M (pyval * Z) :=
  try_except
    (let! conn := get_db_connection in
     let! cursor := conn_cursor conn in
     let hours := args_get_int req "hours" (PInt 24) in
     execute cursor SelectSensor [PInt sensor_id; hours] ;;;
     let! data := fetchall cursor in
     cursor_close cursor ;;;
     conn_close conn ;;;
     let! result := lift (shape_rows (iso_row "time") data) in
     jsonify (dict_of [("data", PList result); ("count", PInt (Z.of_nat (length result)))]) 200)
    (λ e, jsonify (dict_of [("error", PStr (exn_str e))]) 500).

Definition create_bulk_sensor_data (req : Request) : M (pyval * Z) :=
  try_except
    (let! data := lift (get_json req) in
     if negb (truthy data) || negb (is_list data) then
       jsonify (dict_of [("error", PStr "Expected a list of sensor data")]) 400
     else
       let! conn := get_db_connection in
       let! cursor := conn_cursor conn in
       let! inserted_count := bulk_loop cursor (list_items data) 0 in
       conn_commit conn ;;;
       cursor_close cursor ;;;
       conn_close conn ;;;
       jsonify (dict_of [("message",
                          PStr (pretty inserted_count +:+ " records inserted successfully"))]) 201)
    (λ e, jsonify (dict_of [("error", PStr (exn_str e))]) 500).

Definition delete_sensor_data (req : Request) : M (pyval * Z) :=
  try_except
    (let time := args_get req "time" PNone in
     let sensor_id := args_get_int req "sensor_id" PNone in
     if negb (truthy time) || is_none sensor_id then
       jsonify (dict_of [("error", PStr "time and sensor_id query parameters are required")]) 400
     else
       let! conn := get_db_connection in
       let! cursor := conn_cursor conn in
       execute cursor DeleteOne [time; sensor_id] ;;;
       let! deleted_count := rowcount cursor in
       conn_commit conn ;;;
       cursor_close cursor ;;;
       conn_close conn ;;;
       if deleted_count =? 0 then
         jsonify (dict_of [("error", PStr "Record not found")]) 404
       else
         jsonify (dict_of [("message", PStr "Sensor data deleted successfully");
                           ("deleted_count", PInt deleted_count)]) 200)
    (λ e, jsonify (dict_of [("error", PStr (exn_str e))]) 500).

Definition delete_all_sensor_data_by_id (sensor_id : Z) : M (pyval * Z) :=
  try_except
    (let! conn := get_db_connection in
     let! cursor := conn_cursor conn in
     execute cursor DeleteSensor [PInt sensor_id] ;;;
     let! deleted_count := rowcount cursor in
     conn_commit conn ;;;
     cursor_close cursor ;;;
     conn_close conn ;;;
     jsonify (dict_of [("message", PStr ("Deleted " +:+ pretty deleted_count +:+
                                         " records for sensor " +:+ pretty sensor_id))]) 200)
    (λ e, jsonify (dict_of [("error", PStr (exn_str e))]) 500).

Definition get_sensor_stats (req : Request) : M (pyval * Z) :=
  try_except
    (let! conn := get_db_connection in
     let! cursor := conn_cursor conn in
     let hours := args_get_int req "hours" (PInt 24) in
     let sensor_id := args_get_int req "sensor_id" PNone in
     (if truthy sensor_id
      then execute cursor StatsSensor [sensor_id; hours]
      else execute cursor StatsAll [hours]) ;;;
     let! stats := fetchall cursor in
     cursor_close cursor ;;;
     conn_close conn ;;;
     let! result := lift (shape_rows stats_shape stats) in
     jsonify (dict_of [("data", PList result)]) 200)
    (λ e, jsonify (dict_of [("error", PStr (exn_str e))]) 500).

End Endpoints.

(** ** A reference runtime *)

(** One runtime to run the handlers on concrete requests.  It covers the
    requests the examples use: JSON with integers, decimals without an
    exponent, strings with the simple escapes, arrays and objects; timestamps
    written [YYYY-MM-DD hh:mm:ss] in UTC (a [T] separator and a [Z] or
    [+00:00] suffix are accepted); a store without the TimescaleDB extension.
    Outside of that it raises.  The statements of the next sections hold
    for every runtime; only the worked examples use this one. *)
Module Ref.

(** Binary64 values and their bit patterns. *)
Definition f64_decode (bits : Z) : spec_float :=
  let s := Z.testbit bits 63 in
  let ex := Z.land (Z.shiftr bits 52) 0x7FF in
  let fr := Z.land bits (2 ^ 52 - 1) in
  if ex =? 0x7FF then (if fr =? 0 then S754_infinity s else S754_nan)
  else if ex =? 0 then
    match fr with Zpos m => S754_finite s m (-1074) | _ => S754_zero s end
  else
    match fr + 2 ^ 52 with Zpos m => S754_finite s m (ex - 1075) | _ => S754_nan end.

Definition f64_encode (x : spec_float) : Z :=
  match x with
  | S754_zero s => if s then 2 ^ 63 else 0
  | S754_infinity s => (if s then 2 ^ 63 else 0) + 0x7FF * 2 ^ 52
  | S754_nan => 0x7FF8 * 2 ^ 48
  | S754_finite s m e =>
    (if s then 2 ^ 63 else 0) +
    (if Zpos m <? 2 ^ 52 then Zpos m else (e + 1075) * 2 ^ 52 + (Zpos m - 2 ^ 52))
  end.

Definition f64_of_Z (z : Z) : Z := f64_encode (binary_normalize 53 1024 z 0 false).

(** [num / den], rounded once. *)
Definition f64_quot (num den : Z) : Z :=
  f64_encode (SFdiv 53 1024 (binary_normalize 53 1024 num 0 false)
                            (binary_normalize 53 1024 den 0 false)).

Fixpoint strip_zeros (s : string) : string :=
  match s with
  | EmptyString => EmptyString
  | String c r =>
    match strip_zeros r with
    | EmptyString => if Ascii.eqb c "0" then EmptyString else String c EmptyString
    | r' => String c r'
    end
  end.

Fixpoint zeros (n : nat) : string :=
  match n with
  | O => EmptyString
  | S n' => String "0" (zeros n')
  end.

(** A float written out digit by digit (every binary64 value is a finite
    decimal); [repr] would stop at the shortest text that reads back. *)
Definition f64_text (inf nan : string) (bits : Z) : string :=
  match f64_decode bits with
  | S754_zero s => if s then "-0.0" else "0.0"
  | S754_infinity s => if s then "-" +:+ inf else inf
  | S754_nan => nan
  | S754_finite s m e =>
    (if s then "-" else EmptyString) +:+
    (if 0 <=? e then pretty (Zpos m * 2 ^ e) +:+ ".0"
     else
       let k := Z.to_nat (- e) in
       let n := Zpos m * 5 ^ (- e) in
       let fr := pretty (n `mod` 10 ^ (- e)) in
       let digits := strip_zeros (zeros (k - String.length fr) +:+ fr) in
       pretty (n `div` 10 ^ (- e)) +:+ "." +:+
       (match digits with EmptyString => "0" | _ => digits end))
  end.

Definition dq : string := String "034" EmptyString.

Definition code (c : ascii) : Z := Z.of_N (N_of_ascii c).

Definition digit_of (c : ascii) : option Z :=
  if (48 <=? code c) && (code c <=? 57) then Some (code c - 48) else None.

(** Leading digits: their value, how many, and the rest. *)
Fixpoint digits (s : string) (acc : Z) (n : nat) : Z * nat * string :=
  match s with
  | EmptyString => (acc, n, s)
  | String c r =>
    match digit_of c with
    | Some d => digits r (10 * acc + d) (S n)
    | None => (acc, n, s)
    end
  end.

Definition is_ws (c : ascii) : bool :=
  (code c =? 32) || (code c =? 10) || (code c =? 13) || (code c =? 9).

Fixpoint skip_ws (s : string) : string :=
  match s with
  | EmptyString => s
  | String c r => if is_ws c then skip_ws r else s
  end.

(** The inside of a string literal, up to its closing quote. *)
Fixpoint str_body (s : string) : option (string * string) :=
  match s with
  | EmptyString => None
  | String c r =>
    if code c =? 34 then Some (EmptyString, r)
    else if code c <? 32 then None
    else if code c =? 92 then
      match r with
      | String e r' =>
        let put x := '(t, rest) ← str_body r'; Some (String x t, rest) in
        if code e =? 34 then put "034"%char
        else if code e =? 92 then put "\"%char
        else if code e =? 47 then put "/"%char
        else if code e =? 110 then put "010"%char
        else if code e =? 116 then put "009"%char
        else if code e =? 114 then put "013"%char
        else None
      | EmptyString => None
      end
    else '(t, rest) ← str_body r; Some (String c t, rest)
  end.

Definition word (w : string) (v : pyval) (s : string) : option (pyval * string) :=
  if String.prefix w s
  then Some (v, String.substring (String.length w) (String.length s - String.length w) s)
  else None.

(** [-? int frac?]; a leading zero stands alone, an exponent is not read. *)
Definition number (s : string) : option (pyval * string) :=
  let '(neg, s1) := match s with
                    | String "-" r => (true, r)
                    | _ => (false, s)
                    end in
  let '(ip, n, s2) := digits s1 0 0 in
  let sign (z : Z) := if neg then - z else z in
  match n, s1 with
  | O, _ => None
  | S (S _), String "0" _ => None
  | _, _ =>
    match s2 with
    | String "." r =>
      let '(fp, k, s3) := digits r 0 0 in
      match k, s3 with
      | O, _ => None
      | _, String "e" _ | _, String "E" _ => None
      | _, _ =>
        let bits := f64_quot (ip * 10 ^ Z.of_nat k + fp) (10 ^ Z.of_nat k) in
        Some (PFloat (if neg then Z.lor bits (2 ^ 63) else bits), s3)
      end
    | String "e" _ | String "E" _ => None
    | _ => Some (PInt (sign ip), s2)
    end
  end.

Fixpoint value (fuel : nat) (s : string) {struct fuel} : option (pyval * string) :=
  match fuel with
  | O => None
  | S fuel' =>
    match skip_ws s with
    | String "n" _ => word "null" PNone (skip_ws s)
    | String "t" _ => word "true" (PBool true) (skip_ws s)
    | String "f" _ => word "false" (PBool false) (skip_ws s)
    | String "[" r =>
      match skip_ws r with
      | String "]" r' => Some (PList [], r')
      | _ => elements fuel' r []
      end
    | String "{" r =>
      match skip_ws r with
      | String "}" r' => Some (PDict ∅, r')
      | _ => members fuel' r ∅
      end
    | String c r =>
      if code c =? 34 then '(t, rest) ← str_body r; Some (PStr t, rest)
      else number (String c r)
    | EmptyString => None
    end
  end
with elements (fuel : nat) (s : string) (acc : list pyval) {struct fuel}
  : option (pyval * string) :=
  match fuel with
  | O => None
  | S fuel' =>
    match value fuel' s with
    | Some (v, r) =>
      match skip_ws r with
      | String "," r' => elements fuel' r' (acc ++ [v])
      | String "]" r' => Some (PList (acc ++ [v]), r')
      | _ => None
      end
    | None => None
    end
  end
with members (fuel : nat) (s : string) (acc : gmap string pyval) {struct fuel}
  : option (pyval * string) :=
  match fuel with
  | O => None
  | S fuel' =>
    match skip_ws s with
    | String c r =>
      if code c =? 34 then
        match str_body r with
        | Some (k, r1) =>
          match skip_ws r1 with
          | String ":" r2 =>
            match value fuel' r2 with
            | Some (v, r3) =>
              match skip_ws r3 with
              | String "," r' => members fuel' r' (<[k := v]> acc)
              | String "}" r' => Some (PDict (<[k := v]> acc), r')
              | _ => None
              end
            | None => None
            end
          | _ => None
          end
        | None => None
        end
      else None
    | EmptyString => None
    end
  end.

Definition loads (s : string) : result pyval :=
  match value (2 * String.length s + 2) s with
  | Some (v, r) =>
    match skip_ws r with
    | EmptyString => Done v
    | _ => Raised (Exn JSONDecodeError "Extra data")
    end
  | None => Raised (Exn JSONDecodeError "Expecting value")
  end.

Fixpoint escaped (s : string) : string :=
  match s with
  | EmptyString => EmptyString
  | String c r =>
    (if code c =? 34 then String "\" dq
     else if code c =? 92 then "\\"
     else if code c =? 10 then "\n"
     else if code c =? 13 then "\r"
     else if code c =? 9 then "\t"
     else String c EmptyString) +:+ escaped r
  end.

Definition quoted (s : string) : string := dq +:+ escaped s +:+ dq.

Definition joined (parts : list string) : string :=
  match parts with
  | [] => EmptyString
  | p :: ps => foldl (λ acc x, acc +:+ ", " +:+ x) p ps
  end.

(** Days since 1970-01-01 of a civil date, and back. *)
Definition days_of_civil (y m d : Z) : Z :=
  let y' := if m <=? 2 then y - 1 else y in
  let era := y' `div` 400 in
  let yoe := y' - era * 400 in
  let doy := (153 * (if 2 <? m then m - 3 else m + 9) + 2) `div` 5 + d - 1 in
  let doe := yoe * 365 + yoe `div` 4 - yoe `div` 100 + doy in
  era * 146097 + doe - 719468.

Definition civil_of_days (days : Z) : Z * Z * Z :=
  let z := days + 719468 in
  let era := z `div` 146097 in
  let doe := z - era * 146097 in
  let yoe := (doe - doe `div` 1460 + doe `div` 36524 - doe `div` 146096) `div` 365 in
  let doy := doe - (365 * yoe + yoe `div` 4 - yoe `div` 100) in
  let mp := (5 * doy + 2) `div` 153 in
  let d := doy - (153 * mp + 2) `div` 5 + 1 in
  let m := if mp <? 10 then mp + 3 else mp - 9 in
  (yoe + era * 400 + (if m <=? 2 then 1 else 0), m, d).

Definition two (z : Z) : string := (if z <? 10 then "0" else EmptyString) +:+ pretty z.

Definition four (z : Z) : string := zeros (4 - String.length (pretty z)) +:+ pretty z.

Definition iso (t : Z) : string :=
  let '(y, m, d) := civil_of_days (t `div` 86400000000) in
  let us := t `mod` 86400000000 in
  let s := us `div` 1000000 in
  let f := pretty (us `mod` 1000000) in
  four y +:+ "-" +:+ two m +:+ "-" +:+ two d +:+ "T" +:+
  two (s `div` 3600) +:+ ":" +:+ two ((s `div` 60) `mod` 60) +:+ ":" +:+ two (s `mod` 60) +:+
  (if us `mod` 1000000 =? 0 then EmptyString
   else "." +:+ zeros (6 - String.length f) +:+ f) +:+ "+00:00".

(** [n] digits exactly. *)
Definition fixed (n : nat) (s : string) : option (Z * string) :=
  let '(z, k, r) := digits (String.substring 0 n s) 0 0 in
  if Nat.eqb k n && Nat.leb n (String.length s)
  then Some (z, String.substring n (String.length s - n) s)
  else None.

Definition sep (cs : list ascii) (s : string) : option string :=
  match s with
  | String c r => if bool_decide (c ∈ cs) then Some r else None
  | EmptyString => None
  end.

Definition timestamp (s : string) : option Z :=
  '(y, s) ← fixed 4 s; s ← sep ["-"%char] s;
  '(m, s) ← fixed 2 s; s ← sep ["-"%char] s;
  '(d, s) ← fixed 2 s; s ← sep [" "%char; "T"%char] s;
  '(hh, s) ← fixed 2 s; s ← sep [":"%char] s;
  '(mm, s) ← fixed 2 s; s ← sep [":"%char] s;
  '(ss, s) ← fixed 2 s;
  if bool_decide (s ∈ [EmptyString; "Z"; "+00:00"; "+00"]) &&
     bool_decide (1 ≤ m ≤ 12 ∧ 1 ≤ d ≤ 31 ∧ hh < 24 ∧ mm < 60 ∧ ss < 60)
  then Some ((days_of_civil y m d * 86400 + hh * 3600 + mm * 60 + ss) * 1000000)
  else None.

Definition integer (s : string) : option Z :=
  let '(neg, s1) := match s with
                    | String "-" r => (true, r)
                    | _ => (false, s)
                    end in
  match digits s1 0 0 with
  | (z, S _, EmptyString) => Some (if neg then - z else z)
  | _ => None
  end.

Fixpoint dumps (v : pyval) : string :=
  match v with
  | PNone => "null"
  | PBool true => "true"
  | PBool false => "false"
  | PInt z => pretty z
  | PFloat b => f64_text "Infinity" "NaN" b
  | PStr s => quoted s
  | PDatetime t => quoted (iso t)
  | PList l => "[" +:+ joined (dumps <$> l) +:+ "]"
  | PDict d =>
    "{" +:+ joined (map_fold (λ k x acc, (quoted k +:+ ": " +:+ dumps x) :: acc) [] d) +:+ "}"
  end.

Fixpoint repr (v : pyval) : string :=
  match v with
  | PNone => "None"
  | PBool true => "True"
  | PBool false => "False"
  | PInt z => pretty z
  | PFloat b => f64_text "inf" "nan" b
  | PStr s => "'" +:+ s +:+ "'"
  | PDatetime t => iso t
  | PList l => "[" +:+ joined (repr <$> l) +:+ "]"
  | PDict d =>
    "{" +:+ joined (map_fold (λ k x acc, ("'" +:+ k +:+ "': " +:+ repr x) :: acc) [] d) +:+ "}"
  end.

Definition unsupported {A : Type} (cls : exn_class) (what : string) : result A :=
  Raised (Exn cls what).

#[global] Instance runtime : Runtime := {|
  json_loads := loads;
  json_dumps := dumps;
  isoformat := iso;
  py_repr := repr;
  py_float_of v :=
    match v with
    | PInt z => Done (f64_of_Z z)
    | PBool b => Done (f64_of_Z (if b then 1 else 0))
    | _ => unsupported TypeError "float() argument must be a string or a real number"
    end;
  py_int := integer;
  pg_timestamptz v :=
    match v with
    | PDatetime t => Done t
    | PStr s =>
      from_option Done
        (unsupported DataError "invalid input syntax for type timestamp with time zone")
        (timestamp s)
    | _ => unsupported ProgrammingError "column is of type timestamp with time zone"
    end;
  pg_integer_of v :=
    match v with
    | PStr s =>
      from_option Done (unsupported DataError "invalid input syntax for type integer")
        (integer s)
    | _ => unsupported ProgrammingError "column is of type integer"
    end;
  pg_real_of v :=
    match v with
    | PInt z => Done (f64_of_Z z)
    | _ => unsupported DataError "invalid input syntax for type double precision"
    end;
  pg_rejects text params :=
    match pg_placeholders text 0 with
    | None => Exn ProgrammingError "only '%s', '%b', '%t' are allowed as placeholders"
    | Some (_, n) =>
      if decide (n = length params)
      then Exn DataError "invalid input syntax for type interval"
      else bad_arity
    end;
  pg_run_text _ _ _ _ :=
    unsupported ProgrammingError
      "function time_bucket(unknown, timestamp with time zone) does not exist"
|}.

End Ref.

(** * Properties *)

(** ** Observations and the symbolic run *)

(** What a computation returns from a world, and the world it leaves. *)
Definition outcome {A : Type} (m : M A) (w : World) : result A := (m w).1.
Definition after {A : Type} (m : M A) (w : World) : World := (m w).2.

(** The response envelope, and the message that carries it. *)
Definition envelope (status_code : Z) (data : pyval) : pyval :=
  dict_of [("status_code", PInt status_code); ("data", data)].

Definition reply `{Runtime} (topic : string) (status_code : Z) (data : pyval) : Message :=
  mkMessage topic (json_dumps (envelope status_code data)) 1.

Definition error_body (text : string) : pyval := dict_of [("error", PStr text)].

(** The ten operations of the topic binding. *)
Inductive Operation : Type :=
| HealthCheck | GetAll | GetById | Create | CreateBulk
| Update | Delete | DeleteById | Stats | TimeBucket.

Definition op_name (op : Operation) : string :=
  match op with
  | HealthCheck => "health"
  | GetAll => "get_all"
  | GetById => "get_by_id"
  | Create => "create"
  | CreateBulk => "create_bulk"
  | Update => "update"
  | Delete => "delete"
  | DeleteById => "delete_by_id"
  | Stats => "stats"
  | TimeBucket => "time_bucket"
  end.

Definition request_topic (op : Operation) : string := TOPICS_at (op_name op +:+ "_request").
Definition response_topic (op : Operation) : string := TOPICS_at (op_name op +:+ "_response").

Definition handler_of `{Runtime} (op : Operation) : string → M unit :=
  match op with
  | HealthCheck => handle_health_check
  | GetAll => handle_get_all_sensors
  | GetById => handle_get_sensor_by_id
  | Create => handle_create_sensor
  | CreateBulk => handle_create_bulk_sensors
  | Update => handle_update_sensor
  | Delete => handle_delete_sensor
  | DeleteById => handle_delete_sensor_by_id
  | Stats => handle_get_stats
  | TimeBucket => handle_time_bucket
  end.

(** The route of app.py that serves an operation; [sensor_id] is the path
    variable of the two routes that have one. *)
Definition route `{Runtime} (op : Operation) (sensor_id : Z) (req : Request) : M (pyval * Z) :=
  match op with
  | HealthCheck => health_check
  | GetAll => get_all_sensor_data req
  | GetById => get_sensor_by_id sensor_id req
  | Create => create_sensor_data req
  | CreateBulk => create_bulk_sensor_data req
  | Update => update_sensor_data req
  | Delete => delete_sensor_data req
  | DeleteById => delete_all_sensor_data_by_id sensor_id
  | Stats => get_sensor_stats req
  | TimeBucket => get_time_bucket_data req
  end.

Definition is_connect (ev : Event) : bool :=
  match ev with EvConnect _ => true | _ => false end.

Definition is_commit (ev : Event) : bool :=
  match ev with EvCommit _ => true | _ => false end.

Definition is_execute (ev : Event) : bool :=
  match ev with EvExecute _ _ _ => true | _ => false end.

(** Running a handler by hand: unfold the monad, then decide the innermost
    test that is still open, one after the other. *)
Ltac sym_unfold :=
  unfold outcome, after, try_except, get_db_connection, conn_cursor, cursor_close,
         execute, fetchall, fetchone, rowcount, conn_commit, conn_close, the_conn,
         fault_point, publish_response, client_publish, logger, jsonify, bind, ret, lift,
         with_faults, with_conns, with_table, record_event in *.

Ltac sym_simpl :=
  cbv beta iota zeta;
  cbn [table clock faults conns events outbox journal fst snd hd tl
       conn_work conn_rows conn_rowcount];
  rewrite ?lookup_insert_eq.

Ltac sym_step :=
  match goal with
  | |- context [match ?x with _ => _ end] =>
    lazymatch x with
    | context [match _ with _ => _ end] => fail
    | _ => destruct x eqn:?
    end
  end.

Ltac sym_run := sym_unfold; repeat (sym_simpl; try sym_step).

(** ** The decode in [on_message] *)

(** Replace every [TOPICS_at name] by the text it stands for. *)
Ltac topics :=
  repeat match goal with
         | |- context [TOPICS_at ?name] =>
           let text := eval vm_compute in (TOPICS_at name) in
           change (TOPICS_at name) with text
         end.

(** The routing dict, read as a function of the topic. *)
Lemma handlers_get_cases `{Runtime} (topic : string) :
  handlers_get topic =
    if decide ("sensors/health/request" = topic) then Some handle_health_check
    else if decide ("sensors/get_all/request" = topic) then Some handle_get_all_sensors
    else if decide ("sensors/get_by_id/request" = topic) then Some handle_get_sensor_by_id
    else if decide ("sensors/create/request" = topic) then Some handle_create_sensor
    else if decide ("sensors/create_bulk/request" = topic) then Some handle_create_bulk_sensors
    else if decide ("sensors/update/request" = topic) then Some handle_update_sensor
    else if decide ("sensors/delete/request" = topic) then Some handle_delete_sensor
    else if decide ("sensors/delete_by_id/request" = topic) then Some handle_delete_sensor_by_id
    else if decide ("sensors/stats/request" = topic) then Some handle_get_stats
    else if decide ("sensors/time_bucket/request" = topic) then Some handle_time_bucket
    else None.
Proof.
  unfold handlers_get, handlers. topics.
  repeat (rewrite filter_cons; cbn [fst]; case_decide; [reflexivity|]).
  reflexivity.
Qed.

(** Every operation's request topic is routed to its handler. *)
Lemma request_topics_bound `{Runtime} (op : Operation) :
  handlers_get (request_topic op) = Some (handler_of op).
Proof.
  rewrite handlers_get_cases.
  destruct op; unfold request_topic; topics; cbn [handler_of];
    repeat (case_decide; [first [reflexivity | discriminate]|]); congruence.
Qed.

Lemma decode_xff :
  decode_utf8 [xff] = Raised (Exn UnicodeDecodeError "'utf-8' codec can't decode bytes").
Proof. vm_compute. reflexivity. Qed.

(** C1.  The code at the failing input: a message on the bound topic
    [sensors/get_all/request] whose payload is the single byte 0xFF.  The
    decode in [on_message] raises before any handler runs, nothing is
    published, and the exception is what [on_message] hands back to the
    client loop. *)
Theorem undecodable_request_escapes `{Runtime} (w : World) :
  handlers_get "sensors/get_all/request" = Some handle_get_all_sensors ∧
  on_message (mkMQTTMessage "sensors/get_all/request" [xff]) w
  = (Raised (Exn UnicodeDecodeError "'utf-8' codec can't decode bytes"), w).
Proof.
  split.
  - rewrite handlers_get_cases. repeat (case_decide; [first [reflexivity | discriminate]|]). congruence.
  - unfold on_message, bind, lift. cbn [in_payload]. rewrite decode_xff. reflexivity.
Qed.

(** C8.  The code at the failing input: a message on [sensors/sensegrid],
    which no handler is bound to, whose payload is the single byte 0xFF.
    [on_message] raises instead of logging and dropping the message. *)
Theorem undecodable_unbound_message_raises `{Runtime} (w : World) :
  handlers_get "sensors/sensegrid" = None ∧
  on_message (mkMQTTMessage "sensors/sensegrid" [xff]) w
  = (Raised (Exn UnicodeDecodeError "'utf-8' codec can't decode bytes"), w).
Proof.
  split.
  - rewrite handlers_get_cases. repeat (case_decide; [discriminate|]). reflexivity.
  - unfold on_message, bind, lift. cbn [in_payload]. rewrite decode_xff. reflexivity.
Qed.

(** A payload that decodes, on a topic no operation is bound to: two log
    lines and nothing else. *)
Lemma unbound_topic_dropped `{Runtime} (topic : string) (bytes : list byte) (payload : string)
    (w : World) :
  (∀ op, topic ≠ request_topic op) →
  (bytes = [] ∧ payload = EmptyString ∨ bytes ≠ [] ∧ decode_utf8 bytes = Done payload) →
  on_message (mkMQTTMessage topic bytes) w
  = (Done tt,
     mkWorld (table w) (clock w) (faults w) (conns w) (events w) (outbox w)
       ((journal w ++ [(INFO, "Received message on " +:+ topic +:+ ": " +:+
                              str_prefix 100 payload +:+ "...")])
                   ++ [(WARNING, "No handler for topic: " +:+ topic)])).
Proof.
  intros Hun Hp.
  assert (handlers_get topic = None) as Hget.
  { rewrite handlers_get_cases.
    repeat (case_decide;
            [ exfalso; subst topic;
              first [ by apply (Hun HealthCheck) | by apply (Hun GetAll)
                    | by apply (Hun GetById) | by apply (Hun Create)
                    | by apply (Hun CreateBulk) | by apply (Hun Update)
                    | by apply (Hun Delete) | by apply (Hun DeleteById)
                    | by apply (Hun Stats) | by apply (Hun TimeBucket) ]
            | ]).
    reflexivity. }
  unfold on_message. cbn [in_topic in_payload]. rewrite Hget.
  destruct Hp as [[-> ->] | [Hne Hdec]].
  - reflexivity.
  - destruct bytes as [|b bs]; [done|]. unfold bind, lift. rewrite Hdec. reflexivity.
Qed.

(** ** One reply per request, one connection per request *)

(** How many of the events open a connection. *)
Definition connects (evs : list Event) : nat :=
  sum_list_with (λ ev, if is_connect ev then 1%nat else 0%nat) evs.

(** What one handler run leaves behind, from world [w] to world [w']: one
    reply on the operation's response topic, with a status of the taxonomy;
    at most one connection opened; none opened and no store call at all under
    a 400; and, unless the status is 409 or 500, the open connections are
    those there were before. *)
Definition one_reply `{Runtime} (topic : string) (w w' : World) : Prop :=
  ∃ code data evs,
    outbox w' = outbox w ++ [reply topic code data] ∧
    code ∈ [200; 201; 400; 404; 409; 500] ∧
    events w' = events w ++ evs ∧
    (connects evs ≤ 1)%nat ∧
    (code = 400 → evs = []) ∧
    (code ≠ 409 → code ≠ 500 → conns w' = conns w).

Lemma fresh_conn_free (w : World) : conns w !! fresh (dom (conns w)) = None.
Proof. apply not_elem_of_dom, is_fresh. Qed.

Lemma close_opened (cs : gmap nat Conn) (c : nat) (k : Conn) :
  cs !! c = None → delete c (<[c := k]> cs) = cs.
Proof. intros Hc. rewrite delete_insert_eq. by apply delete_id. Qed.

(** The facts a finished run is checked against. *)
Ltac close_run :=
  repeat match goal with
         | |- ∃ _, _ => eexists
         | |- _ ∧ _ => split
         end;
  first
    [ reflexivity
    | symmetry; apply app_nil_r
    | rewrite <- ?app_assoc; reflexivity
    | match goal with
      | |- _ ∈ _ => solve [repeat first [apply list_elem_of_here | apply list_elem_of_further]]
      end
    | unfold connects; cbn; lia
    | discriminate
    | (intros; congruence)
    | (intros; exfalso; congruence)
    | (intros; rewrite ?insert_insert_eq; rewrite close_opened by apply fresh_conn_free;
       reflexivity)
    | idtac ].

Lemma health_check_run `{Runtime} (payload : string) (w : World) :
  outcome (handle_health_check payload) w = Done tt ∧
  one_reply (response_topic HealthCheck) w (after (handle_health_check payload) w).
Proof.
  unfold handle_health_check, one_reply, response_topic. cbn [op_name]. topics. sym_run.
  all: split; [reflexivity|]. 
  all: close_run.
Qed.

Lemma get_all_run `{Runtime} (payload : string) (w : World) :
  outcome (handle_get_all_sensors payload) w = Done tt ∧
  one_reply (response_topic GetAll) w (after (handle_get_all_sensors payload) w).
Proof.
  unfold handle_get_all_sensors, one_reply, response_topic. cbn [op_name]. topics. sym_run.
  all: split; [reflexivity|].
  all: close_run.
Qed.

Lemma get_by_id_run `{Runtime} (payload : string) (w : World) :
  outcome (handle_get_sensor_by_id payload) w = Done tt ∧
  one_reply (response_topic GetById) w (after (handle_get_sensor_by_id payload) w).
Proof.
  unfold handle_get_sensor_by_id, one_reply, response_topic. cbn [op_name]. topics. sym_run.
  all: split; [reflexivity|].
  all: close_run.
Qed.

Lemma create_run `{Runtime} (payload : string) (w : World) :
  outcome (handle_create_sensor payload) w = Done tt ∧
  one_reply (response_topic Create) w (after (handle_create_sensor payload) w).
Proof.
  unfold handle_create_sensor, one_reply, response_topic. cbn [op_name]. topics. sym_run.
  all: split; [reflexivity|].
  all: close_run.
Qed.

Lemma update_run `{Runtime} (payload : string) (w : World) :
  outcome (handle_update_sensor payload) w = Done tt ∧
  one_reply (response_topic Update) w (after (handle_update_sensor payload) w).
Proof.
  unfold handle_update_sensor, one_reply, response_topic. cbn [op_name]. topics. sym_run.
  all: split; [reflexivity|].
  all: close_run.
Qed.

Lemma delete_run `{Runtime} (payload : string) (w : World) :
  outcome (handle_delete_sensor payload) w = Done tt ∧
  one_reply (response_topic Delete) w (after (handle_delete_sensor payload) w).
Proof.
  unfold handle_delete_sensor, one_reply, response_topic. cbn [op_name]. topics. sym_run.
  all: split; [reflexivity|].
  all: close_run.
Qed.

Lemma delete_by_id_run `{Runtime} (payload : string) (w : World) :
  outcome (handle_delete_sensor_by_id payload) w = Done tt ∧
  one_reply (response_topic DeleteById) w (after (handle_delete_sensor_by_id payload) w).
Proof.
  unfold handle_delete_sensor_by_id, one_reply, response_topic. cbn [op_name]. topics. sym_run.
  all: split; [reflexivity|].
  all: close_run.
Qed.

Lemma stats_run `{Runtime} (payload : string) (w : World) :
  outcome (handle_get_stats payload) w = Done tt ∧
  one_reply (response_topic Stats) w (after (handle_get_stats payload) w).
Proof.
  unfold handle_get_stats, one_reply, response_topic. cbn [op_name]. topics. sym_run.
  all: split; [reflexivity|].
  all: close_run.
Qed.

Lemma time_bucket_run `{Runtime} (payload : string) (w : World) :
  outcome (handle_time_bucket payload) w = Done tt ∧
  one_reply (response_topic TimeBucket) w (after (handle_time_bucket payload) w).
Proof.
  unfold handle_time_bucket, one_reply, response_topic. cbn [op_name]. topics. sym_run.
  all: split; [reflexivity|].
  all: close_run.
Qed.

(** The loop of the bulk handler only talks to its cursor: it leaves the
    table, the outbox and the other connections alone, and opens and commits
    nothing. *)
Definition loop_frame (c : nat) (w w' : World) : Prop :=
  table w' = table w ∧ outbox w' = outbox w ∧
  delete c (conns w') = delete c (conns w) ∧
  ∃ evs, events w' = events w ++ evs ∧ Forall (λ ev, is_execute ev) evs.

Ltac sym_run_with hook := sym_unfold; repeat (sym_simpl; try first [hook | sym_step]).

(** Meeting the loop during a run: take it as one step, with what [frame]
    says about it. *)
Ltac loop_step frame :=
  idtac;
  match goal with
  | |- context [bulk_loop ?c ?d ?n ?w] =>
    let F := fresh "Hframe" in
    let pf := frame c d n w in
    pose proof pf as F; unfold loop_frame, after in F;
    revert F; destruct (bulk_loop c d n w) as [? ?] eqn:?; cbn [fst snd];
    intros (? & ? & ? & ? & ? & ?)
  end.

Lemma bulk_loop_frame `{Runtime} (c : nat) (data : list pyval) (n : Z) (w : World) :
  loop_frame c w (after (bulk_loop c data n) w).
Proof.
  revert n w. induction data as [|entry rest IH]; intros n w.
  - unfold loop_frame, after. cbn. repeat split; try reflexivity.
    exists []. split; [by rewrite app_nil_r | constructor].
  - unfold loop_frame. cbn [bulk_loop].
    sym_run_with ltac:(loop_step ltac:(fun c d n w => constr:(IH n w))).
    all: cbn [table outbox conns events] in *; rewrite ?delete_insert_eq in *.
    all: repeat split; try congruence.
    all: try match goal with
             | Hev : events ?w0 = _ ++ ?x |- ∃ evs, events ?w0 = _ ∧ _ =>
               rewrite Hev, <- ?app_assoc
             end.
    all: eexists; split;
      [ first [symmetry; apply app_nil_r | reflexivity]
      | repeat first [apply Forall_app_2 | apply Forall_cons_2 | apply Forall_nil_2
                     | assumption | exact I] ].
Qed.

Lemma connects_executes (evs : list Event) :
  Forall (λ ev, is_execute ev) evs → connects evs = 0%nat.
Proof.
  unfold connects. induction 1 as [|ev evs Hev _ IH]; [reflexivity|].
  cbn [sum_list_with]. rewrite IH. by destruct ev.
Qed.

Lemma connects_app (evs evs' : list Event) :
  connects (evs ++ evs') = (connects evs + connects evs')%nat.
Proof. apply sum_list_with_app. Qed.

Lemma create_bulk_run `{Runtime} (payload : string) (w : World) :
  outcome (handle_create_bulk_sensors payload) w = Done tt ∧
  one_reply (response_topic CreateBulk) w (after (handle_create_bulk_sensors payload) w).
Proof.
  unfold handle_create_bulk_sensors, one_reply, response_topic. cbn [op_name]. topics.
  sym_run_with ltac:(loop_step ltac:(fun c d n w => constr:(bulk_loop_frame c d n w))).
  all: split; [reflexivity|].
  all: cbn [table outbox conns events] in *.
  all: repeat match goal with
              | Hev : events ?w0 = _ |- context [events ?w0] => rewrite Hev
              | Hout : outbox ?w0 = _ |- context [outbox ?w0] => rewrite Hout
              | Hcs : delete ?c (conns ?w0) = _ |- context [delete ?c (conns ?w0)] => rewrite Hcs
              end.
  all: close_run.
  all: rewrite !connects_app, (connects_executes x) by assumption; unfold connects; cbn; lia.
Qed.

(** Every handler answers every payload, whatever the store does: it returns
    normally and leaves exactly one reply on its response topic. *)
Lemma handler_replies_once `{Runtime} (op : Operation) (payload : string) (w : World) :
  outcome (handler_of op payload) w = Done tt ∧
  one_reply (response_topic op) w (after (handler_of op payload) w).
Proof.
  destruct op; cbn [handler_of].
  - apply health_check_run.
  - apply get_all_run.
  - apply get_by_id_run.
  - apply create_run.
  - apply create_bulk_run.
  - apply update_run.
  - apply delete_run.
  - apply delete_by_id_run.
  - apply stats_run.
  - apply time_bucket_run.
Qed.




(** The world before anything happened: an empty table at a clock reading of
    noon, 1 January 2024, a store that does not fail, nothing open. *)
Definition world0 : World := mkWorld [] 1704110400000000 [] ∅ [] [] [].

(** [GetAll] with the payload [nonsense].  The connection is opened before
    the payload is decoded; the decode raises, the handler answers 500, and
    connection 0 is still open. *)
Lemma get_all_leaves_connection_open :
  let w' := after (handle_get_all_sensors "nonsense") world0 in
  events w' = [EvConnect 0] ∧
  dom (conns w') = {[ 0%nat ]} ∧
  outbox w' = [reply "sensors/get_all/response" 500 (error_body "Expecting value")].
Proof. vm_compute. done. Qed.



(** ** Validation before the store *)

(** The operations that take a body. *)
Definition takes_body (op : Operation) : bool :=
  match op with
  | Create | CreateBulk | Update | Delete | DeleteById => true
  | _ => false
  end.

(** What an empty payload stands for. *)
Definition body_default (op : Operation) : pyval :=
  match op with
  | CreateBulk => PList []
  | _ => dict_of []
  end.

(** A field of the request, None when it is absent. *)
Definition field (data : pyval) (key : string) : pyval :=
  match data with
  | PDict d => default PNone (d !! key)
  | _ => PNone
  end.

Definition is_dict (v : pyval) : bool :=
  match v with PDict _ => true | _ => false end.

(** The amended validation table: the message of the 400 each operation
    answers a body with, if it rejects it. *)
Definition rejection (op : Operation) (data : pyval) : option string :=
  match op with
  | Create =>
    if negb (truthy data) then Some "No data provided"
    else if is_none (field data "sensor_id") then Some "sensor_id is required"
    else None
  | Update =>
    if negb (truthy data) then Some "No data provided"
    else if negb (truthy (field data "time")) || is_none (field data "sensor_id")
    then Some "time and sensor_id are required to identify the record"
    else None
  | Delete =>
    if negb (truthy (field data "time")) || is_none (field data "sensor_id")
    then Some "time and sensor_id are required"
    else None
  | DeleteById =>
    if is_none (field data "sensor_id") then Some "sensor_id is required" else None
  | CreateBulk =>
    if negb (truthy data) || negb (is_list data) then Some "Expected a list of sensor data"
    else None
  | _ => None
  end.

(** The bodies the table speaks about: a JSON object, any value for
    [CreateBulk], and for [Create] and [Update] also any falsy value. *)
Definition readable (op : Operation) (data : pyval) : bool :=
  match op with
  | CreateBulk => true
  | Create | Update => is_dict data || negb (truthy data)
  | _ => is_dict data
  end.

(** C2, the claim as stated fails: [Delete] with an empty payload.  The
    answer is 400 with the field message; there is no [No data provided]
    step in this handler. *)
Lemma delete_has_no_empty_payload_message :
  let w' := after (handle_delete_sensor EmptyString) world0 in
  outbox w' = [reply "sensors/delete/response" 400
                 (error_body "time and sensor_id are required")] ∧
  outbox w' ≠ [reply "sensors/delete/response" 400 (error_body "No data provided")].
Proof. vm_compute. split; [reflexivity | discriminate]. Qed.

(** C2, amended.  For the five operations that take a body, validation comes
    before any store call, with these messages: [Create] and [Update] answer
    a falsy body with 400 [No data provided], then a missing identity
    field with 400 and the field's message; [Delete] and [DeleteById] have
    only the field check (an empty payload gets the field's message);
    [CreateBulk] answers an empty or non-list body with 400 [Expected a list
    of sensor data] and has no per-entry rejection.  A rejected request
    makes no store call; an accepted one starts with the connect. *)
Theorem body_validation_precedes_store `{Runtime} (op : Operation) (payload : string)
    (data : pyval) (w : World) :
  takes_body op = true →
  loads_or payload (body_default op) = Done data →
  readable op data = true →
  let w' := after (handler_of op payload) w in
  match rejection op data with
  | Some text =>
    outbox w' = outbox w ++ [reply (response_topic op) 400 (error_body text)] ∧
    events w' = events w ∧ conns w' = conns w ∧ table w' = table w
  | None =>
    hd None (faults w) = None → ∃ c evs, events w' = events w ++ EvConnect c :: evs
  end.
Proof.
  intros Hbody Hload Hread.
  destruct op; try discriminate Hbody; clear Hbody;
    cbn [handler_of body_default readable rejection] in *;
    unfold response_topic, reply, envelope, error_body,
           handle_create_sensor, handle_create_bulk_sensors, handle_update_sensor,
           handle_delete_sensor, handle_delete_sensor_by_id;
    cbn [op_name]; topics; rewrite Hload; sym_unfold; sym_simpl.
  all: try (destruct (truthy data) eqn:Ht; cbn [negb orb] in *).
  all: try (destruct data; try discriminate Hread; cbn [py_get field]).
  all: repeat (sym_simpl;
               try first [ loop_step ltac:(fun c d n w => constr:(bulk_loop_frame c d n w))
                         | sym_step ]).
  all: cbn [events] in *.
  all: try (repeat split; reflexivity).
  all: try (intros; congruence).
  all: intros _;
    repeat match goal with
           | Hev : events ?w0 = _ |- context [events ?w0] => rewrite Hev
           end;
    rewrite <- ?app_assoc; eexists _, _; reflexivity.
Qed.

(** The five operations at an empty payload, in the reference runtime. *)
Lemma body_validation_at_delete :
  let w' := after (handler_of Delete EmptyString) world0 in
  outbox w' = outbox world0 ++
              [reply (response_topic Delete) 400 (error_body "time and sensor_id are required")] ∧
  events w' = events world0 ∧ conns w' = conns world0 ∧ table w' = table world0.
Proof.
  apply (body_validation_precedes_store Delete EmptyString (dict_of []) world0);
    reflexivity.
Defined.

(** ** The bulk insert *)

(** What one entry of a batch does to the rows of the transaction: nothing
    when it has no [sensor_id], else the insert the loop executes for it. *)
Definition entry_rows `{Runtime} (now : Z) (entry : pyval) (rows : list Reading)
  : result (list Reading) :=
  if is_none (field entry "sensor_id") then Done rows
  else
    r ← (if truthy (field entry "time")
         then run_query InsertAt [field entry "time"; field entry "sensor_id";
                                  field entry "temperature"; field entry "humidity"] now rows
         else run_query InsertNow [field entry "sensor_id";
                                   field entry "temperature"; field entry "humidity"] now rows);
    Done r.1.1.

(** The batch, entry after entry, until the store rejects one. *)
Fixpoint batch_rows `{Runtime} (now : Z) (entries : list pyval) (rows : list Reading)
  : result (list Reading) :=
  match entries with
  | [] => Done rows
  | entry :: rest => rows' ← entry_rows now entry rows; batch_rows now rest rows'
  end.

(** The entries that carry a [sensor_id], and those that lack one. *)
Definition with_sensor (entries : list pyval) : list pyval :=
  filter (λ e, is_none (field e "sensor_id") = false) entries.

Definition without_sensor (entries : list pyval) : list pyval :=
  filter (λ e, is_none (field e "sensor_id") = true) entries.

Lemma with_without_sensor (entries : list pyval) :
  length (with_sensor entries) = (length entries - length (without_sensor entries))%nat.
Proof.
  unfold with_sensor, without_sensor. induction entries as [|e es IH]; [reflexivity|].
  rewrite !filter_cons. destruct (is_none (field e "sensor_id")); cbn [length].
  - rewrite decide_False, decide_True by done. cbn. lia.
  - rewrite decide_True, decide_False by done. cbn [length].
    pose proof (length_filter (λ e, is_none (field e "sensor_id") = true) es). lia.
Qed.

Lemma sql_insert_length (t s : Z) (temp hum : option Z) (rows rows' : list Reading) (r : Reading) :
  sql_insert t s temp hum rows = Done (rows', r) → length rows' = S (length rows).
Proof.
  unfold sql_insert. case_decide; [discriminate|]. intros [= <- <-].
  rewrite length_app. cbn. lia.
Qed.

(** Case analysis on the results a store call is made of. *)
Ltac result_cases H :=
  repeat match type of H with
         | context [mbind _ ?r] =>
           let E := fresh "E" in
           destruct r as [?|?] eqn:E; cbn [mbind result_bind] in H; try discriminate H
         | context [let (_, _) := ?p in _] => destruct p
         end.

Lemma insert_rows_length `{Runtime} (q : Query) (params : list pyval) (now : Z)
    (rows : list Reading) (res : list Reading * list pyrow * Z) :
  q ∈ [InsertAt; InsertNow; InsertAtReturning; InsertNowReturning] →
  run_query q params now rows = Done res →
  length res.1.1 = S (length rows).
Proof.
  intros Hq Hrun.
  repeat (apply elem_of_cons in Hq as [->|Hq]); [..|by apply elem_of_nil in Hq].
  all: unfold run_query in Hrun.
  all: do 5 (try destruct params as [|? params]); try discriminate Hrun.
  all: result_cases Hrun.
  all: injection Hrun as <-; cbn [fst snd].
  all: eapply sql_insert_length; eassumption.
Qed.

Lemma entry_rows_length `{Runtime} (now : Z) (entry : pyval) (rows rows' : list Reading) :
  entry_rows now entry rows = Done rows' →
  length rows' = (length rows + length (with_sensor [entry]))%nat.
Proof.
  unfold entry_rows, with_sensor. rewrite filter_cons, filter_nil.
  destruct (is_none (field entry "sensor_id")).
  - intros [= <-]. rewrite decide_False by done. cbn. lia.
  - rewrite decide_True by done. cbn [length].
    destruct (truthy (field entry "time")).
    all: match goal with
         | |- context [mbind _ ?r] => destruct r as [res|] eqn:Hrun
         end; cbn [mbind result_bind]; [|discriminate].
    all: intros [= <-]; apply insert_rows_length in Hrun;
      [lia | repeat first [apply list_elem_of_here | apply list_elem_of_further]].
Qed.

Lemma batch_rows_length `{Runtime} (now : Z) (entries : list pyval) (rows rows' : list Reading) :
  batch_rows now entries rows = Done rows' →
  length rows' = (length rows + length (with_sensor entries))%nat.
Proof.
  revert rows. induction entries as [|e es IH]; intros rows; cbn [batch_rows].
  - intros [= <-]. cbn. lia.
  - destruct (entry_rows now e rows) as [rows1|] eqn:He; cbn [mbind result_bind];
      [|discriminate].
    intros Hrest. apply IH in Hrest. apply entry_rows_length in He.
    change (e :: es) with ([e] ++ es). unfold with_sensor in *.
    rewrite filter_app, length_app. lia.
Qed.

(** The loop, run on a reachable store with entries that are objects: it
    computes [batch_rows] on the rows of its connection, and counts the
    inserts it made. *)
Lemma bulk_loop_exact `{Runtime} (c : nat) (entries : list pyval) (n : Z) (w : World) (k : Conn) :
  Forall (λ e, is_dict e) entries →
  conns w !! c = Some k →
  faults w = [] →
  let w' := after (bulk_loop c entries n) w in
  faults w' = [] ∧ clock w' = clock w ∧
  match batch_rows (clock w) entries (conn_work k) with
  | Done rows' =>
    outcome (bulk_loop c entries n) w = Done (n + Z.of_nat (length (with_sensor entries))) ∧
    ∃ k', conns w' !! c = Some k' ∧ conn_work k' = rows'
  | Raised e => outcome (bulk_loop c entries n) w = Raised e
  end.
Proof.
  intros Hdict. revert n w k.
  induction Hdict as [|entry rest Hentry _ IH]; intros n w k Hc Hf.
  - cbn. rewrite Z.add_0_r. repeat split; try done. by exists k.
  - destruct entry; try done. cbn [bulk_loop batch_rows py_get].
    unfold entry_rows, with_sensor. rewrite filter_cons. cbn [field].
    sym_unfold. sym_simpl. 
    destruct (is_none (default PNone (d !! "sensor_id"))) eqn:Hs.
    + rewrite decide_False by done. cbn [mbind result_bind].
      apply (IH n w k Hc Hf).
    + rewrite decide_True by done. cbn [length].
      destruct (truthy (default PNone (d !! "time"))); sym_simpl.
      all: rewrite Hf; cbn [hd tl]; sym_simpl; rewrite Hc; sym_simpl.
      all: match goal with
           | |- context [run_query ?q ?ps ?now ?rows] =>
             destruct (run_query q ps now rows) as [[[rows1 out1] n1]|e] eqn:Hrun
           end; sym_simpl; cbn [mbind result_bind].
      all: try (split; [reflexivity|]; split; [reflexivity|]; reflexivity).
      all: match goal with
           | |- context [bulk_loop _ _ ?n' ?w1] =>
             specialize (IH n' w1 (mkConn rows1 out1 n1))
           end.
      all: cbn [conns faults clock] in IH; rewrite lookup_insert_eq in IH.
      all: cbn [conn_work mbind result_bind fst snd] in *.
      all: specialize (IH eq_refl eq_refl); unfold after, outcome in IH.
      all: destruct IH as (IHf & IHc & IH); split; [exact IHf|]; split; [exact IHc|].
      all: destruct (batch_rows (clock w) rest rows1); [|exact IH].
      all: destruct IH as (-> & IH); split; [unfold with_sensor; f_equal; lia | exact IH].
Qed.

(** C3, amended.  A [CreateBulk] request whose payload is a non-empty list of
    N objects, K of them without [sensor_id], on a store that is reachable:
    when the store accepts every insert of the batch, the K entries are
    skipped, the N-K rows are added to the table by one commit, and the
    response is 201 with the count N-K and no per-row detail; when the store
    rejects an insert (a key that is already there, in the table or earlier
    in the batch, or a value it cannot read), the batch stops there, nothing
    is committed, the table is unchanged and the response is 500. *)
Theorem bulk_is_one_unit_of_work `{Runtime} (payload : string) (entries : list pyval)
    (w : World) :
  loads_or payload (PList []) = Done (PList entries) →
  entries ≠ [] →
  Forall (λ e, is_dict e) entries →
  faults w = [] →
  let w' := after (handle_create_bulk_sensors payload) w in
  let N := length entries in
  let K := length (without_sensor entries) in
  match batch_rows (clock w) entries (table w) with
  | Done rows' =>
    outbox w' = outbox w ++
      [reply (response_topic CreateBulk) 201
         (dict_of [("message", PStr (pretty (Z.of_nat (N - K)) +:+
                                     " records inserted successfully"))])] ∧
    table w' = rows' ∧
    length (table w') = (length (table w) + (N - K))%nat ∧
    conns w' = conns w ∧
    ∃ c evs, events w' = events w ++ [EvConnect c] ++ evs ++ [EvCommit c; EvClose c] ∧
             Forall (λ ev, is_execute ev) evs
  | Raised e =>
    outbox w' = outbox w ++ [reply (response_topic CreateBulk) 500 (error_body (exn_str e))] ∧
    table w' = table w ∧
    ∃ c evs, events w' = events w ++ [EvConnect c] ++ evs ∧
             Forall (λ ev, is_execute ev) evs
  end.
Proof.
  intros Hload Hne Hdict Hf w' N K. subst w'.
  pose proof (with_without_sensor entries) as Hcount. fold N K in Hcount.
  unfold handle_create_bulk_sensors, response_topic, reply, envelope, error_body.
  cbn [op_name]. topics. rewrite Hload. sym_unfold. sym_simpl.
  destruct entries as [|e0 es]; [done|]. cbn [truthy is_list negb orb list_items].
  rewrite Hf. sym_simpl.
  set (c := fresh (dom (conns w))).
  set (w1 := mkWorld _ _ _ _ _ _ _).
  pose proof (bulk_loop_exact c (e0 :: es) 0 w1 (mkConn (table w) [] (-1)) Hdict) as Hexact.
  pose proof (bulk_loop_frame c (e0 :: es) 0 w1) as Hframe.
  unfold after, outcome, loop_frame in Hexact, Hframe.
  subst w1. cbn [conns faults clock table outbox events conn_work] in Hexact, Hframe.
  rewrite lookup_insert_eq in Hexact. specialize (Hexact eq_refl eq_refl).
  destruct Hexact as (Hf2 & _ & Hexact).
  destruct Hframe as (Htab & Hout & Hcs & evs & Hev & Hall).
  destruct (bulk_loop c (e0 :: es) 0 _) as [r w2]. cbn [fst snd] in *.
  rewrite delete_insert_eq in Hcs.
  destruct (batch_rows (clock w) (e0 :: es) (table w)) as [rows'|e] eqn:Hbatch.
  - destruct Hexact as (-> & k' & Hk' & Hwork). sym_simpl.
    rewrite Hf2. sym_simpl. rewrite Hk'. sym_simpl.
    rewrite Hout, Hev, Hcs, Hwork, Hcount, Z.add_0_l.
    rewrite (delete_id (conns w)) by apply fresh_conn_free.
    repeat split; try reflexivity.
    + apply batch_rows_length in Hbatch. lia.
    + exists c, evs. rewrite <- !app_assoc. done.
  - rewrite Hexact. sym_simpl. rewrite Hout, Hev, Htab.
    repeat split; try reflexivity. exists c, evs. rewrite <- !app_assoc. done.
Qed.

(** A JSON string literal. *)
Definition q (s : string) : string := Ref.dq +:+ s +:+ Ref.dq.

(** [[{"sensor_id": 1}, {"sensor_id": 1}]] *)
Definition twice_sensor_1 : string :=
  "[{" +:+ q "sensor_id" +:+ ": 1}, {" +:+ q "sensor_id" +:+ ": 1}]".

(** C3, the claim as stated fails: a batch of N = 2 entries, both with a
    [sensor_id] (K = 0) and neither with a [time].  Both inserts are stamped
    with the same [NOW()], the store rejects the second one, and the batch is
    gone: response 500, no commit, no row.  The empty list [[]] is answered
    with 400, not with a count of 0. *)
Lemma bulk_aborts_on_a_rejected_insert :
  let w' := after (handle_create_bulk_sensors twice_sensor_1) world0 in
  json_loads twice_sensor_1
  = Done (PList [dict_of [("sensor_id", PInt 1)]; dict_of [("sensor_id", PInt 1)]]) ∧
  outbox w' = [reply "sensors/create_bulk/response" 500
                 (error_body "duplicate key value violates unique constraint")] ∧
  table w' = [] ∧
  filter (λ ev, is_commit ev) (events w') = [] ∧
  outbox (after (handle_create_bulk_sensors "[]") world0)
  = [reply "sensors/create_bulk/response" 400 (error_body "Expected a list of sensor data")].
Proof. vm_compute. done. Qed.

(** [[{"sensor_id": 1}, {"temperature": 20}, {"sensor_id": 2, "time": "2024-01-01 00:00:00"}]] *)
Definition three_entries : string :=
  "[{" +:+ q "sensor_id" +:+ ": 1}, {" +:+ q "temperature" +:+ ": 20}, {" +:+
  q "sensor_id" +:+ ": 2, " +:+ q "time" +:+ ": " +:+ q "2024-01-01 00:00:00" +:+ "}]".

(** Three entries, one without [sensor_id]: two rows, one commit. *)
Lemma bulk_two_of_three :
  let w' := after (handle_create_bulk_sensors three_entries) world0 in
  outbox w' = [reply "sensors/create_bulk/response" 201
                 (dict_of [("message", PStr "2 records inserted successfully")])] ∧
  table w' = [mkReading 1704110400000000 1 None None;
              mkReading 1704067200000000 2 None None] ∧
  length (table w') = 2%nat ∧
  conns w' = ∅ ∧
  ∃ c evs, events w' = [EvConnect c] ++ evs ++ [EvCommit c; EvClose c] ∧
           Forall (λ ev, is_execute ev) evs.
Proof.
  pose proof (bulk_is_one_unit_of_work three_entries
                [dict_of [("sensor_id", PInt 1)]; dict_of [("temperature", PInt 20)];
                 dict_of [("sensor_id", PInt 2); ("time", PStr "2024-01-01 00:00:00")]]
                world0) as Hw.
  specialize (Hw ltac:(vm_compute; reflexivity) ltac:(discriminate)
                 ltac:(repeat constructor) ltac:(reflexivity)).
  vm_compute in Hw. vm_compute. exact Hw.
Defined.

(** ** Keyed writes: create and update *)

(** A request body that names the row [(t, s)] and carries the values
    [temp] and [hum] (None where the field is absent or null): an object
    with a truthy [time] the store reads as [t], a [sensor_id] it reads as
    [s], and a [temperature] and [humidity] it can read. *)
Definition keyed_request `{Runtime} (data : pyval) (t s : Z) (temp hum : option Z) : Prop :=
  is_dict data = true ∧ truthy data = true ∧
  truthy (field data "time") = true ∧ pg_timestamptz (field data "time") = Done t ∧
  is_none (field data "sensor_id") = false ∧ as_integer (field data "sensor_id") = Done s ∧
  as_real (field data "temperature") = Done temp ∧
  as_real (field data "humidity") = Done hum.

(** A row of the table with the key [(t, s)]. *)
Definition at_key (t s : Z) (r : Reading) : Prop := r_time r = t ∧ r_sensor_id r = s.

#[global] Instance at_key_dec (t s : Z) (r : Reading) : Decision (at_key t s r).
Proof. unfold at_key. apply _. Defined.

(** The row as the response carries it. *)
Definition row_json `{Runtime} (r : Reading) : pyval :=
  PDict (<["time" := PStr (isoformat (r_time r))]> (reading_row r)).

Lemma iso_row_reading `{Runtime} (r : Reading) :
  iso_row "time" (reading_row r) = Done (<["time" := PStr (isoformat (r_time r))]> (reading_row r)).
Proof. reflexivity. Qed.

Lemma shape_rows_readings `{Runtime} (rows : list Reading) :
  shape_rows (iso_row "time") (reading_row <$> rows) = Done (row_json <$> rows).
Proof.
  induction rows as [|r rows IH]; [reflexivity|].
  cbn [fmap list_fmap shape_rows]. rewrite iso_row_reading. cbn [mbind result_bind].
  fold (fmap (M:=list) reading_row rows). rewrite IH. reflexivity.
Qed.

Lemma reading_row_truthy (r : Reading) : truthy (PDict (reading_row r)) = true.
Proof.
  cbn [truthy]. destruct (size (reading_row r)) eqn:Hsz; [|reflexivity].
  apply map_size_empty_inv in Hsz.
  assert (reading_row r !! "time" = Some (PDatetime (r_time r))) as Hl by reflexivity.
  rewrite Hsz in Hl. by rewrite lookup_empty in Hl.
Qed.

Lemma insert_at_returning `{Runtime} (data : pyval) (t s : Z) (temp hum : option Z) (now : Z)
    (rows : list Reading) :
  keyed_request data t s temp hum →
  run_query InsertAtReturning
    [field data "time"; field data "sensor_id"; field data "temperature"; field data "humidity"]
    now rows
  = if decide (Exists (at_key t s) rows)
    then Raised (Exn IntegrityError "duplicate key value violates unique constraint")
    else Done (rows ++ [mkReading t s temp hum], [reading_row (mkReading t s temp hum)], 1).
Proof.
  intros (_ & _ & _ & Ht & _ & Hs & Htemp & Hhum).
  cbn [run_query]. rewrite Ht, Hs, Htemp, Hhum. cbn [mbind result_bind].
  unfold sql_insert, at_key. destruct (decide _); reflexivity.
Qed.

Lemma update_coalesce_run `{Runtime} (data : pyval) (t s : Z) (temp hum : option Z) (now : Z)
    (rows : list Reading) :
  keyed_request data t s temp hum →
  run_query UpdateCoalesce
    [field data "temperature"; field data "humidity"; field data "time"; field data "sensor_id"]
    now rows
  = Done (sql_update temp hum t s rows, reading_row <$> sql_updated temp hum t s rows,
          Z.of_nat (length (sql_updated temp hum t s rows))).
Proof.
  intros (_ & _ & _ & Ht & _ & Hs & Htemp & Hhum).
  cbn [run_query]. rewrite Ht, Hs, Htemp, Hhum. reflexivity.
Qed.

(** Running a handler on a request that reads as [keyed_request] says. *)
Ltac keyed_run Hreq Hf :=
  let Hreq' := fresh in
  pose proof Hreq as Hreq';
  destruct Hreq' as (Hd & Htr & Htime & _ & Hsid & _);
  match type of Hd with is_dict ?data = true => destruct data; try discriminate Hd end;
  cbn [field] in *;
  sym_unfold; cbn [py_get];
  repeat (sym_simpl; rewrite ?Hf, ?Htr, ?Htime, ?Hsid; cbn [negb orb hd tl]).

Lemma create_keyed `{Runtime} (payload : string) (data : pyval) (t s : Z) (temp hum : option Z)
    (w : World) :
  loads_or payload (dict_of []) = Done data →
  keyed_request data t s temp hum →
  faults w = [] →
  let w' := after (handle_create_sensor payload) w in
  faults w' = [] ∧
  if decide (Exists (at_key t s) (table w))
  then outbox w' = outbox w ++ [reply (response_topic Create) 409
                                  (error_body "Duplicate entry for this time and sensor_id")] ∧
       table w' = table w ∧
       filter (λ ev, is_commit ev) (events w') = filter (λ ev, is_commit ev) (events w)
  else outbox w' = outbox w ++ [reply (response_topic Create) 201
                                  (dict_of [("message", PStr "Sensor data created successfully");
                                            ("data", row_json (mkReading t s temp hum))])] ∧
       table w' = table w ++ [mkReading t s temp hum].
Proof.
  intros Hload Hreq Hf w'. subst w'.
  unfold handle_create_sensor, response_topic, reply, envelope, error_body, row_json.
  cbn [op_name]. topics. rewrite Hload.
  pose proof (insert_at_returning _ _ _ _ _ (clock w) (table w) Hreq) as Hrun.
  keyed_run Hreq Hf.
  rewrite Hrun. destruct (decide (Exists (at_key t s) (table w))); sym_simpl.
  - cbn [is_integrity_error exn_is]. sym_simpl. rewrite !filter_app. cbn.
    rewrite !app_nil_r. done.
  - repeat (sym_simpl; cbn [py_dict head mbind result_bind hd tl]; rewrite ?iso_row_reading).
    done.
Qed.

Lemma create_http_keyed `{Runtime} (req : Request) (data : pyval) (t s : Z) (temp hum : option Z)
    (w : World) :
  get_json req = Done data →
  keyed_request data t s temp hum →
  faults w = [] →
  let w' := after (create_sensor_data req) w in
  faults w' = [] ∧ outbox w' = outbox w ∧
  if decide (Exists (at_key t s) (table w))
  then outcome (create_sensor_data req) w
       = Done (error_body "Duplicate entry for this time and sensor_id", 409) ∧
       table w' = table w ∧
       filter (λ ev, is_commit ev) (events w') = filter (λ ev, is_commit ev) (events w)
  else outcome (create_sensor_data req) w
       = Done (dict_of [("message", PStr "Sensor data created successfully");
                        ("data", row_json (mkReading t s temp hum))], 201) ∧
       table w' = table w ++ [mkReading t s temp hum].
Proof.
  intros Hload Hreq Hf w'. subst w'.
  unfold create_sensor_data, error_body, row_json. rewrite Hload.
  pose proof (insert_at_returning _ _ _ _ _ (clock w) (table w) Hreq) as Hrun.
  keyed_run Hreq Hf.
  rewrite Hrun. destruct (decide (Exists (at_key t s) (table w))); sym_simpl.
  - cbn [is_integrity_error exn_is]. sym_simpl. rewrite !filter_app. cbn.
    rewrite !app_nil_r. done.
  - repeat (sym_simpl; cbn [py_dict head mbind result_bind hd tl]; rewrite ?iso_row_reading).
    done.
Qed.

(** C5.  Two [Create] requests that name the same [(time, sensor_id)], one
    after the other on a reachable store: whatever the first one met, the key
    is in the table after it; the second one is answered 409, the table is
    what it was before the second request (the stored row is not
    overwritten) and no commit is made.  If the key was free, the first
    request stored its row.  The same over HTTP. *)
Theorem second_create_is_rejected `{Runtime} (p1 p2 : string) (r1 r2 : Request)
    (data1 data2 : pyval) (t s : Z) (temp1 hum1 temp2 hum2 : option Z) (w : World) :
  loads_or p1 (dict_of []) = Done data1 → get_json r1 = Done data1 →
  loads_or p2 (dict_of []) = Done data2 → get_json r2 = Done data2 →
  keyed_request data1 t s temp1 hum1 →
  keyed_request data2 t s temp2 hum2 →
  faults w = [] →
  (let w1 := after (handle_create_sensor p1) w in
   let w2 := after (handle_create_sensor p2) w1 in
   Exists (at_key t s) (table w1) ∧
   (¬ Exists (at_key t s) (table w) → table w1 = table w ++ [mkReading t s temp1 hum1]) ∧
   outbox w2 = outbox w1 ++ [reply (response_topic Create) 409
                               (error_body "Duplicate entry for this time and sensor_id")] ∧
   table w2 = table w1 ∧
   filter (λ ev, is_commit ev) (events w2) = filter (λ ev, is_commit ev) (events w1)) ∧
  (let w1 := after (create_sensor_data r1) w in
   let w2 := after (create_sensor_data r2) w1 in
   Exists (at_key t s) (table w1) ∧
   (¬ Exists (at_key t s) (table w) → table w1 = table w ++ [mkReading t s temp1 hum1]) ∧
   outcome (create_sensor_data r2) w1
   = Done (error_body "Duplicate entry for this time and sensor_id", 409) ∧
   table w2 = table w1 ∧
   filter (λ ev, is_commit ev) (events w2) = filter (λ ev, is_commit ev) (events w1)).
Proof.
  intros Hp1 Hr1 Hp2 Hr2 Hreq1 Hreq2 Hf.
  assert (Exists (at_key t s) (table w ++ [mkReading t s temp1 hum1])) as Hnew.
  { apply Exists_app. right. by constructor. }
  split.
  - intros w1 w2.
    destruct (create_keyed p1 data1 t s temp1 hum1 w Hp1 Hreq1 Hf) as (Hf1 & Hfirst).
    fold w1 in Hf1, Hfirst.
    assert (Exists (at_key t s) (table w1) ∧
            (¬ Exists (at_key t s) (table w) → table w1 = table w ++ [mkReading t s temp1 hum1]))
      as (Hkey & Hfresh).
    { destruct (decide (Exists (at_key t s) (table w))) as [Hin|Hout].
      - destruct Hfirst as (_ & -> & _). done.
      - destruct Hfirst as (_ & ->). done. }
    destruct (create_keyed p2 data2 t s temp2 hum2 w1 Hp2 Hreq2 Hf1) as (_ & Hsecond).
    fold w2 in Hsecond. rewrite decide_True in Hsecond by done. done.
  - intros w1 w2.
    destruct (create_http_keyed r1 data1 t s temp1 hum1 w Hr1 Hreq1 Hf) as (Hf1 & _ & Hfirst).
    fold w1 in Hf1, Hfirst.
    assert (Exists (at_key t s) (table w1) ∧
            (¬ Exists (at_key t s) (table w) → table w1 = table w ++ [mkReading t s temp1 hum1]))
      as (Hkey & Hfresh).
    { destruct (decide (Exists (at_key t s) (table w))) as [Hin|Hout].
      - destruct Hfirst as (_ & -> & _). done.
      - destruct Hfirst as (_ & ->). done. }
    destruct (create_http_keyed r2 data2 t s temp2 hum2 w1 Hr2 Hreq2 Hf1) as (_ & _ & Hsecond).
    fold w2 in Hsecond. rewrite decide_True in Hsecond by done. done.
Qed.

(** [{"sensor_id": 1, "time": "2024-01-01 00:00:00", "temperature": 20}] and
    the same key with another temperature and the time written differently. *)
Definition create_20 : string :=
  "{" +:+ q "sensor_id" +:+ ": 1, " +:+ q "time" +:+ ": " +:+ q "2024-01-01 00:00:00" +:+
  ", " +:+ q "temperature" +:+ ": 20}".

Definition create_30 : string :=
  "{" +:+ q "sensor_id" +:+ ": 1, " +:+ q "time" +:+ ": " +:+ q "2024-01-01T00:00:00Z" +:+
  ", " +:+ q "temperature" +:+ ": 30}".

Definition body_20 : pyval :=
  dict_of [("sensor_id", PInt 1); ("time", PStr "2024-01-01 00:00:00"); ("temperature", PInt 20)].

Definition body_30 : pyval :=
  dict_of [("sensor_id", PInt 1); ("time", PStr "2024-01-01T00:00:00Z"); ("temperature", PInt 30)].

(** The same key twice on the empty table: the row of the first request
    stays, with its 20.0 degrees. *)
Lemma second_create_at_sensor_1 :
  let w1 := after (handle_create_sensor create_20) world0 in
  let w2 := after (handle_create_sensor create_30) w1 in
  table w1 = [mkReading 1704067200000000 1 (Some 0x4034000000000000) None] ∧
  outbox w2 = outbox w1 ++ [reply "sensors/create/response" 409
                              (error_body "Duplicate entry for this time and sensor_id")] ∧
  table w2 = table w1.
Proof.
  destruct (second_create_is_rejected create_20 create_30
              (mkRequest ∅ (Done body_20)) (mkRequest ∅ (Done body_30)) body_20 body_30
              1704067200000000 1 (Some 0x4034000000000000) None (Some 0x403E000000000000) None
              world0)
    as ((_ & Hfresh & Hout & Htab & _) & _).
  1-2: vm_compute; reflexivity.
  1-2: vm_compute; reflexivity.
  1-2: repeat split; vm_compute; reflexivity.
  - reflexivity.
  - split; [|split].
    + apply Hfresh. intros Hin. inversion Hin.
    + exact Hout.
    + exact Htab.
Defined.

Lemma sql_updated_nil (temp hum : option Z) (t s : Z) (rows : list Reading) :
  sql_updated temp hum t s rows = [] ↔ ¬ Exists (at_key t s) rows.
Proof.
  unfold sql_updated, at_key. rewrite Exists_exists. split.
  - intros Hnil (r & Hin & Hr). apply fmap_nil_inv in Hnil.
    by apply (filter_nil_not_elem_of _ _ r Hnil Hr).
  - intros Hno.
    induction rows as [|r rows IH]; [reflexivity|].
    rewrite filter_cons, decide_False.
    + apply IH. intros (r' & Hin & Hr'). apply Hno. exists r'. split; [by right | done].
    + intros Hr. apply Hno. exists r. split; [by left | done].
Qed.

Lemma update_keyed `{Runtime} (payload : string) (data : pyval) (t s : Z) (temp hum : option Z)
    (w : World) :
  loads_or payload (dict_of []) = Done data →
  keyed_request data t s temp hum →
  faults w = [] →
  let w' := after (handle_update_sensor payload) w in
  conns w' = conns w ∧
  match sql_updated temp hum t s (table w) with
  | [] => outbox w' = outbox w ++ [reply (response_topic Update) 404
                                     (error_body "Record not found")] ∧
          table w' = table w ∧
          filter (λ ev, is_commit ev) (events w') = filter (λ ev, is_commit ev) (events w)
  | r :: _ => outbox w' = outbox w ++ [reply (response_topic Update) 200
                                         (dict_of [("message", PStr "Sensor data updated successfully");
                                                   ("data", row_json r)])] ∧
              table w' = sql_update temp hum t s (table w)
  end.
Proof.
  intros Hload Hreq Hf w'. subst w'.
  unfold handle_update_sensor, response_topic, reply, envelope, error_body, row_json.
  cbn [op_name]. topics. rewrite Hload.
  pose proof (update_coalesce_run _ _ _ _ _ (clock w) (table w) Hreq) as Hrun.
  keyed_run Hreq Hf.
  rewrite Hrun. sym_simpl.
  destruct (sql_updated temp hum t s (table w)) as [|r rest];
    cbn [fmap list_fmap head no_record].
  - repeat (sym_simpl; cbn [hd tl fmap list_fmap head no_record]).
    rewrite !filter_app. cbn. rewrite !app_nil_r.
    rewrite insert_insert_eq, close_opened by apply fresh_conn_free. done.
  - repeat (sym_simpl; cbn [py_dict fmap list_fmap head no_record mbind result_bind hd tl];
            rewrite ?reading_row_truthy, ?iso_row_reading; cbn [negb]).
    rewrite insert_insert_eq, close_opened by apply fresh_conn_free. done.
Qed.

Lemma update_http_keyed `{Runtime} (req : Request) (data : pyval) (t s : Z) (temp hum : option Z)
    (w : World) :
  get_json req = Done data →
  keyed_request data t s temp hum →
  faults w = [] →
  let w' := after (update_sensor_data req) w in
  conns w' = conns w ∧
  match sql_updated temp hum t s (table w) with
  | [] => outcome (update_sensor_data req) w = Done (error_body "Record not found", 404) ∧
          table w' = table w ∧
          filter (λ ev, is_commit ev) (events w') = filter (λ ev, is_commit ev) (events w)
  | r :: _ => outcome (update_sensor_data req) w
              = Done (dict_of [("message", PStr "Sensor data updated successfully");
                               ("data", row_json r)], 200) ∧
              table w' = sql_update temp hum t s (table w)
  end.
Proof.
  intros Hload Hreq Hf w'. subst w'.
  unfold update_sensor_data, error_body, row_json. rewrite Hload.
  pose proof (update_coalesce_run _ _ _ _ _ (clock w) (table w) Hreq) as Hrun.
  keyed_run Hreq Hf.
  rewrite Hrun. sym_simpl.
  destruct (sql_updated temp hum t s (table w)) as [|r rest];
    cbn [fmap list_fmap head no_record].
  - repeat (sym_simpl; cbn [hd tl fmap list_fmap head no_record]).
    rewrite !filter_app. cbn. rewrite !app_nil_r.
    rewrite insert_insert_eq, close_opened by apply fresh_conn_free. done.
  - repeat (sym_simpl; cbn [py_dict fmap list_fmap head no_record mbind result_bind hd tl];
            rewrite ?reading_row_truthy, ?iso_row_reading; cbn [negb]).
    rewrite insert_insert_eq, close_opened by apply fresh_conn_free. done.
Qed.

(** What [Update] makes of a row: a value that was supplied replaces the
    stored one, a field that was omitted keeps it. *)
Definition updated_row (temp hum : option Z) (r : Reading) : Reading :=
  mkReading (r_time r) (r_sensor_id r)
    (match temp with Some x => Some x | None => r_temperature r end)
    (match hum with Some x => Some x | None => r_humidity r end).

(** C4.  An [Update] request that names [(time, sensor_id)], on a reachable
    store, with [temp] and [hum] the values it supplies (None for a field it
    omits).  If a row has that key: the response is 200, and in the table
    every row with the key has its supplied fields replaced and its omitted
    fields as they were, every other row is untouched.  If no row has the
    key: the response is 404, the table is unchanged and nothing is
    committed.  Either way the connection is closed.  The same over HTTP. *)
Theorem update_coalesces_or_404 `{Runtime} (payload : string) (req : Request) (data : pyval)
    (t s : Z) (temp hum : option Z) (w : World) :
  loads_or payload (dict_of []) = Done data → get_json req = Done data →
  keyed_request data t s temp hum →
  faults w = [] →
  let w' := after (handle_update_sensor payload) w in
  let h' := after (update_sensor_data req) w in
  (is_none (field data "temperature") = true → temp = None) ∧
  (is_none (field data "humidity") = true → hum = None) ∧
  (Exists (at_key t s) (table w) →
   (∃ body, outbox w' = outbox w ++ [reply (response_topic Update) 200 body]) ∧
   (∃ body, outcome (update_sensor_data req) w = Done (body, 200)) ∧
   ∀ tbl, tbl = table w' ∨ tbl = table h' →
     length tbl = length (table w) ∧
     ∀ i r, table w !! i = Some r →
       tbl !! i = Some (if decide (at_key t s r) then updated_row temp hum r else r)) ∧
  (¬ Exists (at_key t s) (table w) →
   outbox w' = outbox w ++ [reply (response_topic Update) 404 (error_body "Record not found")] ∧
   outcome (update_sensor_data req) w = Done (error_body "Record not found", 404) ∧
   table w' = table w ∧ table h' = table w ∧
   filter (λ ev, is_commit ev) (events w') = filter (λ ev, is_commit ev) (events w) ∧
   filter (λ ev, is_commit ev) (events h') = filter (λ ev, is_commit ev) (events w)) ∧
  conns w' = conns w ∧ conns h' = conns w.
Proof.
  intros Hp Hr Hreq Hf w' h'.
  destruct (update_keyed payload data t s temp hum w Hp Hreq Hf) as (Hcs & Hm).
  destruct (update_http_keyed req data t s temp hum w Hr Hreq Hf) as (Hcs' & Hh).
  fold w' in Hcs, Hm. fold h' in Hcs', Hh.
  pose proof (sql_updated_nil temp hum t s (table w)) as Hnil.
  destruct Hreq as (_ & _ & _ & _ & _ & _ & Htemp & Hhum).
  split; [|split; [|split; [|split; [|split]]]]; try done.
  - destruct (field data "temperature"); try discriminate. by injection Htemp as <-.
  - destruct (field data "humidity"); try discriminate. by injection Hhum as <-.
  - intros Hin. destruct (sql_updated temp hum t s (table w)) as [|r0 rest].
    { exfalso. by apply Hnil. }
    destruct Hm as (Hout & Htab). destruct Hh as (Hres & Htab').
    split; [eauto|]. split; [eauto|].
    intros tbl [-> | ->]; rewrite ?Htab, ?Htab'; unfold sql_update.
    all: split; [apply length_fmap|].
    all: intros i r Hi; rewrite list_lookup_fmap, Hi; cbn [fmap option_fmap option_map].
    all: unfold at_key, updated_row, set_coalesce, coalesce; by destruct (decide _).
  - intros Hno. apply Hnil in Hno. rewrite Hno in Hm, Hh.
    destruct Hm as (? & ? & ?). destruct Hh as (? & ? & ?). done.
Qed.

(** A table with one reading of sensor 1: 20.0 degrees, 50.0 percent. *)
Definition stored_20 : World :=
  mkWorld [mkReading 1704067200000000 1 (Some 0x4034000000000000) (Some 0x4049000000000000)]
          1704110400000000 [] ∅ [] [] [].

(** An update that supplies the temperature only: 30.0 degrees replace the
    20.0, the 50.0 percent stay. *)
Lemma update_keeps_humidity :
  table (after (handle_update_sensor create_30) stored_20)
  = [mkReading 1704067200000000 1 (Some 0x403E000000000000) (Some 0x4049000000000000)].
Proof.
  destruct (update_coalesces_or_404 create_30 (mkRequest ∅ (Done body_30)) body_30
              1704067200000000 1 (Some 0x403E000000000000) None stored_20)
    as (_ & _ & Hfound & _).
  1-2: vm_compute; reflexivity.
  - repeat split; vm_compute; reflexivity.
  - reflexivity.
  - destruct Hfound as (_ & _ & Hrows).
    { constructor. split; reflexivity. }
    destruct (Hrows _ (or_introl eq_refl)) as (Hlen & Hrow).
    specialize (Hrow 0%nat _ eq_refl).
    destruct (table _) as [|r0 [|r1 rest]]; try discriminate Hlen.
    by injection Hrow as ->.
Defined.

(** ** The range query *)

(** The statement [GetAll] hands to the driver, with its parameters: the
    sensor-filtered form when the supplied [sensor_id] is truthy, the form
    over all sensors otherwise. *)
Definition range_statement (sensor_id hours limit : pyval) : Query * list pyval :=
  if truthy sensor_id
  then (SelectRangeSensor, [sensor_id; hours; limit])
  else (SelectRangeAll, [hours; limit]).

(** C6, amended.  A [GetAll] query, over MQTT or over HTTP, with the fields
    [sensor_id], [hours] (default 24) and [limit] (default 100) it carries,
    on a store that accepts the connection: one statement is handed to the
    driver.  Its text restricts the rows to [time > NOW() - INTERVAL '%s
    hours'], and to [sensor_id = %s] exactly when the supplied [sensor_id]
    is truthy (0 and null select no filter); it orders them by [time DESC];
    and in both forms it ends in [LIMIT %s], bound to [limit]: the
    sensor-filtered form is limited too.  Only the statement of [GetById]
    has no [LIMIT]. *)
Theorem range_query_statement `{Runtime} (payload : string) (req : Request) (d : pyrow)
    (sensor_id hours limit : pyval) (w : World) :
  loads_or payload (dict_of []) = Done (PDict d) →
  default PNone (d !! "sensor_id") = sensor_id →
  default (PInt 24) (d !! "hours") = hours →
  default (PInt 100) (d !! "limit") = limit →
  args_get_int req "sensor_id" PNone = sensor_id →
  args_get_int req "hours" (PInt 24) = hours →
  args_get_int req "limit" (PInt 100) = limit →
  hd None (faults w) = None →
  let c := fresh (dom (conns w)) in
  let q := (range_statement sensor_id hours limit).1 in
  let params := (range_statement sensor_id hours limit).2 in
  (∃ evs, events (after (handle_get_all_sensors payload) w)
          = events w ++ [EvConnect c; EvExecute c (sql_text q) params] ++ evs) ∧
  (∃ evs, events (after (get_all_sensor_data req) w)
          = events w ++ [EvConnect c; EvExecute c (sql_text q) params] ++ evs) ∧
  contains "sensor_id = %s" (sql_text q) = truthy sensor_id ∧
  contains "time > NOW() - INTERVAL '%s hours'" (sql_text q) = true ∧
  contains "ORDER BY time DESC" (sql_text q) = true ∧
  contains "LIMIT %s" (sql_text q) = true ∧
  last params = Some limit ∧
  contains "LIMIT" (sql_text SelectSensor) = false.
Proof.
  intros Hload Hsid Hhours Hlimit Ha1 Ha2 Ha3 Hf c q params. subst c q params.
  unfold range_statement.
  split; [|split].
  - unfold handle_get_all_sensors. topics. rewrite Hload. sym_unfold.
    destruct (truthy sensor_id) eqn:Htr;
      repeat (sym_simpl; cbn [py_get]; rewrite ?Hf, ?Hsid, ?Hhours, ?Hlimit, ?Htr);
      repeat (sym_simpl; try sym_step);
      rewrite <- ?app_assoc; cbn [app]; eexists; f_equal; f_equal; f_equal;
      first [reflexivity | symmetry; apply app_nil_r].
  - unfold get_all_sensor_data. rewrite Ha1, Ha2, Ha3. sym_unfold.
    destruct (truthy sensor_id) eqn:Htr;
      repeat (sym_simpl; rewrite ?Hf, ?Htr);
      repeat (sym_simpl; try sym_step);
      rewrite <- ?app_assoc; cbn [app]; eexists; f_equal; f_equal; f_equal;
      first [reflexivity | symmetry; apply app_nil_r].
  - destruct (truthy sensor_id); cbn [fst snd sql_text last]; repeat split;
      vm_compute; reflexivity.
Qed.

Definition readings_6 : list Reading :=
  [mkReading 1704106800000000 1 (Some (Ref.f64_of_Z 20)) None;
   mkReading 1704108600000000 1 (Some (Ref.f64_of_Z 21)) None;
   mkReading 1704109500000000 2 (Some (Ref.f64_of_Z 22)) None].

Definition world_6 : World := mkWorld readings_6 1704110400000000 [] ∅ [] [] [].

(** [{"sensor_id": 1, "limit": 1}] *)
Definition query_6 : string := "{" +:+ q "sensor_id" +:+ ": 1, " +:+ q "limit" +:+ ": 1}".

(** C6, the claim as stated fails: the sensor-filtered form is limited too.
    The query for sensor 1 with limit 1 goes to the driver as the
    sensor-filtered statement, whose text ends in [LIMIT %s], with the limit
    1 bound to it. *)
Lemma sensor_filtered_statement_is_limited :
  (∃ evs, events (after (handle_get_all_sensors query_6) world_6)
          = [EvConnect 0; EvExecute 0 q_select_range_sensor [PInt 1; PInt 24; PInt 1]] ++ evs) ∧
  contains "sensor_id = %s" q_select_range_sensor = true ∧
  contains "LIMIT %s" q_select_range_sensor = true.
Proof. vm_compute. split; [eexists; reflexivity | split; reflexivity]. Qed.

Definition request_6 : Request :=
  mkRequest (<["sensor_id" := "1"]> (<["limit" := "1"]> ∅)) (Done PNone).

Lemma range_query_of_sensor_1 :
  (∃ evs, events (after (handle_get_all_sensors query_6) world_6)
          = [EvConnect 0; EvExecute 0 q_select_range_sensor [PInt 1; PInt 24; PInt 1]] ++ evs) ∧
  (∃ evs, events (after (get_all_sensor_data request_6) world_6)
          = [EvConnect 0; EvExecute 0 q_select_range_sensor [PInt 1; PInt 24; PInt 1]] ++ evs).
Proof.
  destruct (@range_query_statement Ref.runtime query_6 request_6
              (<["sensor_id" := PInt 1]> (<["limit" := PInt 1]> ∅))
              (PInt 1) (PInt 24) (PInt 1) world_6) as (Hm & Hh & _).
  1-8: vm_compute; reflexivity.
  split; [exact Hm | exact Hh].
Defined.

(** ** The bucket width *)

(** The driver copies a text without [%] as it is. *)
Lemma pg_placeholders_plain (a b : string) (n : nat) :
  no_percent a = true →
  pg_placeholders (a +:+ b) n = '(t, m) ← pg_placeholders b n; Some (a +:+ t, m).
Proof.
  induction a as [|c a IH]; intros Ha.
  - change (EmptyString +:+ b) with b. destruct (pg_placeholders b n) as [[t m]|]; reflexivity.
  - cbn in Ha. apply andb_true_iff in Ha as [Hc Ha]. apply negb_true_iff in Hc.
    change (String c a +:+ b) with (String c (a +:+ b)).
    cbn [pg_placeholders]. rewrite Hc, (IH Ha).
    destruct (pg_placeholders b n) as [[t m]|]; reflexivity.
Qed.

(** The text that is sent for the tail of a statement. *)
Definition sent_tail (tail : string) : string :=
  from_option fst EmptyString (pg_placeholders tail 0).

(** What a [TimeBucket] request is answered on a store without faults, given
    the text and the parameters it hands to [cursor.execute]: 500 with the
    driver's error if the driver refuses the text; otherwise what the store
    makes of the text that is sent. *)
Definition bucket_answer `{Runtime} (bucket : pyval) (text : string) (params : list pyval)
    (now : Z) (rows : list Reading) : pyval * Z :=
  match pg_query text params with
  | None => (error_body (exn_str (pg_rejects text params)), 500)
  | Some sent =>
    match out ← pg_run_text sent params now rows; shape_rows bucket_shape out with
    | Done result => (dict_of [("data", PList result); ("bucket_size", bucket)], 200)
    | Raised e => (error_body (exn_str e), 500)
    end
  end.

(** The statement of a [TimeBucket] request and its parameters. *)
Definition bucket_statement (bucket : string) (sensor_id hours : pyval) : Query * list pyval :=
  if truthy sensor_id
  then (BucketSensor bucket, [sensor_id; hours])
  else (BucketAll bucket, [hours]).

Lemma bucket_statement_query `{Runtime} (bucket : string) (sensor_id hours : pyval) (now : Z)
    (rows : list Reading) :
  let q := (bucket_statement bucket sensor_id hours).1 in
  let params := (bucket_statement bucket sensor_id hours).2 in
  run_query q params now rows
  = match pg_query (sql_text q) params with
    | Some sent => out ← pg_run_text sent params now rows; Done (rows, out, Z.of_nat (length out))
    | None => Raised (pg_rejects (sql_text q) params)
    end.
Proof. unfold bucket_statement. destruct (truthy sensor_id); reflexivity. Qed.

Lemma bucket_statement_sent (bucket : string) (sensor_id hours : pyval) :
  no_percent bucket = true →
  let q := (bucket_statement bucket sensor_id hours).1 in
  let params := (bucket_statement bucket sensor_id hours).2 in
  pg_query (sql_text q) params
  = Some (q_bucket_head +:+ bucket +:+
          sent_tail (if truthy sensor_id then q_bucket_sensor_tail else q_bucket_all_tail)).
Proof.
  intros Hb. unfold bucket_statement, pg_query.
  destruct (truthy sensor_id); cbn [fst snd sql_text];
    rewrite (pg_placeholders_plain q_bucket_head) by (vm_compute; reflexivity);
    rewrite (pg_placeholders_plain bucket) by exact Hb.
  - replace (pg_placeholders q_bucket_sensor_tail 0)
      with (Some (sent_tail q_bucket_sensor_tail, 2%nat)) by (vm_compute; reflexivity).
    reflexivity.
  - replace (pg_placeholders q_bucket_all_tail 0)
      with (Some (sent_tail q_bucket_all_tail, 1%nat)) by (vm_compute; reflexivity).
    reflexivity.
Qed.

(** C9, amended.  A [TimeBucket] request, over MQTT or over HTTP, whose
    [bucket] is the string [bucket] (["1 hour"] when the request has none),
    on a store that accepts the connection.  The text handed to
    [cursor.execute] is the head of the query, then [bucket] character for
    character, then the tail; the parameters are [sensor_id] and [hours], or
    [hours] alone, and [bucket] is not bound: this is so for every string.
    What is sent to the store is that text with its placeholders rewritten
    by the driver.  For a [bucket] without [%] it holds [bucket] character
    for character.  If the driver refuses the text, which it does for some
    [bucket] with [%], nothing is sent and, on a store without faults, the
    answer is 500 with the driver's error.  Otherwise the answer is made of
    what the store returns for the text that was sent. *)
Theorem bucket_is_spliced_into_the_text `{Runtime} (payload : string) (req : Request)
    (d : pyrow) (bucket : string) (w : World) :
  loads_or payload (dict_of []) = Done (PDict d) →
  default (PStr "1 hour") (d !! "bucket") = PStr bucket →
  args_get req "bucket" (PStr "1 hour") = PStr bucket →
  hd None (faults w) = None →
  let c := fresh (dom (conns w)) in
  let text (sensor_id : pyval) :=
    q_bucket_head +:+ bucket +:+
    (if truthy sensor_id then q_bucket_sensor_tail else q_bucket_all_tail) in
  let params (sensor_id hours : pyval) :=
    if truthy sensor_id then [sensor_id; hours] else [hours] in
  let answer (sensor_id hours : pyval) :=
    bucket_answer (PStr bucket) (text sensor_id) (params sensor_id hours) (clock w) (table w) in
  let m_id := default PNone (d !! "sensor_id") in
  let m_hours := default (PInt 24) (d !! "hours") in
  let h_id := args_get_int req "sensor_id" PNone in
  let h_hours := args_get_int req "hours" (PInt 24) in
  (∃ evs, events (after (handle_time_bucket payload) w)
          = events w ++ [EvConnect c; EvExecute c (text m_id) (params m_id m_hours)] ++ evs) ∧
  (∃ evs, events (after (get_time_bucket_data req) w)
          = events w ++ [EvConnect c; EvExecute c (text h_id) (params h_id h_hours)] ++ evs) ∧
  (d !! "bucket" = None → bucket = "1 hour") ∧
  (args req !! "bucket" = None → bucket = "1 hour") ∧
  (∀ sensor_id hours,
     no_percent bucket = true →
     pg_query (text sensor_id) (params sensor_id hours)
     = Some (q_bucket_head +:+ bucket +:+
             sent_tail (if truthy sensor_id then q_bucket_sensor_tail else q_bucket_all_tail))) ∧
  (faults w = [] →
   outbox (after (handle_time_bucket payload) w)
   = outbox w ++ [reply (response_topic TimeBucket) (answer m_id m_hours).2
                    (answer m_id m_hours).1] ∧
   outcome (get_time_bucket_data req) w = Done (answer h_id h_hours)).
Proof.
  intros Hload Hb Ha Hf c text params answer m_id m_hours h_id h_hours.
  assert (∀ sensor_id hours,
            text sensor_id = sql_text (bucket_statement bucket sensor_id hours).1 ∧
            params sensor_id hours = (bucket_statement bucket sensor_id hours).2) as Hst.
  { intros sensor_id hours. unfold text, params, bucket_statement.
    destruct (truthy sensor_id); split; reflexivity. }
  split; [|split; [|split; [|split; [|split; [|intros Hnil; clear Hf; split]]]]].
  - subst c text params m_id m_hours. cbn beta.
    unfold handle_time_bucket. topics. rewrite Hload.
    sym_unfold. cbn [sql_text].
    repeat (sym_simpl; cbn [py_get]; rewrite ?Hf, ?Hb; cbn [py_str]);
      destruct (truthy (default PNone (d !! "sensor_id")));
      repeat (sym_simpl; try sym_step);
      rewrite <- ?app_assoc; cbn [app]; eexists; f_equal; f_equal; f_equal;
      first [reflexivity | symmetry; apply app_nil_r].
  - subst c text params h_id h_hours. cbn beta.
    unfold get_time_bucket_data. rewrite Ha.
    sym_unfold. cbn [sql_text py_str].
    repeat (sym_simpl; rewrite ?Hf);
      destruct (truthy (args_get_int req "sensor_id" PNone));
      repeat (sym_simpl; try sym_step);
      rewrite <- ?app_assoc; cbn [app]; eexists; f_equal; f_equal; f_equal;
      first [reflexivity | symmetry; apply app_nil_r].
  - intros Hn. rewrite Hn in Hb. cbn in Hb. by injection Hb as <-.
  - intros Hn. unfold args_get in Ha. rewrite Hn in Ha. cbn in Ha. by injection Ha as <-.
  - intros sensor_id hours Hp. destruct (Hst sensor_id hours) as [-> ->].
    by apply bucket_statement_sent.
  - pose proof (bucket_statement_query bucket m_id m_hours (clock w) (table w)) as Hrun.
    cbv zeta in Hrun. subst answer. cbn beta. unfold bucket_answer.
    destruct (Hst m_id m_hours) as [-> ->].
    unfold bucket_statement in *. subst m_id m_hours.
    unfold handle_time_bucket, response_topic, reply, envelope, error_body. cbn [op_name].
    topics. rewrite Hload. sym_unfold.
    repeat (sym_simpl; cbn [py_get]; rewrite ?Hnil, ?Hb; cbn [py_str]).
    destruct (truthy (default PNone (d !! "sensor_id"))); cbn [fst snd] in *;
      do 3 sym_simpl; rewrite Hrun;
      (destruct (pg_query _ _) as [sent|]; [|sym_simpl; reflexivity]);
      cbn [mbind result_bind];
      (destruct (pg_run_text _ _ _ _) as [out|e]; [|sym_simpl; reflexivity]);
      repeat (sym_simpl; cbn [mbind result_bind]);
      destruct (shape_rows bucket_shape out); sym_simpl; reflexivity.
  - pose proof (bucket_statement_query bucket h_id h_hours (clock w) (table w)) as Hrun.
    cbv zeta in Hrun. subst answer. cbn beta. unfold bucket_answer.
    destruct (Hst h_id h_hours) as [-> ->].
    unfold bucket_statement in *. subst h_id h_hours.
    unfold get_time_bucket_data, error_body. rewrite Ha. sym_unfold.
    repeat (sym_simpl; rewrite ?Hnil; cbn [py_str]).
    destruct (truthy (args_get_int req "sensor_id" PNone)); cbn [fst snd] in *;
      do 3 sym_simpl; rewrite Hrun;
      (destruct (pg_query _ _) as [sent|]; [|sym_simpl; reflexivity]);
      cbn [mbind result_bind];
      (destruct (pg_run_text _ _ _ _) as [out|e]; [|sym_simpl; reflexivity]);
      repeat (sym_simpl; cbn [mbind result_bind]);
      destruct (shape_rows bucket_shape out); sym_simpl; reflexivity.
Qed.

(** [{"bucket": "100%"}] *)
Definition bucket_100 : string := "{" +:+ q "bucket" +:+ ": " +:+ q "100%" +:+ "}".

(** C9, the claim as stated fails for a [bucket] with [%].  The text of
    bucket [100%] is handed to the driver, which refuses it: [%'] is no
    placeholder.  Nothing is sent to the store and the answer is 500.  The
    text of bucket [1%%] is sent with [1%] in the place of the bucket. *)
Lemma bucket_with_percent_is_not_sent :
  let text := q_bucket_head +:+ "100%" +:+ q_bucket_all_tail in
  let text' := q_bucket_head +:+ "1%%" +:+ q_bucket_all_tail in
  events (after (handle_time_bucket bucket_100) world0)
  = [EvConnect 0; EvExecute 0 text [PInt 24]] ∧
  pg_query text [PInt 24] = None ∧
  outbox (after (handle_time_bucket bucket_100) world0)
  = [reply "sensors/time_bucket/response" 500
       (error_body "only '%s', '%b', '%t' are allowed as placeholders")] ∧
  pg_query text' [PInt 24] = Some (q_bucket_head +:+ "1%" +:+ sent_tail q_bucket_all_tail) ∧
  contains "1%%" (q_bucket_head +:+ "1%" +:+ sent_tail q_bucket_all_tail) = false.
Proof. vm_compute. done. Qed.

(** [{"bucket": "15 minutes"}] *)
Definition bucket_15 : string := "{" +:+ q "bucket" +:+ ": " +:+ q "15 minutes" +:+ "}".

Lemma bucket_15_minutes_in_the_text :
  (∃ evs, events (after (handle_time_bucket bucket_15) world0)
          = [EvConnect 0;
             EvExecute 0 (q_bucket_head +:+ "15 minutes" +:+ q_bucket_all_tail) [PInt 24]]
            ++ evs) ∧
  pg_query (q_bucket_head +:+ "15 minutes" +:+ q_bucket_all_tail) [PInt 24]
  = Some (q_bucket_head +:+ "15 minutes" +:+ sent_tail q_bucket_all_tail).
Proof.
  destruct (@bucket_is_spliced_into_the_text Ref.runtime bucket_15
              (mkRequest (<["bucket" := "15 minutes"]> ∅) (Done PNone))
              (<["bucket" := PStr "15 minutes"]> ∅) "15 minutes" world0)
    as (Hm & _ & _ & _ & Hs & _).
  1-4: vm_compute; reflexivity.
  split; [exact Hm|].
  apply (Hs PNone (PInt 24)). reflexivity.
Defined.

(** ** The sensor 0 *)

Ltac same_request Hsid :=
  sym_unfold;
  repeat (sym_simpl; cbn [py_get];
          rewrite ?Hsid, ?lookup_delete_eq, ?lookup_delete_ne by done;
          cbn [from_option id truthy Z.eqb negb]);
  reflexivity.

Ltac statement_run Hload Hf Hsid :=
  topics; rewrite Hload; sym_unfold;
  repeat (sym_simpl; cbn [py_get];
          rewrite ?Hf, ?Hsid; cbn [from_option id truthy is_none Z.eqb negb hd tl]);
  repeat (sym_simpl; try sym_step);
  rewrite <- ?app_assoc; cbn [app]; eexists; f_equal; f_equal; f_equal;
  first [reflexivity | symmetry; apply app_nil_r].

(** C10.  A request whose [sensor_id] is 0.  [GetAll], [Stats] and
    [TimeBucket] do on every store what they do for the same request
    without the field: the statement they hand to the driver is the one over
    all sensors, which has no [sensor_id = %s].  [GetById] does filter: its
    statement is the one of a sensor, with [sensor_id = %s] bound to 0.  So
    the same field value selects different query forms. *)
Theorem sensor_0_selects_two_query_forms `{Runtime} (payload payload' : string)
    (d : pyrow) (w : World) :
  loads_or payload (dict_of []) = Done (PDict d) →
  d !! "sensor_id" = Some (PInt 0) →
  loads_or payload' (dict_of []) = Done (PDict (delete "sensor_id" d)) →
  hd None (faults w) = None →
  let c := fresh (dom (conns w)) in
  let hours := default (PInt 24) (d !! "hours") in
  (∀ w0, handle_get_all_sensors payload w0 = handle_get_all_sensors payload' w0) ∧
  (∀ w0, handle_get_stats payload w0 = handle_get_stats payload' w0) ∧
  (∀ w0, handle_time_bucket payload w0 = handle_time_bucket payload' w0) ∧
  (∃ evs, events (after (handle_get_all_sensors payload) w)
          = events w ++ [EvConnect c;
                         EvExecute c (sql_text SelectRangeAll)
                           [hours; default (PInt 100) (d !! "limit")]] ++ evs) ∧
  (∃ evs, events (after (handle_get_stats payload) w)
          = events w ++ [EvConnect c; EvExecute c (sql_text StatsAll) [hours]] ++ evs) ∧
  (∃ evs, events (after (handle_time_bucket payload) w)
          = events w ++ [EvConnect c;
                         EvExecute c
                           (sql_text (BucketAll (py_str (default (PStr "1 hour") (d !! "bucket")))))
                           [hours]] ++ evs) ∧
  (∃ evs, events (after (handle_get_sensor_by_id payload) w)
          = events w ++ [EvConnect c;
                         EvExecute c (sql_text SelectSensor) [PInt 0; hours]] ++ evs) ∧
  contains "sensor_id = %s" (sql_text SelectSensor) = true ∧
  contains "sensor_id = %s" (sql_text SelectRangeAll) = false ∧
  contains "sensor_id = %s" (sql_text StatsAll) = false ∧
  contains "sensor_id = %s" q_bucket_all_tail = false.
Proof.
  intros Hload Hsid Hload' Hf c hours. subst c hours.
  split; [|split; [|split; [|split; [|split; [|split; [|split]]]]]].
  - intros w0. unfold handle_get_all_sensors. rewrite Hload, Hload'. same_request Hsid.
  - intros w0. unfold handle_get_stats. rewrite Hload, Hload'. same_request Hsid.
  - intros w0. unfold handle_time_bucket. rewrite Hload, Hload'. same_request Hsid.
  - unfold handle_get_all_sensors. statement_run Hload Hf Hsid.
  - unfold handle_get_stats. statement_run Hload Hf Hsid.
  - unfold handle_time_bucket. statement_run Hload Hf Hsid.
  - unfold handle_get_sensor_by_id. statement_run Hload Hf Hsid.
  - repeat split; vm_compute; reflexivity.
Qed.

(** Two readings of the last hour, of the sensors 0 and 1. *)
Definition world_10 : World :=
  mkWorld [mkReading 1704108600000000 0 None None; mkReading 1704109500000000 1 None None]
          1704110400000000 [] ∅ [] [] [].

(** [{"sensor_id": 0}] *)
Definition sensor_0 : string := "{" +:+ q "sensor_id" +:+ ": 0}".

(** On [world_10], [GetAll] for sensor 0 does what [GetAll] without a sensor
    does; [GetById] for sensor 0 hands the statement of a sensor to the
    driver, bound to 0. *)
Lemma sensor_0_in_get_all_and_get_by_id :
  after (handle_get_all_sensors sensor_0) world_10 = after (handle_get_all_sensors "{}") world_10 ∧
  (∃ evs, events (after (handle_get_all_sensors sensor_0) world_10)
          = [EvConnect 0; EvExecute 0 q_select_range_all [PInt 24; PInt 100]] ++ evs) ∧
  (∃ evs, events (after (handle_get_sensor_by_id sensor_0) world_10)
          = [EvConnect 0; EvExecute 0 q_select_sensor [PInt 0; PInt 24]] ++ evs).
Proof.
  destruct (@sensor_0_selects_two_query_forms Ref.runtime sensor_0 "{}"
              (<["sensor_id" := PInt 0]> ∅) world_10)
    as (Hall & _ & _ & Hget & _ & _ & Hid & _).
  1-4: vm_compute; reflexivity.
  split; [|split].
  - unfold after. by rewrite Hall.
  - exact Hget.
  - exact Hid.
Defined.

(** * More of the bridge *)

(** ** Subscribing and routing *)

(** The loop of [on_connect] over [TOPICS.items()]; the subscriptions made
    on the client are threaded through. *)
Fixpoint subscribe_requests (items : list (string * string)) (subscribed : list (string * Z))
  : M (list (string * Z)) :=
  match items with
  | [] => ret subscribed
  | (topic_name, topic) :: rest =>
    if contains "request" topic_name then
      logger INFO ("Subscribed to " +:+ topic) ;;;
      subscribe_requests rest (subscribed ++ [(topic, 1)])
    else subscribe_requests rest subscribed
  end.

Definition on_connect (rc : Z) (subscribed : list (string * Z)) : M (list (string * Z)) :=
  if rc =? 0 then
    logger INFO "Connected to MQTT Broker!" ;;;
    subscribe_requests TOPICS subscribed
  else
    logger ERROR ("Failed to connect, return code " +:+ pretty rc) ;;;
    ret subscribed.

Definition on_disconnect (rc : Z) : M unit :=
  logger WARNING ("Disconnected from MQTT Broker with code " +:+ pretty rc).

(** The operations, in the order of the table. *)
Definition operations : list Operation :=
  [HealthCheck; GetAll; GetById; Create; CreateBulk; Update; Delete; DeleteById; Stats;
   TimeBucket].

Lemma operations_all (op : Operation) : op ∈ operations.
Proof. destruct op; unfold operations; repeat first [by left | right]. Qed.

Lemma operations_NoDup : NoDup operations.
Proof.
  unfold operations.
  repeat (apply NoDup_cons_2;
          [ intros Hin; repeat (apply elem_of_cons in Hin as [Hin|Hin]; [discriminate Hin|]);
            by apply elem_of_nil in Hin | ]).
  apply NoDup_nil_2.
Qed.

(** What the loop subscribes to, and what it logs. *)
Definition requested (items : list (string * string)) : list (string * string) :=
  filter (λ kv, contains "request" kv.1 = true) items.

Lemma subscribe_requests_run (items : list (string * string)) (subscribed : list (string * Z))
    (w : World) :
  subscribe_requests items subscribed w
  = (Done (subscribed ++ ((λ kv, (kv.2, 1)) <$> requested items)),
     mkWorld (table w) (clock w) (faults w) (conns w) (events w) (outbox w)
       (journal w ++ ((λ kv, (INFO, "Subscribed to " +:+ kv.2)) <$> requested items))).
Proof.
  revert subscribed w. induction items as [|[topic_name topic] rest IH]; intros subscribed w.
  - cbn. rewrite !app_nil_r. by destruct w.
  - cbn [subscribe_requests]. unfold requested. rewrite filter_cons. cbn [fst].
    destruct (contains "request" topic_name) eqn:Hc.
    + rewrite decide_True by done. unfold bind, logger. rewrite IH. cbn [fmap list_fmap snd].
      cbn [table clock faults conns events outbox journal].
      by rewrite <- !app_assoc.
    + rewrite decide_False by done. apply IH.
Qed.

Lemma requested_topics :
  snd <$> requested TOPICS = request_topic <$> operations.
Proof. vm_compute. reflexivity. Qed.

(** [on_connect]: with the return code 0 the client subscribes, at QoS 1,
    to the topics [on_message] has a handler for, to each once and to nothing
    else; with any other code it subscribes to nothing and logs the code.  It
    touches neither the store nor the outbox, and does not raise. *)
Theorem on_connect_subscribes_what_is_routed `{Runtime} (rc : Z) (subscribed : list (string * Z))
    (w : World) :
  ∃ new lines,
    on_connect rc subscribed w
    = (Done (subscribed ++ new),
       mkWorld (table w) (clock w) (faults w) (conns w) (events w) (outbox w)
               (journal w ++ lines)) ∧
    (if decide (rc = 0)
     then NoDup new ∧ (∀ topic qos, (topic, qos) ∈ new ↔ qos = 1 ∧ is_Some (handlers_get topic))
     else new = [] ∧ lines = [(ERROR, "Failed to connect, return code " +:+ pretty rc)]).
Proof.
  unfold on_connect. destruct (decide (rc = 0)) as [->|Hrc].
  - cbn [Z.eqb]. unfold bind, logger. rewrite subscribe_requests_run.
    cbn [table clock faults conns events outbox journal].
    eexists _, ((INFO, "Connected to MQTT Broker!") :: _). split.
    { by rewrite <- app_assoc. }
    assert ((λ kv : string * string, (kv.2, 1)) <$> requested TOPICS
            = (λ op, (request_topic op, 1)) <$> operations) as ->.
    { vm_compute. reflexivity. }
    split.
    + apply NoDup_fmap_2_strong; [|apply operations_NoDup].
      intros op op' _ _ [= Heq]. destruct op, op'; first [reflexivity | by vm_compute in Heq].
    + intros topic qos. rewrite list_elem_of_fmap. split.
      * intros (op & [= -> ->] & _). split; [done|]. by rewrite request_topics_bound.
      * intros (-> & Hrouted). rewrite handlers_get_cases in Hrouted.
        repeat (case_decide as Ht;
                [ clear Hrouted; subst topic;
                  first [ by exists HealthCheck; split; [|apply operations_all]
                        | by exists GetAll; split; [|apply operations_all]
                        | by exists GetById; split; [|apply operations_all]
                        | by exists Create; split; [|apply operations_all]
                        | by exists CreateBulk; split; [|apply operations_all]
                        | by exists Update; split; [|apply operations_all]
                        | by exists Delete; split; [|apply operations_all]
                        | by exists DeleteById; split; [|apply operations_all]
                        | by exists Stats; split; [|apply operations_all]
                        | by exists TimeBucket; split; [|apply operations_all] ]
                | clear Ht ]).
        by destruct Hrouted.
  - destruct (rc =? 0) eqn:Heq; [apply Z.eqb_eq in Heq; done|].
    unfold bind, logger, ret. cbn [table clock faults conns events outbox journal].
    eexists [], _. rewrite app_nil_r. done.
Qed.

(** The payload bytes of a message [on_message] can read, and the text it
    reads: no bytes read as the empty text, other bytes are decoded. *)
Definition readable_payload (bytes : list byte) (payload : string) : Prop :=
  bytes = [] ∧ payload = EmptyString ∨ bytes ≠ [] ∧ decode_utf8 bytes = Done payload.

(** The line [on_message] logs first. *)
Definition received (topic payload : string) : LogLevel * string :=
  (INFO, "Received message on " +:+ topic +:+ ": " +:+ str_prefix 100 payload +:+ "...").

Definition logged (line : LogLevel * string) (w : World) : World :=
  mkWorld (table w) (clock w) (faults w) (conns w) (events w) (outbox w) (journal w ++ [line]).

Lemma on_message_readable `{Runtime} (topic : string) (bytes : list byte) (payload : string)
    (w : World) :
  readable_payload bytes payload →
  on_message (mkMQTTMessage topic bytes) w
  = match handlers_get topic with
    | Some handler => handler payload (logged (received topic payload) w)
    | None => logger WARNING ("No handler for topic: " +:+ topic)
                (logged (received topic payload) w)
    end.
Proof.
  intros [[-> ->] | [Hne Hdec]]; unfold on_message; cbn [in_topic in_payload].
  - unfold bind, ret, logger, logged, received. by destruct (handlers_get topic).
  - destruct bytes as [|b bs]; [done|]. unfold bind, lift, logger, logged, received.
    rewrite Hdec. by destruct (handlers_get topic).
Qed.

(** A request whose payload decodes, on the request topic of an operation:
    [on_message] logs the message and runs the operation's handler on the
    decoded text; it returns normally and exactly one reply is published, on
    the operation's response topic. *)
Theorem on_message_answers_a_request `{Runtime} (op : Operation) (bytes : list byte)
    (payload : string) (w : World) :
  readable_payload bytes payload →
  let msg := mkMQTTMessage (request_topic op) bytes in
  on_message msg w = handler_of op payload (logged (received (request_topic op) payload) w) ∧
  outcome (on_message msg) w = Done tt ∧
  ∃ code data, outbox (after (on_message msg) w)
               = outbox w ++ [reply (response_topic op) code data] ∧
               code ∈ [200; 201; 400; 404; 409; 500].
Proof.
  intros Hp msg. subst msg.
  pose proof (on_message_readable (request_topic op) bytes payload w Hp) as Hrun.
  rewrite request_topics_bound in Hrun.
  destruct (handler_replies_once op payload (logged (received (request_topic op) payload) w))
    as (Hdone & code & data & evs & Hout & Hcode & _).
  split; [exact Hrun|]. unfold outcome, after in *. rewrite Hrun.
  split; [exact Hdone|]. by exists code, data.
Qed.

(** [{"sensor_id": 1}] as bytes, on the topic of [GetById]. *)
Lemma on_message_answers_get_by_id :
  ∃ code data,
    outbox (after (on_message (mkMQTTMessage "sensors/get_by_id/request"
                                 (list_byte_of_string sensor_0))) world0)
    = [reply "sensors/get_by_id/response" code data].
Proof.
  destruct (on_message_answers_a_request GetById (list_byte_of_string sensor_0) sensor_0 world0)
    as (_ & _ & code & data & Hout & _).
  - right. split; [discriminate | vm_compute; reflexivity].
  - exists code, data. exact Hout.
Defined.

(** A message on the publisher's topic, which the bridge has no handler
    for. *)
Lemma sensegrid_message_dropped :
  on_message (mkMQTTMessage "sensors/sensegrid" (list_byte_of_string "{}")) world0
  = (Done tt,
     mkWorld [] 1704110400000000 [] ∅ [] []
       [(INFO, "Received message on sensors/sensegrid: {}...");
        (WARNING, "No handler for topic: sensors/sensegrid")]).
Proof.
  apply (unbound_topic_dropped "sensors/sensegrid" (list_byte_of_string "{}") "{}" world0).
  - intros op. destruct op; unfold request_topic; cbn [op_name]; topics; discriminate.
  - right. split; [discriminate | vm_compute; reflexivity].
Defined.

(** The topic table keeps requests and replies apart: no response topic is
    routed to a handler, so a reply the bridge receives back is never
    answered; and no two operations share a request topic or a response
    topic. *)
Theorem response_topics_are_not_routed `{Runtime} (op op' : Operation) :
  handlers_get (response_topic op) = None ∧
  (request_topic op = request_topic op' → op = op') ∧
  (response_topic op = response_topic op' → op = op') ∧
  request_topic op ≠ response_topic op'.
Proof.
  split; [|split; [|split]].
  - rewrite handlers_get_cases. destruct op; unfold response_topic; cbn [op_name]; topics;
      repeat (case_decide; [discriminate|]); reflexivity.
  - destruct op, op'; unfold request_topic; cbn [op_name]; topics;
      first [reflexivity | discriminate].
  - destruct op, op'; unfold response_topic; cbn [op_name]; topics;
      first [reflexivity | discriminate].
  - destruct op, op'; unfold request_topic, response_topic; cbn [op_name]; topics; discriminate.
Qed.

(** ** The client loop *)

(** [client.loop_forever()], as far as a finite run shows it: the broker's
    answer to the connect goes to [on_connect], then the inbound messages go
    to [on_message], one after the other.  The client is created with the
    defaults, so an exception of a callback is not suppressed: it ends the
    loop and is raised to the caller. *)
Definition loop_forever `{Runtime} (rc : Z) (inbound : list MQTTMessage) : M unit :=
  on_connect rc [] ;;;
  for_each inbound on_message.

(** [start_mqtt_client]; [refused] is what [client.connect] raises, if it
    does. *)
Definition start_mqtt_client `{Runtime} (refused : option exn) (rc : Z)
    (inbound : list MQTTMessage) : M unit :=
  try_except
    (lift (from_option Raised (Done tt) refused) ;;;
     loop_forever rc inbound)
    (λ e, logger ERROR ("MQTT connection error: " +:+ exn_str e)).

(** The operation a topic is routed to. *)
Definition routed (topic : string) : option Operation :=
  head (filter (λ op, request_topic op = topic) operations).

Lemma handlers_get_routed `{Runtime} (topic : string) :
  handlers_get topic = handler_of <$> routed topic.
Proof.
  rewrite handlers_get_cases. unfold routed, operations, request_topic.
  repeat (rewrite filter_cons; cbn [op_name]; topics; case_decide; [reflexivity|]).
  reflexivity.
Qed.

(** The topics of the replies to a run of inbound messages. *)
Definition reply_topics (inbound : list MQTTMessage) : list string :=
  omap (λ m, response_topic <$> routed (in_topic m)) inbound.

Definition readable_message (m : MQTTMessage) : Prop :=
  ∃ payload, readable_payload (in_payload m) payload.

Lemma on_message_reply `{Runtime} (m : MQTTMessage) (w : World) :
  readable_message m →
  outcome (on_message m) w = Done tt ∧
  ∃ replies, outbox (after (on_message m) w) = outbox w ++ replies ∧
             msg_topic <$> replies = reply_topics [m].
Proof.
  intros (payload & Hp). destruct m as [topic bytes]. cbn [in_payload] in Hp.
  unfold outcome, after. rewrite (on_message_readable topic bytes payload w Hp).
  unfold reply_topics. cbn [omap list_omap in_topic]. rewrite handlers_get_routed.
  destruct (routed topic) as [op|]; cbn [fmap option_fmap option_map].
  - destruct (handler_replies_once op payload (logged (received topic payload) w))
      as (Hdone & code & data & evs & Hout & _).
    split; [exact Hdone|]. exists [reply (response_topic op) code data].
    split; [exact Hout | reflexivity].
  - split; [reflexivity|]. exists []. by rewrite app_nil_r.
Qed.

Lemma reply_topics_cons (m : MQTTMessage) (inbound : list MQTTMessage) :
  reply_topics (m :: inbound) = reply_topics [m] ++ reply_topics inbound.
Proof. unfold reply_topics. cbn [omap list_omap]. by destruct (_ <$> routed _). Qed.

Lemma for_each_readable `{Runtime} (inbound : list MQTTMessage) (w : World) :
  Forall readable_message inbound →
  outcome (for_each inbound on_message) w = Done tt ∧
  ∃ replies, outbox (after (for_each inbound on_message) w) = outbox w ++ replies ∧
             msg_topic <$> replies = reply_topics inbound.
Proof.
  intros Hall. revert w. induction Hall as [|m inbound Hm _ IH]; intros w.
  - split; [reflexivity|]. exists []. by rewrite app_nil_r.
  - destruct (on_message_reply m w Hm) as (Hdone & r1 & Hout1 & Ht1).
    unfold outcome, after in *. cbn [for_each]. unfold bind.
    destruct (on_message m w) as [r w1]. cbn [fst snd] in *. subst r.
    destruct (IH w1) as (Hdone' & r2 & Hout2 & Ht2).
    split; [exact Hdone'|]. exists (r1 ++ r2).
    rewrite (reply_topics_cons m inbound), Hout2, Hout1, <- app_assoc, fmap_app, Ht1, Ht2. done.
Qed.

Lemma for_each_app {A : Type} (xs ys : list A) (body : A → M unit) (w : World) :
  for_each (xs ++ ys) body w = (for_each xs body ;;; for_each ys body) w.
Proof.
  revert w. induction xs as [|x xs IH]; intros w; cbn [app for_each]; unfold bind.
  - reflexivity.
  - destruct (body x w) as [[[]|e] w1]; [|reflexivity]. rewrite IH. reflexivity.
Qed.

Lemma on_connect_quiet (rc : Z) (subscribed : list (string * Z)) (w : World) :
  ∃ subscribed' lines,
    on_connect rc subscribed w
    = (Done subscribed',
       mkWorld (table w) (clock w) (faults w) (conns w) (events w) (outbox w)
               (journal w ++ lines)).
Proof.
  unfold on_connect. destruct (rc =? 0); unfold bind, logger, ret.
  - rewrite subscribe_requests_run. cbn [table clock faults conns events outbox journal].
    eexists _, (_ :: _). by rewrite <- app_assoc.
  - by eexists _, [_].
Qed.

(** While the payloads decode, the loop answers the requests in the order
    they come in: one reply for each message on a request topic, on the
    response topic of its operation, and none for the other messages.  The
    loop does not end by an exception. *)
Theorem requests_are_answered_in_order `{Runtime} (rc : Z) (inbound : list MQTTMessage)
    (w : World) :
  Forall readable_message inbound →
  outcome (loop_forever rc inbound) w = Done tt ∧
  ∃ replies, outbox (after (loop_forever rc inbound) w) = outbox w ++ replies ∧
             msg_topic <$> replies = reply_topics inbound.
Proof.
  intros Hall. unfold loop_forever, outcome, after, bind.
  destruct (on_connect_quiet rc [] w) as (subscribed' & lines & ->).
  destruct (for_each_readable inbound
              (mkWorld (table w) (clock w) (faults w) (conns w) (events w) (outbox w)
                       (journal w ++ lines)) Hall) as (Hdone & replies & Hout & Ht).
  split; [exact Hdone|]. exists replies. split; [exact Hout | exact Ht].
Qed.

(** A health request, a message on a topic of another application, and a
    query. *)
Definition inbound_3 : list MQTTMessage :=
  [mkMQTTMessage "sensors/health/request" [];
   mkMQTTMessage "sensors/sensegrid" (list_byte_of_string "{}");
   mkMQTTMessage "sensors/get_by_id/request" (list_byte_of_string sensor_0)].

Lemma two_of_three_answered :
  ∃ replies, outbox (after (loop_forever 0 inbound_3) world0) = replies ∧
             msg_topic <$> replies = ["sensors/health/response"; "sensors/get_by_id/response"].
Proof.
  destruct (requests_are_answered_in_order 0 inbound_3 world0) as (_ & replies & Hout & Ht).
  - repeat constructor.
    + exists EmptyString. by left.
    + exists "{}". right. split; [discriminate | vm_compute; reflexivity].
    + exists sensor_0. right. split; [discriminate | vm_compute; reflexivity].
  - exists replies. split; [exact Hout | exact Ht].
Defined.

(** One message the bridge cannot decode ends it.  The exception of
    [on_message] leaves the loop, [start_mqtt_client] logs it as a connection
    error and returns: the messages that came before are answered, the
    message itself and all that come after it are not. *)
Theorem undecodable_message_ends_the_loop `{Runtime} (rc : Z) (before later : list MQTTMessage)
    (m : MQTTMessage) (e : exn) (w : World) :
  Forall readable_message before →
  in_payload m ≠ [] →
  decode_utf8 (in_payload m) = Raised e →
  let run := start_mqtt_client None rc (before ++ m :: later) in
  outcome run w = Done tt ∧
  outbox (after run w) = outbox (after (loop_forever rc before) w) ∧
  events (after run w) = events (after (loop_forever rc before) w) ∧
  table (after run w) = table (after (loop_forever rc before) w) ∧
  journal (after run w)
  = journal (after (loop_forever rc before) w)
    ++ [(ERROR, "MQTT connection error: " +:+ exn_str e)].
Proof.
  intros Hall Hne Hdec run. subst run.
  unfold start_mqtt_client, loop_forever, outcome, after, try_except, bind, lift.
  cbn [from_option].
  destruct (on_connect_quiet rc [] w) as (subscribed' & lines & ->).
  set (w1 := mkWorld _ _ _ _ _ _ _).
  rewrite for_each_app. unfold bind.
  destruct (for_each_readable before w1 Hall) as (Hdone & _).
  unfold outcome in Hdone. destruct (for_each before on_message w1) as [r w2].
  cbn [fst snd] in *. subst r.
  cbn [for_each]. unfold bind, on_message. cbn [in_payload].
  destruct (in_payload m) as [|b bs]; [done|]. unfold lift. rewrite Hdec.
  unfold logger. cbn. done.
Qed.

(** A health request, one byte that is no UTF-8, and a health request. *)
Lemma second_health_request_unanswered :
  msg_topic <$> outbox (after (start_mqtt_client None 0
                                 [mkMQTTMessage "sensors/health/request" [];
                                  mkMQTTMessage "sensors/sensegrid" [xff];
                                  mkMQTTMessage "sensors/health/request" []]) world0)
  = ["sensors/health/response"].
Proof.
  destruct (undecodable_message_ends_the_loop 0 [mkMQTTMessage "sensors/health/request" []]
              [mkMQTTMessage "sensors/health/request" []]
              (mkMQTTMessage "sensors/sensegrid" [xff])
              (Exn UnicodeDecodeError "'utf-8' codec can't decode bytes") world0)
    as (_ & Hout & _).
  - repeat constructor. exists EmptyString. by left.
  - discriminate.
  - vm_compute. reflexivity.
  - cbn [app] in Hout. rewrite Hout. vm_compute. reflexivity.
Defined.

(** ** The statuses of an operation *)

(** The statuses the MQTT handler of an operation answers with. *)
Definition statuses (op : Operation) : list Z :=
  match op with
  | HealthCheck | GetAll | Stats | TimeBucket => [200; 500]
  | GetById | DeleteById => [200; 400; 500]
  | Create => [201; 400; 409; 500]
  | CreateBulk => [201; 400; 500]
  | Update | Delete => [200; 400; 404; 500]
  end.

(** The statuses of its route: the two routes with the sensor in the path
    have no 400. *)
Definition route_statuses (op : Operation) : list Z :=
  match op with
  | GetById | DeleteById => [200; 500]
  | _ => statuses op
  end.

Ltac in_list :=
  match goal with
  | |- _ ∈ _ => solve [repeat first [left | right]]
  end.

(** The loop of the bulk operations logs nothing. *)
Lemma bulk_loop_journal `{Runtime} (c : nat) (data : list pyval) (n : Z) (w : World) :
  journal (after (bulk_loop c data n) w) = journal w.
Proof.
  revert n w. induction data as [|entry rest IH]; intros n w; [reflexivity|].
  unfold after in *. cbn [bulk_loop].
  sym_run_with ltac:(idtac;
    match goal with
    | |- context [bulk_loop ?c ?d ?n ?w] =>
      let F := fresh "Hj" in
      pose proof (IH n w) as F; revert F;
      destruct (bulk_loop c d n w) as [? ?] eqn:?; cbn [fst snd]; intros F
    end).
  all: cbn [journal] in *; congruence.
Qed.

(** Meeting the loop during a run, with both accounts of it. *)
Ltac loop_quiet :=
  idtac;
  match goal with
  | |- context [bulk_loop ?c ?d ?n ?w] =>
    let F := fresh "Hframe" in
    let J := fresh "Hjournal" in
    pose proof (bulk_loop_frame c d n w) as F;
    pose proof (bulk_loop_journal c d n w) as J;
    unfold loop_frame, after in F, J;
    revert F J; destruct (bulk_loop c d n w) as [? ?] eqn:?; cbn [fst snd];
    intros (? & ? & ? & ? & ? & ?) ?
  end.

Ltac use_frame :=
  cbn [table outbox conns events journal] in *;
  repeat match goal with
         | Hj : journal ?w0 = _ |- context [journal ?w0] => rewrite Hj
         | Hev : events ?w0 = _ |- context [events ?w0] => rewrite Hev
         | Hout : outbox ?w0 = _ |- context [outbox ?w0] => rewrite Hout
         | Htab : table ?w0 = _ |- context [table ?w0] => rewrite Htab
         | Hcs : delete ?c (conns ?w0) = _ |- context [delete ?c (conns ?w0)] => rewrite Hcs
         end.

Ltac status_run :=
  sym_run_with loop_quiet;
  use_frame;
  repeat match goal with
         | |- ∃ _, _ => eexists
         | |- _ ∧ _ => split
         end;
  first [reflexivity | in_list | idtac].

(** Every handler answers with a status of its operation: success is 201
    for the two creating operations and 200 for the others, 409 comes from
    [Create] alone, 404 from [Update] and [Delete] alone, and the reading
    operations without a required field never answer 400. *)
Theorem handler_statuses `{Runtime} (op : Operation) (payload : string) (w : World) :
  ∃ code data,
    outbox (after (handler_of op payload) w) = outbox w ++ [reply (response_topic op) code data] ∧
    code ∈ statuses op.
Proof.
  destruct op; cbn [handler_of statuses]; unfold response_topic, reply, envelope; cbn [op_name];
    topics.
  - unfold handle_health_check; topics; status_run.
  - unfold handle_get_all_sensors; topics; status_run.
  - unfold handle_get_sensor_by_id; topics; status_run.
  - unfold handle_create_sensor; topics; status_run.
  - unfold handle_create_bulk_sensors; topics; status_run.
  - unfold handle_update_sensor; topics; status_run.
  - unfold handle_delete_sensor; topics; status_run.
  - unfold handle_delete_sensor_by_id; topics; status_run.
  - unfold handle_get_stats; topics; status_run.
  - unfold handle_time_bucket; topics; status_run.
Qed.

Ltac unfold_routes :=
  unfold health_check, get_all_sensor_data, get_sensor_by_id, create_sensor_data,
         create_bulk_sensor_data, update_sensor_data, delete_sensor_data,
         delete_all_sensor_data_by_id, get_sensor_stats, get_time_bucket_data in *.

Ltac unfold_handlers :=
  unfold handle_health_check, handle_get_all_sensors, handle_get_sensor_by_id,
         handle_create_sensor, handle_create_bulk_sensors, handle_update_sensor,
         handle_delete_sensor, handle_delete_sensor_by_id, handle_get_stats,
         handle_time_bucket in *.

(** Every route of app.py answers every request, whatever the store does:
    it does not raise, its status is one of its operation, it publishes and
    logs nothing, it opens at most one connection, none when it answers 400,
    and unless it answers 409 or 500 the connection it opened is closed. *)
Theorem route_responds `{Runtime} (op : Operation) (sensor_id : Z) (req : Request) (w : World) :
  ∃ body code evs,
    let w' := after (route op sensor_id req) w in
    outcome (route op sensor_id req) w = Done (body, code) ∧
    code ∈ route_statuses op ∧
    outbox w' = outbox w ∧ journal w' = journal w ∧
    events w' = events w ++ evs ∧
    (connects evs ≤ 1)%nat ∧
    (code = 400 → evs = []) ∧
    (code ≠ 409 → code ≠ 500 → conns w' = conns w).
Proof.
  destruct op; cbn [route route_statuses statuses]; unfold_routes.
  all: sym_run_with loop_quiet.
  all: use_frame.
  all: close_run.
  all: try in_list.
  all: rewrite !connects_app, (connects_executes x) by assumption; unfold connects; cbn; lia.
Qed.

(** ** The two front ends *)

(** The same request, as an MQTT payload and as an HTTP request: the
    fields a handler reads from the payload are the values its route reads
    from the query string, the path or the body. *)
Definition same_request `{Runtime} (op : Operation) (payload : string) (sensor_id : Z)
    (req : Request) : Prop :=
  match op with
  | HealthCheck => True
  | Create | Update => loads_or payload (dict_of []) = get_json req
  | CreateBulk => loads_or payload (PList []) = get_json req
  | GetAll =>
    ∃ d, loads_or payload (dict_of []) = Done (PDict d) ∧
         default PNone (d !! "sensor_id") = args_get_int req "sensor_id" PNone ∧
         default (PInt 24) (d !! "hours") = args_get_int req "hours" (PInt 24) ∧
         default (PInt 100) (d !! "limit") = args_get_int req "limit" (PInt 100)
  | GetById =>
    ∃ d, loads_or payload (dict_of []) = Done (PDict d) ∧
         d !! "sensor_id" = Some (PInt sensor_id) ∧
         default (PInt 24) (d !! "hours") = args_get_int req "hours" (PInt 24)
  | Delete =>
    ∃ d, loads_or payload (dict_of []) = Done (PDict d) ∧
         default PNone (d !! "time") = args_get req "time" PNone ∧
         default PNone (d !! "sensor_id") = args_get_int req "sensor_id" PNone
  | DeleteById =>
    ∃ d, loads_or payload (dict_of []) = Done (PDict d) ∧
         d !! "sensor_id" = Some (PInt sensor_id)
  | Stats =>
    ∃ d, loads_or payload (dict_of []) = Done (PDict d) ∧
         default (PInt 24) (d !! "hours") = args_get_int req "hours" (PInt 24) ∧
         default PNone (d !! "sensor_id") = args_get_int req "sensor_id" PNone
  | TimeBucket =>
    ∃ d, loads_or payload (dict_of []) = Done (PDict d) ∧
         default (PInt 24) (d !! "hours") = args_get_int req "hours" (PInt 24) ∧
         default (PStr "1 hour") (d !! "bucket") = args_get req "bucket" (PStr "1 hour") ∧
         default PNone (d !! "sensor_id") = args_get_int req "sensor_id" PNone
  end.

(** The body the handler publishes where the route answers [body]: the
    same, but for the wording of the 400 of [Delete]. *)
Definition mqtt_body (op : Operation) (code : Z) (body : pyval) : pyval :=
  match op with
  | Delete => if code =? 400 then error_body "time and sensor_id are required" else body
  | _ => body
  end.

Ltac same_fields :=
  repeat match goal with
         | Heq : from_option id _ (_ !! _) = _ |- _ => rewrite Heq
         | Heq : _ !! _ = Some _ |- _ => rewrite Heq
         | Heq : loads_or _ _ = _ |- _ => rewrite Heq
         end.

Ltac agree_simpl :=
  repeat (sym_simpl; cbn [py_get]; same_fields; cbn [from_option id is_none py_str]).

Ltac agree_run :=
  sym_unfold;
  repeat (agree_simpl; first [loop_quiet | sym_step]);
  agree_simpl;
  use_frame;
  do 2 eexists;
  (split; [reflexivity|]);
  cbn [mqtt_body Z.eqb Pos.eqb]; unfold error_body;
  repeat split; reflexivity.

(** The MQTT handler and the HTTP route of an operation do the same on the
    same request: from the same world they make the same store calls, leave
    the same table and the same connections, and the envelope the handler
    publishes carries the status and the body the route returns.  The one
    difference is the wording of the 400 of [Delete]. *)
Theorem front_ends_agree `{Runtime} (op : Operation) (payload : string) (sensor_id : Z)
    (req : Request) (w : World) :
  same_request op payload sensor_id req →
  ∃ body code,
    outcome (route op sensor_id req) w = Done (body, code) ∧
    outbox (after (handler_of op payload) w)
    = outbox w ++ [reply (response_topic op) code (mqtt_body op code body)] ∧
    table (after (handler_of op payload) w) = table (after (route op sensor_id req) w) ∧
    events (after (handler_of op payload) w) = events (after (route op sensor_id req) w) ∧
    conns (after (handler_of op payload) w) = conns (after (route op sensor_id req) w) ∧
    faults (after (handler_of op payload) w) = faults (after (route op sensor_id req) w).
Proof.
  intros Hsame.
  destruct op; cbn [route handler_of same_request] in *;
    unfold response_topic, reply, envelope; cbn [op_name]; topics;
    unfold_routes; unfold_handlers; topics.
  - agree_run.
  - destruct Hsame as (d & Hload & H1 & H2 & H3). agree_run.
  - destruct Hsame as (d & Hload & H1 & H2). agree_run.
  - agree_run.
  - agree_run.
  - agree_run.
  - destruct Hsame as (d & Hload & H1 & H2). agree_run.
  - destruct Hsame as (d & Hload & H1). agree_run.
  - destruct Hsame as (d & Hload & H1 & H2). agree_run.
  - destruct Hsame as (d & Hload & H1 & H2 & H3). agree_run.
Qed.

(** [GetById] for sensor 0, as the payload [{"sensor_id": 0}] and as
    [GET /api/sensors/0]. *)
Lemma front_ends_agree_on_sensor_0 :
  ∃ body code,
    outcome (get_sensor_by_id 0 (mkRequest ∅ (Done PNone))) world_10 = Done (body, code) ∧
    outbox (after (handle_get_sensor_by_id sensor_0) world_10)
    = [reply "sensors/get_by_id/response" code body].
Proof.
  destruct (front_ends_agree GetById sensor_0 0 (mkRequest ∅ (Done PNone)) world_10)
    as (body & code & Hroute & Hout & _).
  - exists (<["sensor_id" := PInt 0]> ∅). repeat split; vm_compute; reflexivity.
  - exists body, code. split; [exact Hroute | exact Hout].
Defined.

(** ** What a statement answers *)

Lemma filter_none_length {A : Type} (P : A → Prop) `{!∀ x, Decision (P x)} (l : list A) :
  length (filter P l) = 0%nat → filter (λ x, ¬ P x) l = l.
Proof.
  induction l as [|x l IH]; [reflexivity|].
  rewrite !filter_cons. destruct (decide (P x)) as [Hx|Hx]; [discriminate|].
  intros Hl. rewrite decide_True by done. by rewrite IH.
Qed.

(** What the handlers rely on in the answer of a statement: an insert that
    returns its row returns one row; an update returns rows of the table; a
    delete that reports no row has removed none; a query leaves the rows as
    they are. *)
Definition answer_ok `{Runtime} (q : Query) (rows l : list Reading) (out : list pyrow) (n : Z)
  : Prop :=
  match q with
  | InsertAtReturning | InsertNowReturning => ∃ r, out = [reading_row r]
  | UpdateCoalesce => ∃ hit, out = reading_row <$> hit
  | DeleteOne => n = 0 → l = rows
  | InsertAt | InsertNow | DeleteSensor => True
  | _ => l = rows
  end.

Lemma run_query_answer `{Runtime} (q : Query) (params : list pyval) (now : Z)
    (rows l : list Reading) (out : list pyrow) (n : Z) :
  run_query q params now rows = Done (l, out, n) → answer_ok q rows l out n.
Proof.
  intros Hrun. unfold run_query in Hrun.
  destruct q; cbn [answer_ok]; try exact I.
  all: do 5 (try destruct params as [|? params]); try discriminate Hrun.
  all: try (destruct (pg_query _ _); [|discriminate Hrun]).
  all: result_cases Hrun.
  all: injection Hrun as <- <- <-; try reflexivity.
  - by eexists.
  - by eexists.
  - by eexists.
  - intros Hn. apply filter_none_length. lia.
Qed.

(** Meeting a statement during a run: its answer, with what [answer_ok]
    says about it. *)
Ltac query_step :=
  idtac;
  match goal with
  | |- context [match run_query ?q ?ps ?now ?rows with _ => _ end] =>
    let Hq := fresh "Hq" in
    destruct (run_query q ps now rows) as [[[? ?] ?]|?] eqn:Hq;
    [ apply run_query_answer in Hq; cbn [answer_ok] in Hq;
      try match type of Hq with
          | ∃ r, _ = [reading_row r] => destruct Hq as [? ->]
          | ∃ hit, _ = reading_row <$> hit =>
            let hit := fresh "hit" in
            destruct Hq as [hit ->]; destruct hit; cbn [fmap list_fmap]
          | _ = _ => subst
          end
    | ]
  end.

Ltac answer_simpl :=
  repeat (sym_simpl;
          cbn [head hd tl no_record py_dict mbind result_bind negb];
          rewrite ?reading_row_truthy, ?iso_row_reading).

Ltac answer_run :=
  sym_unfold;
  repeat (answer_simpl; first [loop_quiet | query_step | sym_step]);
  answer_simpl;
  use_frame.

(** An operation that answers with an error has changed nothing: the table
    is another one only after a 200 or a 201.  So for the handlers, and so
    for the routes. *)
Theorem errors_leave_the_table `{Runtime} (op : Operation) (payload : string) (sensor_id : Z)
    (req : Request) (w : World) :
  (∃ code data,
     outbox (after (handler_of op payload) w)
     = outbox w ++ [reply (response_topic op) code data] ∧
     (table (after (handler_of op payload) w) = table w ∨ code = 200 ∨ code = 201)) ∧
  (∃ code body,
     outcome (route op sensor_id req) w = Done (body, code) ∧
     (table (after (route op sensor_id req) w) = table w ∨ code = 200 ∨ code = 201)).
Proof.
  split.
  - destruct op; cbn [handler_of]; unfold response_topic, reply, envelope; cbn [op_name];
      topics; unfold_handlers; topics; answer_run.
    all: do 2 eexists; (split; [reflexivity|]).
    all: first [by left | by (right; left) | by (right; right) | idtac].
    all: left; match goal with Hz : (_ =? 0) = true |- _ => apply Z.eqb_eq in Hz end; auto.
  - destruct op; cbn [route]; unfold_routes; answer_run.
    all: do 2 eexists; (split; [reflexivity|]).
    all: first [by left | by (right; left) | by (right; right) | idtac].
    all: left; match goal with Hz : (_ =? 0) = true |- _ => apply Z.eqb_eq in Hz end; auto.
Qed.

(** ** The reading operations *)

(** The operations that only read the store. *)
Definition reading (op : Operation) : bool :=
  match op with
  | HealthCheck | GetAll | GetById | Stats | TimeBucket => true
  | _ => false
  end.

(** How many of the events hand a statement to the store. *)
Definition executes (evs : list Event) : nat :=
  sum_list_with (λ ev, if is_execute ev then 1%nat else 0%nat) evs.

(** What a read leaves behind, from [w] to [w']: the table as it was, no
    commit, and at most one statement. *)
Definition only_read (w w' : World) : Prop :=
  table w' = table w ∧
  ∃ evs, events w' = events w ++ evs ∧
         Forall (λ ev, is_commit ev = false) evs ∧
         (executes evs ≤ 1)%nat.

Ltac read_done :=
  split; [reflexivity|];
  eexists; split;
  [ first [symmetry; apply app_nil_r | rewrite <- ?app_assoc; reflexivity]
  | cbn [app]; split; [by repeat constructor | unfold executes; cbn; lia] ].

(** The five reading operations never commit and never change the table,
    whatever the request and whatever the store answers; each hands at most
    one statement to the store. *)
Theorem reads_change_nothing `{Runtime} (op : Operation) (payload : string) (sensor_id : Z)
    (req : Request) (w : World) :
  reading op = true →
  only_read w (after (handler_of op payload) w) ∧
  only_read w (after (route op sensor_id req) w).
Proof.
  intros Hread. unfold only_read. split.
  - destruct op; try discriminate Hread; cbn [handler_of]; unfold_handlers; topics;
      sym_run; read_done.
  - destruct op; try discriminate Hread; cbn [route]; unfold_routes;
      sym_run; read_done.
Qed.

(** The statistics of the table of [world_10], asked for over MQTT and over
    HTTP. *)
Lemma stats_change_nothing :
  table (after (handle_get_stats "{}") world_10) = table world_10 ∧
  table (after (get_sensor_stats (mkRequest ∅ (Done PNone))) world_10) = table world_10.
Proof.
  destruct (reads_change_nothing Stats "{}" 0 (mkRequest ∅ (Done PNone)) world_10 eq_refl)
    as ((Hm & _) & (Hr & _)).
  split; [exact Hm | exact Hr].
Defined.

(** ** Deleting *)

(** The fields [time] and [sensor_id] of a request that name the row
    [(t, s)]: a truthy [time] the store reads as [t], and a [sensor_id] it
    reads as [s]. *)
Definition names_key `{Runtime} (time sensor_id : pyval) (t s : Z) : Prop :=
  truthy time = true ∧ pg_timestamptz time = Done t ∧
  is_none sensor_id = false ∧ as_integer sensor_id = Done s.

Lemma delete_one_run `{Runtime} (time sensor_id : pyval) (t s : Z) (now : Z)
    (rows : list Reading) :
  names_key time sensor_id t s →
  run_query DeleteOne [time; sensor_id] now rows
  = Done (filter (λ r, ¬ at_key t s r) rows, [], Z.of_nat (length (filter (at_key t s) rows))).
Proof. intros (_ & Ht & _ & Hs). cbn [run_query]. rewrite Ht, Hs. reflexivity. Qed.

(** [Delete] of the row [(t, s)] on a reachable store, over MQTT and over
    HTTP: the rows with that key are removed and the others stay; the answer
    is 200 with the number of rows removed, or 404 when no row had the key,
    and the table is then as it was.  The delete is committed and the
    connection closed before the count is looked at. *)
Theorem delete_removes_the_key `{Runtime} (payload : string) (req : Request) (d : pyrow)
    (time sensor_id : pyval) (t s : Z) (w : World) :
  loads_or payload (dict_of []) = Done (PDict d) →
  default PNone (d !! "time") = time → default PNone (d !! "sensor_id") = sensor_id →
  args_get req "time" PNone = time → args_get_int req "sensor_id" PNone = sensor_id →
  names_key time sensor_id t s →
  faults w = [] →
  let n := length (filter (at_key t s) (table w)) in
  let rest := filter (λ r, ¬ at_key t s r) (table w) in
  let code := if decide (n = 0%nat) then 404 else 200 in
  let body := if decide (n = 0%nat) then error_body "Record not found"
              else dict_of [("message", PStr "Sensor data deleted successfully");
                            ("deleted_count", PInt (Z.of_nat n))] in
  let w' := after (handle_delete_sensor payload) w in
  let h' := after (delete_sensor_data req) w in
  outbox w' = outbox w ++ [reply (response_topic Delete) code body] ∧
  outcome (delete_sensor_data req) w = Done (body, code) ∧
  table w' = rest ∧ table h' = rest ∧
  conns w' = conns w ∧ conns h' = conns w ∧
  (∃ c, filter (λ ev, is_commit ev) (events w')
        = filter (λ ev, is_commit ev) (events w) ++ [EvCommit c]) ∧
  (n = 0%nat → rest = table w) ∧
  Forall (λ r, ¬ at_key t s r) rest.
Proof.
  intros Hload Htime Hsid Hatime Hasid Hkey Hf n rest code body w' h'.
  pose proof (delete_one_run time sensor_id t s (clock w) (table w) Hkey) as Hrun.
  pose proof Hkey as (Htr & _ & Hnone & _).
  subst w' h' code body.
  assert (outbox (after (handle_delete_sensor payload) w)
          = outbox w ++ [reply (response_topic Delete) (if decide (n = 0%nat) then 404 else 200)
                           (if decide (n = 0%nat) then error_body "Record not found"
                            else dict_of [("message", PStr "Sensor data deleted successfully");
                                          ("deleted_count", PInt (Z.of_nat n))])] ∧
          table (after (handle_delete_sensor payload) w) = rest ∧
          conns (after (handle_delete_sensor payload) w) = conns w ∧
          ∃ c, filter (λ ev, is_commit ev) (events (after (handle_delete_sensor payload) w))
               = filter (λ ev, is_commit ev) (events w) ++ [EvCommit c]) as (Hm1 & Hm2 & Hm3 & Hm4).
  { unfold handle_delete_sensor, response_topic, reply, envelope, error_body.
    cbn [op_name]. topics. rewrite Hload. sym_unfold.
    repeat (sym_simpl; cbn [py_get]; rewrite ?Htime, ?Hsid, ?Htr, ?Hnone, ?Hf, ?Hrun;
            cbn [negb orb hd tl];
            rewrite ?insert_insert_eq, ?close_opened by apply fresh_conn_free).
    fold n rest.
    destruct (decide (n = 0%nat)) as [Hn|Hn];
      [ assert ((Z.of_nat n =? 0) = true) as Hz by (apply Z.eqb_eq; lia)
      | assert ((Z.of_nat n =? 0) = false) as Hz by (apply Z.eqb_neq; lia) ];
      rewrite Hz; repeat sym_simpl.
    all: repeat split; try done.
    all: eexists; rewrite <- !app_assoc, !filter_app; cbn; by rewrite app_nil_r. }
  assert (outcome (delete_sensor_data req) w
          = Done (if decide (n = 0%nat) then error_body "Record not found"
                  else dict_of [("message", PStr "Sensor data deleted successfully");
                                ("deleted_count", PInt (Z.of_nat n))],
                  if decide (n = 0%nat) then 404 else 200) ∧
          table (after (delete_sensor_data req) w) = rest ∧
          conns (after (delete_sensor_data req) w) = conns w) as (Hh1 & Hh2 & Hh3).
  { unfold delete_sensor_data, error_body. rewrite Hatime, Hasid. sym_unfold.
    repeat (sym_simpl; rewrite ?Htr, ?Hnone, ?Hf, ?Hrun;
            cbn [negb orb hd tl];
            rewrite ?insert_insert_eq, ?close_opened by apply fresh_conn_free).
    fold n rest.
    destruct (decide (n = 0%nat)) as [Hn|Hn];
      [ assert ((Z.of_nat n =? 0) = true) as Hz by (apply Z.eqb_eq; lia)
      | assert ((Z.of_nat n =? 0) = false) as Hz by (apply Z.eqb_neq; lia) ];
      rewrite Hz; repeat sym_simpl; done. }
  repeat split; try done.
  - intros Hn. subst rest. apply filter_none_length. exact Hn.
  - subst rest. apply Forall_forall. intros r Hr. by apply list_elem_of_filter in Hr as [Hr _].
Qed.

(** The row of sensor 1 stored in [stored_20], deleted over MQTT and over
    HTTP. *)
Definition delete_20 : Request :=
  mkRequest (<["time" := "2024-01-01 00:00:00"]> (<["sensor_id" := "1"]> ∅)) (Done PNone).

Lemma delete_empties_stored_20 :
  table (after (handle_delete_sensor create_20) stored_20) = [] ∧
  outcome (delete_sensor_data delete_20) stored_20
  = Done (dict_of [("message", PStr "Sensor data deleted successfully");
                   ("deleted_count", PInt 1)], 200).
Proof.
  pose proof (delete_removes_the_key create_20 delete_20
                (<["sensor_id" := PInt 1]> (<["time" := PStr "2024-01-01 00:00:00"]>
                   (<["temperature" := PInt 20]> ∅)))
                (PStr "2024-01-01 00:00:00") (PInt 1) 1704067200000000 1 stored_20) as Hw.
  specialize (Hw ltac:(vm_compute; reflexivity) ltac:(vm_compute; reflexivity)
                 ltac:(vm_compute; reflexivity) ltac:(vm_compute; reflexivity)
                 ltac:(vm_compute; reflexivity)
                 ltac:(repeat split; vm_compute; reflexivity) ltac:(reflexivity)).
  cbv zeta in Hw. destruct Hw as (_ & Hroute & Htab & _).
  split; [rewrite Htab | rewrite Hroute]; vm_compute; reflexivity.
Defined.

(** [DeleteById] of sensor [s] on a reachable store, over MQTT and over
    HTTP: every row of the sensor is removed and the others stay, the delete
    is committed, and the answer is 200 with the number of rows removed in
    its message, also when the sensor had no row: there is no 404. *)
Theorem delete_by_id_removes_the_sensor `{Runtime} (payload : string) (d : pyrow)
    (sensor_id : pyval) (s : Z) (w : World) :
  loads_or payload (dict_of []) = Done (PDict d) →
  default PNone (d !! "sensor_id") = sensor_id →
  is_none sensor_id = false →
  as_integer sensor_id = Done s →
  faults w = [] →
  let n := length (filter (λ r, r_sensor_id r = s) (table w)) in
  let rest := filter (λ r, r_sensor_id r ≠ s) (table w) in
  let told (who : string) :=
    dict_of [("message", PStr ("Deleted " +:+ pretty (Z.of_nat n) +:+
                               " records for sensor " +:+ who))] in
  let w' := after (handle_delete_sensor_by_id payload) w in
  let h' := after (delete_all_sensor_data_by_id s) w in
  outbox w' = outbox w ++ [reply (response_topic DeleteById) 200 (told (py_str sensor_id))] ∧
  outcome (delete_all_sensor_data_by_id s) w = Done (told (pretty s), 200) ∧
  table w' = rest ∧ table h' = rest ∧
  conns w' = conns w ∧ conns h' = conns w ∧
  Forall (λ r, r_sensor_id r ≠ s) rest ∧
  (∀ r, r ∈ table w → r_sensor_id r ≠ s → r ∈ rest) ∧
  (length rest + n = length (table w))%nat.
Proof.
  intros Hload Hsid Hnone Hs Hf n rest told w' h'. subst w' h' told.
  assert (∀ v, as_integer v = Done s →
               run_query DeleteSensor [v] (clock w) (table w)
               = Done (rest, [], Z.of_nat n)) as Hrun.
  { intros v Hv. cbn [run_query]. by rewrite Hv. }
  pose proof (Hrun sensor_id Hs) as Hrun1.
  pose proof (Hrun (PInt s) eq_refl) as Hrun2.
  split; [|split; [|split; [|split; [|split; [|split; [|split; [|split]]]]]]].
  - unfold handle_delete_sensor_by_id, response_topic, reply, envelope.
    cbn [op_name]. topics. rewrite Hload. sym_unfold.
    repeat (sym_simpl; cbn [py_get]; rewrite ?Hsid, ?Hnone, ?Hf, ?Hrun1; cbn [hd tl]).
    reflexivity.
  - unfold delete_all_sensor_data_by_id. sym_unfold.
    repeat (sym_simpl; rewrite ?Hf, ?Hrun2; cbn [hd tl]).
    reflexivity.
  - unfold handle_delete_sensor_by_id. topics. rewrite Hload. sym_unfold.
    repeat (sym_simpl; cbn [py_get]; rewrite ?Hsid, ?Hnone, ?Hf, ?Hrun1; cbn [hd tl]).
    reflexivity.
  - unfold delete_all_sensor_data_by_id. sym_unfold.
    repeat (sym_simpl; rewrite ?Hf, ?Hrun2; cbn [hd tl]).
    reflexivity.
  - unfold handle_delete_sensor_by_id. topics. rewrite Hload. sym_unfold.
    repeat (sym_simpl; cbn [py_get]; rewrite ?Hsid, ?Hnone, ?Hf, ?Hrun1; cbn [hd tl];
            rewrite ?insert_insert_eq, ?close_opened by apply fresh_conn_free).
    reflexivity.
  - unfold delete_all_sensor_data_by_id. sym_unfold.
    repeat (sym_simpl; rewrite ?Hf, ?Hrun2; cbn [hd tl];
            rewrite ?insert_insert_eq, ?close_opened by apply fresh_conn_free).
    reflexivity.
  - subst rest. apply Forall_forall. intros r Hr. by apply list_elem_of_filter in Hr as [Hr _].
  - intros r Hin Hr. subst rest. by apply list_elem_of_filter.
  - subst rest n. clear. induction (table w) as [|r rows IH]; [reflexivity|].
    rewrite !filter_cons. destruct (decide (r_sensor_id r = s)) as [Hr|Hr].
    + rewrite decide_False by (intros Hne; by apply Hne). cbn [length] in *. lia.
    + rewrite decide_True by done. cbn [length] in *. lia.
Qed.

(** Sensor 7 has no row in [stored_20]: the delete is answered with 200 and
    a count of 0. *)
Definition sensor_7 : string := "{" +:+ q "sensor_id" +:+ ": 7}".

Lemma delete_by_id_of_no_row :
  outcome (delete_all_sensor_data_by_id 7) stored_20
  = Done (dict_of [("message", PStr "Deleted 0 records for sensor 7")], 200) ∧
  table (after (handle_delete_sensor_by_id sensor_7) stored_20) = table stored_20.
Proof.
  pose proof (delete_by_id_removes_the_sensor sensor_7 (<["sensor_id" := PInt 7]> ∅)
                (PInt 7) 7 stored_20) as Hw.
  specialize (Hw ltac:(vm_compute; reflexivity) ltac:(vm_compute; reflexivity)
                 ltac:(reflexivity) ltac:(reflexivity) ltac:(reflexivity)).
  cbv zeta in Hw. destruct Hw as (_ & Hroute & Htab & _).
  split; [rewrite Hroute | rewrite Htab]; vm_compute; reflexivity.
Defined.

(** ** Creating without a time *)

(** A request body for sensor [s] with the values [temp] and [hum] and no
    usable [time]: the field is absent, null, or another falsy value such as
    the empty string or 0. *)
Definition unstamped_request `{Runtime} (data : pyval) (s : Z) (temp hum : option Z) : Prop :=
  is_dict data = true ∧ truthy data = true ∧
  truthy (field data "time") = false ∧
  is_none (field data "sensor_id") = false ∧ as_integer (field data "sensor_id") = Done s ∧
  as_real (field data "temperature") = Done temp ∧
  as_real (field data "humidity") = Done hum.

Lemma insert_now_returning `{Runtime} (data : pyval) (s : Z) (temp hum : option Z) (now : Z)
    (rows : list Reading) :
  unstamped_request data s temp hum →
  run_query InsertNowReturning
    [field data "sensor_id"; field data "temperature"; field data "humidity"] now rows
  = if decide (Exists (at_key now s) rows)
    then Raised (Exn IntegrityError "duplicate key value violates unique constraint")
    else Done (rows ++ [mkReading now s temp hum], [reading_row (mkReading now s temp hum)], 1).
Proof.
  intros (_ & _ & _ & _ & Hs & Htemp & Hhum).
  cbn [run_query]. rewrite Hs, Htemp, Hhum. cbn [mbind result_bind].
  unfold sql_insert, at_key. destruct (decide _); reflexivity.
Qed.

(** [Create] without a usable [time], on a reachable store, over MQTT and
    over HTTP: the row is stamped with the store's [NOW()].  It is appended
    and returned with 201, unless the sensor already has a row at that very
    instant: then the answer is 409 and the table is unchanged. *)
Theorem create_without_time_is_stamped_now `{Runtime} (payload : string) (req : Request)
    (data : pyval) (s : Z) (temp hum : option Z) (w : World) :
  loads_or payload (dict_of []) = Done data → get_json req = Done data →
  unstamped_request data s temp hum →
  faults w = [] →
  let r := mkReading (clock w) s temp hum in
  let created := dict_of [("message", PStr "Sensor data created successfully");
                          ("data", row_json r)] in
  let duplicate := error_body "Duplicate entry for this time and sensor_id" in
  let w' := after (handle_create_sensor payload) w in
  let h' := after (create_sensor_data req) w in
  if decide (Exists (at_key (clock w) s) (table w))
  then outbox w' = outbox w ++ [reply (response_topic Create) 409 duplicate] ∧
       outcome (create_sensor_data req) w = Done (duplicate, 409) ∧
       table w' = table w ∧ table h' = table w
  else outbox w' = outbox w ++ [reply (response_topic Create) 201 created] ∧
       outcome (create_sensor_data req) w = Done (created, 201) ∧
       table w' = table w ++ [r] ∧ table h' = table w ++ [r] ∧
       conns w' = conns w ∧ conns h' = conns w.
Proof.
  intros Hload Hjson Hreq Hf r created duplicate w' h'. subst r created duplicate w' h'.
  pose proof (insert_now_returning _ _ _ _ (clock w) (table w) Hreq) as Hrun.
  destruct Hreq as (Hd & Htr & Htime & Hsid & _).
  destruct data; try discriminate Hd. cbn [field] in *.
  destruct (decide (Exists (at_key (clock w) s) (table w))) as [Hex|Hex].
  - repeat split.
    + unfold handle_create_sensor, response_topic, reply, envelope, error_body.
      cbn [op_name]. topics. rewrite Hload. sym_unfold. cbn [py_get].
      repeat (sym_simpl; rewrite ?Hf, ?Htr, ?Htime, ?Hsid, ?Hrun; cbn [negb orb hd tl]).
      cbn [is_integrity_error exn_is]. by repeat sym_simpl.
    + unfold create_sensor_data, error_body. rewrite Hjson. sym_unfold. cbn [py_get].
      repeat (sym_simpl; rewrite ?Hf, ?Htr, ?Htime, ?Hsid, ?Hrun; cbn [negb orb hd tl]).
      cbn [is_integrity_error exn_is]. by repeat sym_simpl.
    + unfold handle_create_sensor. topics. rewrite Hload. sym_unfold. cbn [py_get].
      repeat (sym_simpl; rewrite ?Hf, ?Htr, ?Htime, ?Hsid, ?Hrun; cbn [negb orb hd tl]).
      cbn [is_integrity_error exn_is]. by repeat sym_simpl.
    + unfold create_sensor_data. rewrite Hjson. sym_unfold. cbn [py_get].
      repeat (sym_simpl; rewrite ?Hf, ?Htr, ?Htime, ?Hsid, ?Hrun; cbn [negb orb hd tl]).
      cbn [is_integrity_error exn_is]. by repeat sym_simpl.
  - repeat split.
    all: unfold handle_create_sensor, create_sensor_data, response_topic, reply, envelope,
                row_json; cbn [op_name]; topics; rewrite ?Hload, ?Hjson; sym_unfold;
           cbn [py_get].
    all: repeat (sym_simpl; rewrite ?Hf, ?Htr, ?Htime, ?Hsid, ?Hrun;
                 cbn [negb orb hd tl py_dict head mbind result_bind];
                 rewrite ?iso_row_reading, ?insert_insert_eq,
                         ?close_opened by apply fresh_conn_free).
    all: reflexivity.
Qed.

(** [{"sensor_id": 1, "time": "", "temperature": 20}]: an empty [time]
    counts as none. *)
Definition create_unstamped : string :=
  "{" +:+ q "sensor_id" +:+ ": 1, " +:+ q "time" +:+ ": " +:+ q "" +:+ ", " +:+
  q "temperature" +:+ ": 20}".

Definition body_unstamped : pyval :=
  dict_of [("sensor_id", PInt 1); ("time", PStr ""); ("temperature", PInt 20)].

Lemma empty_time_is_stamped_now :
  table (after (handle_create_sensor create_unstamped) world0)
  = [mkReading (clock world0) 1 (Some 0x4034000000000000) None] ∧
  table (after (create_sensor_data (mkRequest ∅ (Done body_unstamped))) world0)
  = [mkReading (clock world0) 1 (Some 0x4034000000000000) None].
Proof.
  pose proof (create_without_time_is_stamped_now create_unstamped
                (mkRequest ∅ (Done body_unstamped)) body_unstamped 1
                (Some 0x4034000000000000) None world0) as Hw.
  specialize (Hw ltac:(vm_compute; reflexivity) ltac:(reflexivity)
                 ltac:(repeat split; vm_compute; reflexivity) ltac:(reflexivity)).
  cbv zeta in Hw. rewrite decide_False in Hw by (intros Hex; inversion Hex).
  destruct Hw as (_ & _ & Hm & Hh & _). split; [exact Hm | exact Hh].
Defined.

(** ** The health check *)

(** The health check, over MQTT and over HTTP, reports whether a connection
    can be made: if the store accepts it the connection is closed again and
    the answer is 200 healthy; if the connect raises, the answer is 500
    unhealthy with the text of the exception, and no connection was opened.
    The payload is not looked at. *)
Theorem health_check_reports_the_store `{Runtime} (payload : string) (w : World) :
  let w' := after (handle_health_check payload) w in
  let h' := after health_check w in
  let c := fresh (dom (conns w)) in
  match hd None (faults w) with
  | None =>
    let healthy := dict_of [("status", PStr "healthy"); ("database", PStr "connected")] in
    outbox w' = outbox w ++ [reply (response_topic HealthCheck) 200 healthy] ∧
    outcome health_check w = Done (healthy, 200) ∧
    events w' = events w ++ [EvConnect c; EvClose c] ∧
    events h' = events w ++ [EvConnect c; EvClose c] ∧
    conns w' = conns w ∧ conns h' = conns w
  | Some e =>
    let unhealthy := dict_of [("status", PStr "unhealthy"); ("error", PStr (exn_str e))] in
    outbox w' = outbox w ++ [reply (response_topic HealthCheck) 500 unhealthy] ∧
    outcome health_check w = Done (unhealthy, 500) ∧
    events w' = events w ∧ events h' = events w ∧
    conns w' = conns w ∧ conns h' = conns w
  end ∧
  table w' = table w ∧ table h' = table w.
Proof.
  intros w' h' c. subst w' h' c.
  unfold handle_health_check, health_check, response_topic, reply, envelope.
  cbn [op_name]. topics. sym_unfold.
  destruct (hd None (faults w)) as [e|] eqn:Hhd;
    repeat (sym_simpl; rewrite ?close_opened by apply fresh_conn_free);
    rewrite <- ?app_assoc; done.
Qed.

(** ** The statements with a time window *)

(** The statements that write their hours as [INTERVAL '%s hours']. *)
Definition windowed (q : Query) : bool :=
  match q with
  | SelectRangeSensor | SelectRangeAll | SelectSensor | StatsSensor | StatsAll => true
  | _ => false
  end.

(** What is sent for a windowed statement has the placeholder of the hours,
    rewritten, inside the quoted literal. *)
Lemma windowed_sent (q : Query) :
  windowed q = true →
  ∃ sent n, pg_placeholders (sql_text q) 0 = Some (sent, n) ∧
            contains "INTERVAL '$" sent = true ∧ contains "%s" sent = false.
Proof.
  destruct q; try discriminate; intros _; do 2 eexists; (split; [vm_compute; reflexivity|]);
    split; vm_compute; reflexivity.
Qed.

Ltac sent_split :=
  repeat split;
  match goal with
  | |- ∃ sent, pg_query (sql_text ?q) ?params = Some sent ∧ _ =>
    destruct (windowed_sent q eq_refl) as (sent & n & Hsent & Hin & _);
    exists sent; split; [|exact Hin];
    unfold pg_query; rewrite Hsent; cbn [mbind option_bind];
    vm_compute in Hsent; injection Hsent as _ <-; reflexivity
  end.

(** The answer to a statement the store rejected. *)
Definition rejected `{Runtime} (q : Query) (params : list pyval) : pyval :=
  error_body (exn_str (pg_rejects (sql_text q) params)).

(** No query with a time window is answered with rows.  A [GetAll],
    [GetById] or [Stats] request that is well-formed, on a store without
    faults: the statement it executes is a windowed one, the store rejects
    it, for the text that is sent has the placeholder of the hours inside a
    quoted literal, and the answer is 500 with the error of the store.  So over MQTT,
    and so over HTTP.  The table stays as it is. *)
Theorem windowed_queries_are_rejected `{Runtime} (op : Operation) (payload : string)
    (d : pyrow) (sensor_id : Z) (req : Request) (w : World) :
  op ∈ [GetAll; GetById; Stats] →
  loads_or payload (dict_of []) = Done (PDict d) →
  (op = GetById → is_none (default PNone (d !! "sensor_id")) = false) →
  faults w = [] →
  (∃ q params,
     windowed q = true ∧
     (∃ sent, pg_query (sql_text q) params = Some sent ∧ contains "INTERVAL '$" sent = true) ∧
     outbox (after (handler_of op payload) w)
     = outbox w ++ [reply (response_topic op) 500 (rejected q params)] ∧
     table (after (handler_of op payload) w) = table w) ∧
  (∃ q params,
     windowed q = true ∧
     (∃ sent, pg_query (sql_text q) params = Some sent ∧ contains "INTERVAL '$" sent = true) ∧
     outcome (route op sensor_id req) w = Done (rejected q params, 500) ∧
     table (after (route op sensor_id req) w) = table w).
Proof.
  intros Hop Hload Hid Hf.
  repeat (apply elem_of_cons in Hop as [->|Hop]); [..|by apply elem_of_nil in Hop].
  - split.
    + cbn [handler_of]. unfold response_topic, reply, envelope, rejected, error_body.
      cbn [op_name]. unfold_handlers. topics. rewrite Hload. sym_unfold.
      repeat (sym_simpl; cbn [py_get]; rewrite ?Hf; cbn [hd tl]).
      destruct (truthy (default PNone (d !! "sensor_id")));
        repeat (sym_simpl; cbn [run_query]).
      * exists SelectRangeSensor. eexists. sent_split.
      * exists SelectRangeAll. eexists. sent_split.
    + cbn [route]. unfold rejected, error_body. unfold_routes. sym_unfold.
      repeat (sym_simpl; rewrite ?Hf; cbn [hd tl]).
      destruct (truthy (args_get_int req "sensor_id" PNone));
        repeat (sym_simpl; cbn [run_query]).
      * exists SelectRangeSensor. eexists. sent_split.
      * exists SelectRangeAll. eexists. sent_split.
  - specialize (Hid eq_refl). split.
    + cbn [handler_of]. unfold response_topic, reply, envelope, rejected, error_body.
      cbn [op_name]. unfold_handlers. topics. rewrite Hload. sym_unfold.
      repeat (sym_simpl; cbn [py_get run_query]; rewrite ?Hf, ?Hid; cbn [hd tl]).
      exists SelectSensor. eexists. sent_split.
    + cbn [route]. unfold rejected, error_body. unfold_routes. sym_unfold.
      repeat (sym_simpl; cbn [run_query]; rewrite ?Hf; cbn [hd tl]).
      exists SelectSensor. eexists. sent_split.
  - split.
    + cbn [handler_of]. unfold response_topic, reply, envelope, rejected, error_body.
      cbn [op_name]. unfold_handlers. topics. rewrite Hload. sym_unfold.
      repeat (sym_simpl; cbn [py_get]; rewrite ?Hf; cbn [hd tl]).
      destruct (truthy (default PNone (d !! "sensor_id")));
        repeat (sym_simpl; cbn [run_query]).
      * exists StatsSensor. eexists. sent_split.
      * exists StatsAll. eexists. sent_split.
    + cbn [route]. unfold rejected, error_body. unfold_routes. sym_unfold.
      repeat (sym_simpl; rewrite ?Hf; cbn [hd tl]).
      destruct (truthy (args_get_int req "sensor_id" PNone));
        repeat (sym_simpl; cbn [run_query]).
      * exists StatsSensor. eexists. sent_split.
      * exists StatsAll. eexists. sent_split.
Qed.

(** The query of [query_6] on [world_6], which holds two readings of its
    sensor: 500, over MQTT and over HTTP. *)
Lemma get_all_of_sensor_1_is_rejected :
  (∃ q params,
     windowed q = true ∧
     outbox (after (handle_get_all_sensors query_6) world_6)
     = [reply "sensors/get_all/response" 500 (rejected q params)]) ∧
  (∃ q params,
     windowed q = true ∧
     outcome (get_all_sensor_data request_6) world_6 = Done (rejected q params, 500)).
Proof.
  destruct (@windowed_queries_are_rejected Ref.runtime GetAll query_6
              (<["sensor_id" := PInt 1]> (<["limit" := PInt 1]> ∅)) 0 request_6 world_6)
    as ((q1 & p1 & Hq1 & _ & Hm & _) & (q2 & p2 & Hq2 & _ & Hh & _)).
  - apply list_elem_of_here.
  - vm_compute. reflexivity.
  - discriminate.
  - reflexivity.
  - split; [exists q1, p1 | exists q2, p2]; (split; [assumption|]); assumption.
Defined.

(** ** Round trips *)

Lemma delete_rows `{Runtime} (payload : string) (d : pyrow) (t s : Z) (w : World) :
  loads_or payload (dict_of []) = Done (PDict d) →
  names_key (default PNone (d !! "time")) (default PNone (d !! "sensor_id")) t s →
  faults w = [] →
  table (after (handle_delete_sensor payload) w) = filter (λ r, ¬ at_key t s r) (table w).
Proof.
  intros Hload Hkey Hf.
  pose proof (delete_one_run _ _ t s (clock w) (table w) Hkey) as Hrun.
  destruct Hkey as (Htr & _ & Hnone & _).
  unfold handle_delete_sensor. topics. rewrite Hload. sym_unfold.
  repeat (sym_simpl; cbn [py_get]; rewrite ?Htr, ?Hnone, ?Hf, ?Hrun; cbn [negb orb hd tl]).
  by destruct (_ =? 0); repeat sym_simpl.
Qed.

(** A [Delete] undoes a [Create]: after a [Create] that names a key no row
    has, a [Delete] of that key, at any later time, leaves the table as it
    was before the [Create]. *)
Theorem delete_undoes_create `{Runtime} (create delete : string) (data : pyval) (d : pyrow)
    (t s : Z) (temp hum : option Z) (w w2 : World) :
  loads_or create (dict_of []) = Done data →
  keyed_request data t s temp hum →
  ¬ Exists (at_key t s) (table w) →
  faults w = [] →
  loads_or delete (dict_of []) = Done (PDict d) →
  names_key (default PNone (d !! "time")) (default PNone (d !! "sensor_id")) t s →
  table w2 = table (after (handle_create_sensor create) w) →
  faults w2 = [] →
  table (after (handle_create_sensor create) w) = table w ++ [mkReading t s temp hum] ∧
  table (after (handle_delete_sensor delete) w2) = table w.
Proof.
  intros Hload Hreq Hfresh Hf Hd Hkey Htab Hf2.
  destruct (create_keyed create data t s temp hum w Hload Hreq Hf) as (_ & Hcreate).
  rewrite decide_False in Hcreate by done. destruct Hcreate as (_ & Hrows).
  split; [exact Hrows|].
  rewrite (delete_rows delete d t s w2 Hd Hkey Hf2), Htab, Hrows, filter_app.
  rewrite filter_cons, decide_False by (intros Hno; by apply Hno). cbn [filter].
  rewrite app_nil_r. clear -Hfresh.
  induction (table w) as [|r rows IH]; [reflexivity|].
  rewrite filter_cons, decide_True.
  - f_equal. apply IH. intros Hex. apply Hfresh. by right.
  - intros Hr. apply Hfresh. by left.
Qed.

Lemma delete_undoes_create_20 :
  table (after (handle_delete_sensor create_20)
               (after (handle_create_sensor create_20) world0)) = [].
Proof.
  destruct (delete_undoes_create create_20 create_20 body_20
              (<["sensor_id" := PInt 1]> (<["time" := PStr "2024-01-01 00:00:00"]>
                 (<["temperature" := PInt 20]> ∅)))
              1704067200000000 1 (Some 0x4034000000000000) None world0
              (after (handle_create_sensor create_20) world0))
    as (_ & Htab).
  - vm_compute; reflexivity.
  - repeat split; vm_compute; reflexivity.
  - intros Hex. inversion Hex.
  - reflexivity.
  - vm_compute; reflexivity.
  - repeat split; vm_compute; reflexivity.
  - reflexivity.
  - vm_compute; reflexivity.
  - exact Htab.
Defined.

(** * The clients *)

(** ** test_mqtt.py *)

(** The topics [on_connect] of the test client subscribes to. *)
Definition response_topics : list string :=
  ["sensors/health/response"; "sensors/get_all/response"; "sensors/get_by_id/response";
   "sensors/create/response"; "sensors/create_bulk/response"; "sensors/update/response";
   "sensors/delete/response"; "sensors/delete_by_id/response"; "sensors/stats/response";
   "sensors/time_bucket/response"].

(** [on_connect] of the test client: it does not look at the return code. *)
Definition test_on_connect (subscribed : list (string * Z)) : list (string * Z) :=
  subscribed ++ ((λ topic, (topic, 1)) <$> response_topics).

(** The message [send_request] publishes: a falsy payload goes out as [{}]. *)
Definition send_request `{Runtime} (topic : string) (payload : pyval) : Message :=
  mkMessage topic (if truthy payload then json_dumps payload else "{}") 1.

(** The requests of [main], in its order. *)
Definition test_requests : list (string * pyval) :=
  [("sensors/health/request", dict_of []);
   ("sensors/create/request",
    dict_of [("sensor_id", PInt 1); ("temperature", PFloat 0x4039800000000000);
             ("humidity", PFloat 0x4046800000000000)]);
   ("sensors/create_bulk/request",
    PList [dict_of [("sensor_id", PInt 2); ("temperature", PFloat 0x4037800000000000);
                    ("humidity", PFloat 0x4044000000000000)];
           dict_of [("sensor_id", PInt 3); ("temperature", PFloat 0x4038000000000000);
                    ("humidity", PFloat 0x4045000000000000)]]);
   ("sensors/get_all/request", dict_of [("limit", PInt 10)]);
   ("sensors/get_by_id/request", dict_of [("sensor_id", PInt 1); ("hours", PInt 24)]);
   ("sensors/stats/request", dict_of [("hours", PInt 24)]);
   ("sensors/time_bucket/request", dict_of [("bucket", PStr "1 hour"); ("hours", PInt 24)])].

(** What the bridge receives when the broker delivers a published message. *)
Definition delivered (m : Message) : MQTTMessage :=
  mkMQTTMessage (msg_topic m) (list_byte_of_string (msg_payload m)).

Lemma delivered_readable (m : Message) :
  decode_utf8 (list_byte_of_string (msg_payload m)) = Done (msg_payload m) →
  readable_payload (in_payload (delivered m)) (msg_payload m).
Proof.
  intros Hdec. unfold readable_payload, delivered. cbn [in_payload].
  destruct (msg_payload m) as [|a s] eqn:Hp.
  - by left.
  - right. split; [|exact Hdec]. cbn. discriminate.
Qed.

(** The test client and the bridge fit together.  The client listens on
    the response topic of every operation, and only there.  Each request of
    its [main] goes to a topic the bridge routes, and when the bridge
    receives it (its serialised payload being text the bridge can decode) it
    publishes exactly one reply, on a topic the client is subscribed to. *)
Theorem test_client_hears_every_reply `{Runtime} (topic : string) (payload : pyval)
    (w : World) :
  (topic, payload) ∈ test_requests →
  let m := send_request topic payload in
  decode_utf8 (list_byte_of_string (msg_payload m)) = Done (msg_payload m) →
  response_topics = response_topic <$> operations ∧
  ∃ op code data,
    topic = request_topic op ∧
    outcome (on_message (delivered m)) w = Done tt ∧
    outbox (after (on_message (delivered m)) w)
    = outbox w ++ [reply (response_topic op) code data] ∧
    (response_topic op, 1) ∈ test_on_connect [].
Proof.
  intros Hin m Hdec. split; [vm_compute; reflexivity|].
  assert (∃ op, topic = request_topic op) as (op & ->).
  { unfold test_requests in Hin.
    repeat (apply elem_of_cons in Hin as [[= -> _]|Hin];
            [ first [ by exists HealthCheck | by exists Create | by exists CreateBulk
                    | by exists GetAll | by exists GetById | by exists Stats
                    | by exists TimeBucket ] | ]).
    by apply elem_of_nil in Hin. }
  exists op.
  pose proof (on_message_readable (request_topic op) _ _ w (delivered_readable m Hdec)) as Hrun.
  rewrite request_topics_bound in Hrun.
  destruct (handler_replies_once op (msg_payload m)
              (logged (received (request_topic op) (msg_payload m)) w))
    as (Hdone & code & data & evs & Hout & _).
  exists code, data. unfold outcome, after in *.
  change (on_message (delivered m) w)
    with (on_message (mkMQTTMessage (request_topic op) (in_payload (delivered m))) w).
  rewrite Hrun. split; [reflexivity|]. split; [exact Hdone|]. split; [exact Hout|].
  unfold test_on_connect. cbn [app]. apply list_elem_of_fmap.
  exists (response_topic op). split; [reflexivity|].
  destruct op; unfold response_topic; cbn [op_name]; topics; unfold response_topics;
    repeat first [by left | right].
Qed.

(** The second test of [main], the [Create] of a reading of sensor 1. *)
Lemma test_create_is_answered :
  ∃ code data,
    outbox (after (on_message
                     (delivered (send_request "sensors/create/request"
                        (dict_of [("sensor_id", PInt 1);
                                  ("temperature", PFloat 0x4039800000000000);
                                  ("humidity", PFloat 0x4046800000000000)])))) world0)
    = [reply "sensors/create/response" code data].
Proof.
  destruct (test_client_hears_every_reply "sensors/create/request"
              (dict_of [("sensor_id", PInt 1); ("temperature", PFloat 0x4039800000000000);
                        ("humidity", PFloat 0x4046800000000000)]) world0)
    as (_ & op & code & data & Htopic & _ & Hout & _).
  - right. left.
  - vm_compute. reflexivity.
  - destruct op; try discriminate Htopic. exists code, data. exact Hout.
Defined.

(** ** publisher.py and subscriber.py *)

(** [generate_sensegrid_data]; the arguments are what [random] and the clock
    give: a machine, a count, an OEE (a binary64) and a reason out of its
    five, and the time as text. *)
Definition generate_sensegrid_data (machine_id production_count oee : Z)
    (downtime_reason timestamp : string) : pyval :=
  dict_of [("machine_id", PInt machine_id);
           ("production_count", PInt production_count);
           ("oee", PFloat oee);
           ("downtime_reason", PStr downtime_reason);
           ("timestamp", PStr timestamp)].

(** [print(text)], where the standard output encodes as UTF-8: a text with
    a lone surrogate, which [json.loads] reads from an escape and which is
    held as three bytes that are no well-formed UTF-8, has no encoding. *)
Definition cannot_encode : exn :=
  Exn UnicodeEncodeError "'utf-8' codec can't encode character: surrogates not allowed".

Definition encodable (text : string) : bool :=
  utf8_valid ((λ b, Z.of_N (Byte.to_N b)) <$> list_byte_of_string text).

(** Whether [str(v)] can be printed.  Only the text of a [str] is printed
    as it is; a list or a dict is printed through [repr], which escapes what
    has no encoding. *)
Definition printable (v : pyval) : bool :=
  match v with
  | PStr s => encodable s
  | _ => true
  end.

(** [print(f"{head}{v}")] for an ASCII [head]: the line, if it is printed. *)
Definition print_line `{Runtime} (head : string) (v : pyval) : M string :=
  lift (if printable v then Done (head +:+ py_str v) else Raised cannot_encode).

(** The [try] block of [on_message] in subscriber.py, with the lines it
    prints.  [API_URL] is the route of [Create]; [unreachable] is the
    [RequestException] of [requests.post], if it raises one. *)
Definition forward `{Runtime} (payload : pyval) (unreachable : option exn) : M (list string) :=
  match unreachable with
  | Some e =>
    let! line := print_line "Failed to send to API: " (PStr (exn_str e)) in
    ret [line]
  | None =>
    let! response := create_sensor_data (mkRequest ∅ (Done payload)) in
    if response.2 =? 200 then ret ["Data sent to API successfully"]
    else ret ["API response error: " +:+ pretty response.2]
  end.

(** [on_message] of subscriber.py: the lines it prints.  The first [print]
    is outside the [try]. *)
Definition subscriber_on_message `{Runtime} (bytes : list byte) (unreachable : option exn)
  : M (list string) :=
  let! text := lift (decode_utf8 bytes) in
  let! payload := lift (json_loads text) in
  let! received := print_line "Received message: " payload in
  let! lines := forward payload unreachable in
  ret (received :: lines).

Lemma create_sensor_data_status `{Runtime} (req : Request) (w : World) :
  ∃ body code, outcome (create_sensor_data req) w = Done (body, code) ∧
               code ∈ [201; 400; 409; 500].
Proof.
  unfold create_sensor_data. sym_run.
  all: do 2 eexists; (split; [reflexivity|]); in_list.
Qed.

(** A message of the publisher never becomes a reading.  Whatever the
    publisher draws, its record has no [sensor_id]: when the subscriber
    forwards it, [Create] answers 400 without a store call, and the
    subscriber prints the status as an error. *)
Theorem sensegrid_record_is_rejected `{Runtime} (bytes : list byte) (text : string)
    (machine_id production_count oee : Z) (downtime_reason timestamp : string) (w : World) :
  let data := generate_sensegrid_data machine_id production_count oee
                downtime_reason timestamp in
  decode_utf8 bytes = Done text →
  json_loads text = Done data →
  create_sensor_data (mkRequest ∅ (Done data)) w
  = (Done (error_body "sensor_id is required", 400), w) ∧
  subscriber_on_message bytes None w
  = (Done ["Received message: " +:+ py_str data; "API response error: 400"], w).
Proof.
  intros data Hdec Hload.
  assert (create_sensor_data (mkRequest ∅ (Done data)) w
          = (Done (error_body "sensor_id is required", 400), w)) as Hcreate.
  { unfold create_sensor_data, data, generate_sensegrid_data, dict_of, error_body.
    sym_unfold. cbn [get_json py_get truthy].
    assert (size (list_to_map
                    [("machine_id", PInt machine_id);
                     ("production_count", PInt production_count); ("oee", PFloat oee);
                     ("downtime_reason", PStr downtime_reason);
                     ("timestamp", PStr timestamp)] : gmap string pyval) = 5%nat) as ->.
    { cbn [list_to_map foldr fst snd].
      rewrite !map_size_insert_None, map_size_empty; [reflexivity|..];
        repeat (rewrite lookup_insert_ne by done); apply lookup_empty. }
    cbn [Nat.eqb negb].
    assert ((list_to_map
               [("machine_id", PInt machine_id);
                ("production_count", PInt production_count); ("oee", PFloat oee);
                ("downtime_reason", PStr downtime_reason);
                ("timestamp", PStr timestamp)] : gmap string pyval) !! "sensor_id" = None)
      as Hno.
    { cbn [list_to_map foldr fst snd].
      repeat (rewrite lookup_insert_ne by done). apply lookup_empty. }
    repeat (sym_simpl; rewrite ?Hno; cbn [from_option id is_none]).
    by destruct w. }
  split; [exact Hcreate|].
  unfold subscriber_on_message, forward, print_line, bind, lift, ret. rewrite Hdec, Hload.
  fold data. cbn [data generate_sensegrid_data dict_of printable]. fold data.
  rewrite Hcreate. reflexivity.
Qed.

(** The subscriber never reports a success.  It takes a 200 for one, and
    [Create] answers 201 when it stores the reading: whatever the message
    and the store, the line [Data sent to API successfully] is not printed.
    When [on_message] raises, the message was no UTF-8, or no JSON, or a
    line could not be printed: the message itself, when it is a text with a
    lone surrogate, before anything is forwarded; or the failure of the
    request. *)
Theorem subscriber_never_reports_success `{Runtime} (bytes : list byte)
    (unreachable : option exn) (w : World) :
  match outcome (subscriber_on_message bytes unreachable) w with
  | Done lines => "Data sent to API successfully" ∉ lines
  | Raised e =>
    ∃ text, decode_utf8 bytes = Raised e ∨
            decode_utf8 bytes = Done text ∧ json_loads text = Raised e ∨
            ∃ payload,
              decode_utf8 bytes = Done text ∧ json_loads text = Done payload ∧
              e = cannot_encode ∧
              (printable payload = false ∧
               after (subscriber_on_message bytes unreachable) w = w ∨
               ∃ e', unreachable = Some e' ∧ encodable (exn_str e') = false)
  end.
Proof.
  unfold subscriber_on_message, forward, print_line, outcome, after, bind, lift, ret.
  destruct (decode_utf8 bytes) as [text|e] eqn:Hdec; cbn [fst]; [|by exists EmptyString; left].
  destruct (json_loads text) as [payload|e] eqn:Hload; cbn [fst];
    [|exists text; right; by left].
  destruct (printable payload) eqn:Hprint; cbn [fst snd];
    [|exists text; right; right; exists payload; do 3 (split; [first [reflexivity | assumption]|]); by left].
  assert (∀ x, "Received message: " +:+ x ≠ "Data sent to API successfully") as Hrecv.
  { intros x. cbn. discriminate. }
  destruct unreachable as [e|].
  - cbn [printable]. destruct (encodable (exn_str e)) eqn:Hfail; cbn [fst].
    + intros Hin. apply elem_of_cons in Hin as [Hin|Hin]; [by eapply Hrecv|].
      apply elem_of_cons in Hin as [Hin|Hin]; [cbn in Hin; discriminate Hin|].
      by apply elem_of_nil in Hin.
    + exists text. right; right. exists payload. do 3 (split; [first [reflexivity | assumption]|]). right. by exists e.
  - destruct (create_sensor_data_status (mkRequest ∅ (Done payload)) w)
      as (body & code & Hout & Hcode).
    unfold outcome in Hout.
    destruct (create_sensor_data (mkRequest ∅ (Done payload)) w) as [r w1].
    cbn [fst] in Hout. subst r. cbn [fst snd].
    assert ((code =? 200) = false) as ->.
    { apply Z.eqb_neq. intros ->.
      repeat (apply elem_of_cons in Hcode as [Hcode|Hcode]; [discriminate Hcode|]).
      by apply elem_of_nil in Hcode. }
    cbn [fst]. intros Hin. apply elem_of_cons in Hin as [Hin|Hin]; [by eapply Hrecv|].
    apply elem_of_cons in Hin as [Hin|Hin]; [cbn in Hin; discriminate Hin|].
    by apply elem_of_nil in Hin.
Qed.

(** A record of machine 3, as the publisher serialises it. *)
Definition sensegrid_3 : string :=
  "{" +:+ q "machine_id" +:+ ": 3, " +:+ q "production_count" +:+ ": 1027, " +:+
  q "oee" +:+ ": 80.5, " +:+ q "downtime_reason" +:+ ": " +:+ q "Electrical" +:+ ", " +:+
  q "timestamp" +:+ ": " +:+ q "2025-12-09T15:42:32Z" +:+ "}".

Lemma sensegrid_3_is_rejected :
  outcome (subscriber_on_message (list_byte_of_string sensegrid_3) None) stored_20
  = Done ["Received message: " +:+
          py_str (generate_sensegrid_data 3 1027 0x4054200000000000 "Electrical"
                    "2025-12-09T15:42:32Z");
          "API response error: 400"] ∧
  table (after (subscriber_on_message (list_byte_of_string sensegrid_3) None) stored_20)
  = table stored_20.
Proof.
  destruct (sensegrid_record_is_rejected (list_byte_of_string sensegrid_3) sensegrid_3
              3 1027 0x4054200000000000 "Electrical" "2025-12-09T15:42:32Z" stored_20)
    as (_ & Hsub).
  - vm_compute. reflexivity.
  - vm_compute. reflexivity.
  - unfold outcome, after. rewrite Hsub. split; reflexivity.
Defined.
